(** * paint-bids-v1: the bid estimator of [paint-bids-v1.py]

    A shallow embedding of the estimator: Python's numbers (unbounded
    integers and binary64 floats, with the exceptions their operators
    raise), the constant tables of the script, [calculate_hours],
    [calculate_costs], [generate_pdf_bid] and the "Generate Bid" handler,
    the last three over an explicit state that holds what Streamlit has
    displayed and the files on disk. *)

From Stdlib Require Import ZArith Lia Bool List String.
From Stdlib Require Import Floats.SpecFloat.
From stdpp Require Import base option gmap strings.

Local Open Scope Z_scope.

(** ** Python numbers *)

Module Py.

(** Exceptions that the arithmetic, the dictionary lookups and the
    formatting of the script can raise; [IOError] stands for whatever the
    PDF writer and the file operations raise. *)
Inductive exn : Type :=
  | KeyError (key : string)
  | ZeroDivisionError
  | OverflowError
  | ValueError
  | IOError.

Inductive res (A : Type) : Type :=
  | Ok (a : A)
  | Raise (e : exn).
Arguments Ok {A} a.
Arguments Raise {A} e.

Definition rbind {A B} (r : res A) (k : A -> res B) : res B :=
  match r with
  | Ok a => k a
  | Raise e => Raise e
  end.

(** A Python [float] is an IEEE 754 binary64 number. *)
Definition prec : Z := 53.
Definition emax : Z := 1024.

Abbreviation float := spec_float.

(** A number of the script is an [int] or a [float]. *)
Inductive value : Type :=
  | PInt (z : Z)
  | PFloat (f : float).

Definition is_inf (f : float) : bool :=
  match f with S754_infinity _ => true | _ => false end.

Definition is_nan (f : float) : bool :=
  match f with S754_nan => true | _ => false end.

Definition is_zero (f : float) : bool :=
  match f with S754_zero _ => true | _ => false end.

Definition is_finite (f : float) : bool :=
  match f with S754_finite _ _ _ => true | _ => false end.

(** The correctly rounded quotient of two integers, [b] not zero, as
    [int.__truediv__] and the reading of a decimal literal compute it.  The
    quotient of 0 takes its sign from both operands. *)
Definition div_round (a b : Z) : float :=
  let s := xorb (a <? 0) (b <? 0) in
  match Z.abs a, Z.abs b with
  | Zpos ma, Zpos mb =>
      SFdiv prec emax (S754_finite s ma 0) (S754_finite false mb 0)
  | _, _ => S754_zero s
  end.

(** [float(z)]: the nearest binary64, [OverflowError] beyond the range. *)
Definition float_of_int (z : Z) : res float :=
  let f := binary_normalize prec emax z 0 false in
  if is_inf f then Raise OverflowError else Ok f.

(** A decimal literal [n / 10^d], such as [0.45] = [literal 45 2]. *)
Definition literal (n : Z) (d : Z) : float := div_round n (10 ^ d).

Definition int_truediv (a b : Z) : res value :=
  if b =? 0 then Raise ZeroDivisionError
  else
    let f := div_round a b in
    if is_inf f then Raise OverflowError else Ok (PFloat f).

Definition float_truediv (x y : float) : res value :=
  if is_zero y then Raise ZeroDivisionError
  else Ok (PFloat (SFdiv prec emax x y)).

(** [v / w] *)
Definition truediv (v w : value) : res value :=
  match v, w with
  | PInt a, PInt b => int_truediv a b
  | PFloat x, PInt b => rbind (float_of_int b) (float_truediv x)
  | PInt a, PFloat y => rbind (float_of_int a) (fun x => float_truediv x y)
  | PFloat x, PFloat y => float_truediv x y
  end.

(** [v * w]: exact on integers, rounded (and never raising) on floats. *)
Definition mul (v w : value) : res value :=
  match v, w with
  | PInt a, PInt b => Ok (PInt (a * b))
  | PFloat x, PInt b =>
      rbind (float_of_int b) (fun y => Ok (PFloat (SFmul prec emax x y)))
  | PInt a, PFloat y =>
      rbind (float_of_int a) (fun x => Ok (PFloat (SFmul prec emax x y)))
  | PFloat x, PFloat y => Ok (PFloat (SFmul prec emax x y))
  end.

(** [v + w] *)
Definition add (v w : value) : res value :=
  match v, w with
  | PInt a, PInt b => Ok (PInt (a + b))
  | PFloat x, PInt b =>
      rbind (float_of_int b) (fun y => Ok (PFloat (SFadd prec emax x y)))
  | PInt a, PFloat y =>
      rbind (float_of_int a) (fun x => Ok (PFloat (SFadd prec emax x y)))
  | PFloat x, PFloat y => Ok (PFloat (SFadd prec emax x y))
  end.

(** Comparison of a float with an integer is exact in Python: no
    conversion of the integer takes place. *)
Definition compare_float_int (x : float) (b : Z) : option comparison :=
  match x with
  | S754_nan => None
  | S754_infinity s => Some (if s then Lt else Gt)
  | S754_zero _ => Some (0 ?= b)
  | S754_finite s m e =>
      let n := if s then Zneg m else Zpos m in
      Some (match e with
            | Zneg p => n ?= b * 2 ^ Zpos p
            | _ => n * 2 ^ e ?= b
            end)
  end.

Definition compare (v w : value) : option comparison :=
  match v, w with
  | PInt a, PInt b => Some (a ?= b)
  | PFloat x, PInt b => compare_float_int x b
  | PInt a, PFloat y => option_map CompOpp (compare_float_int y a)
  | PFloat x, PFloat y => SFcompare x y
  end.

(** [v == w], [v <= w], [v > w] *)
Definition eqb (v w : value) : bool :=
  match compare v w with Some Eq => true | _ => false end.

Definition leb (v w : value) : bool :=
  match compare v w with Some (Lt | Eq) => true | _ => false end.

Definition gtb (v w : value) : bool :=
  match compare v w with Some Gt => true | _ => false end.

(** The integer nearest to [n / d] ([d] positive), ties to even. *)
Definition div_half_even (n d : Z) : Z :=
  let q := n / d in
  let r := n mod d in
  match 2 * r ?= d with
  | Lt => q
  | Gt => q + 1
  | Eq => if Z.even q then q else q + 1
  end.

(** [round(x, ndigits)] on a finite positive float [m * 2^e]: the exact
    value is rounded to [ndigits] decimals, ties to even, and the decimal
    that results is read back as a float. *)
Definition round_pos (m : positive) (e : Z) (ndigits : Z) : Z * Z :=
  let '(num, den) :=
    match e with
    | Zneg p => (Zpos m, 2 ^ Zpos p)
    | _ => (Zpos m * 2 ^ e, 1)
    end in
  if 0 <=? ndigits
  then (div_half_even (num * 10 ^ ndigits) den, 10 ^ ndigits)
  else (div_half_even num (den * 10 ^ (- ndigits)) * 10 ^ (- ndigits), 1).

Definition NDIGITS_MAX : Z := 323.
Definition NDIGITS_MIN : Z := -308.

Definition float_round (x : float) (ndigits : Z) : res value :=
  match x with
  | S754_finite s m e =>
      if NDIGITS_MAX <? ndigits then Ok (PFloat x)
      else if ndigits <? NDIGITS_MIN then Ok (PFloat (S754_zero s))
      else
        let '(n, d) := round_pos m e ndigits in
        let f := div_round (if s then - n else n) d in
        let f := match f with S754_zero _ => S754_zero s | _ => f end in
        if is_inf f then Raise OverflowError else Ok (PFloat f)
  | _ => Ok (PFloat x)
  end.

(** [round(v, ndigits)]; the script only rounds with [ndigits = 1], where an
    [int] is returned unchanged. *)
Definition round (v : value) (ndigits : Z) : res value :=
  match v with
  | PFloat x => float_round x ndigits
  | PInt a =>
      if 0 <=? ndigits then Ok (PInt a)
      else Ok (PInt (div_half_even a (10 ^ (- ndigits)) * 10 ^ (- ndigits)))
  end.

(** The text of a number under a format specification [:.Nf]: the digits
    of [n] with the last [ndigits] of them after the point, and a minus
    sign if [negative]; or [inf], [-inf], [nan]. *)
Inductive fixed : Type :=
  | Fixed (negative : bool) (n : Z) (ndigits : Z)
  | FixedInf (negative : bool)
  | FixedNan.

(** [format(x, ".Nf")] on a float: the exact value rounded to [ndigits]
    decimals, ties to even; the sign is kept, also on a zero. *)
Definition float_format (x : float) (ndigits : Z) : fixed :=
  match x with
  | S754_zero s => Fixed s 0 ndigits
  | S754_finite s m e => Fixed s (fst (round_pos m e ndigits)) ndigits
  | S754_infinity s => FixedInf s
  | S754_nan => FixedNan
  end.

(** [f"{v:.Nf}"]: an [int] is converted to a float first, which raises
    [OverflowError] beyond the range. *)
Definition format_fixed (v : value) (ndigits : Z) : res fixed :=
  match v with
  | PInt a => rbind (float_of_int a) (fun x => Ok (float_format x ndigits))
  | PFloat x => Ok (float_format x ndigits)
  end.

(** The most digits an [int] may have when it is converted to text
    ([sys.int_info.default_max_str_digits] of CPython 3.11). *)
Definition INT_MAX_STR_DIGITS : Z := 4300.

(** [f"{a}"] on an [int]: its decimal numeral, which stands for itself
    here; [ValueError] with more than [INT_MAX_STR_DIGITS] digits. *)
Definition int_str (a : Z) : res Z :=
  if 10 ^ INT_MAX_STR_DIGITS <=? Z.abs a then Raise ValueError else Ok a.

#[global] Arguments truediv : simpl never.
#[global] Arguments mul : simpl never.
#[global] Arguments add : simpl never.
#[global] Arguments round : simpl never.
#[global] Arguments int_str : simpl never.

End Py.

Import Py.

Local Open Scope string_scope.
Local Open Scope list_scope.
Local Open Scope Z_scope.

(** ** Streamlit and the disk

    What the script does besides computing: it puts elements on the page
    ([st.error], [st.success], [st.header], [st.write],
    [st.download_button]) and writes, reads and removes one file.  An
    element holds the text the script formats for it. *)

Module St.

(** The text of an [st.error] box, by the place that raises it. *)
Inductive message : Type :=
  | HourCalculationError (e : exn)
  | CostCalculationError (e : exn)
  | PdfError (e : exn)
  | CalculationFailed
  | WeekLimitExceeded (hours_per_painter : fixed) (limit : Z).

(** The texts [generate_pdf_bid] draws on the page of the PDF. *)
Record document : Type := Document {
  doc_date : string;
  doc_sq_ft : Z;
  doc_scope : string;
  doc_prep_level : string;
  doc_crew_size : Z;
  doc_total_hours : fixed;
  doc_labor_cost : fixed;
  doc_material_cost : fixed;
  doc_total_cost : fixed
}.

Inductive element : Type :=
  | Error (m : message)
  | Success (crew_size : Z)
  | Header (text : string)
  | Write (label : string) (text : fixed)
  | DownloadButton (file_name : string) (data : document).

(** The page, the files of the working directory, what the system lets
    the script do with them (write the PDF, read a file that is there,
    remove a file that is there), and the date. *)
Record world : Type := World {
  page : list element;
  disk : gmap string document;
  disk_writable : bool;
  disk_readable : bool;
  disk_removable : bool;
  today : string
}.

Definition show (el : element) (w : world) : world :=
  {| page := page w ++ [el]; disk := disk w;
     disk_writable := disk_writable w; disk_readable := disk_readable w;
     disk_removable := disk_removable w; today := today w |}.

Definition set_disk (d : gmap string document) (w : world) : world :=
  {| page := page w; disk := d;
     disk_writable := disk_writable w; disk_readable := disk_readable w;
     disk_removable := disk_removable w; today := today w |}.

(** A computation of the script: it may raise, and it changes the world. *)
Definition M (A : Type) : Type := world -> res A * world.

#[global] Instance M_ret : MRet M := fun A a w => (Ok a, w).

#[global] Instance M_bind : MBind M := fun A B k m w =>
  match m w with
  | (Ok a, w') => k a w'
  | (Raise e, w') => (Raise e, w')
  end.

Definition lift {A} (r : res A) : M A := fun w => (r, w).

Definition get_world : M world := fun w => (Ok w, w).

(** [try: body except <handled>: handler]: an exception that [handler]
    does not take propagates; the world is not rolled back. *)
Definition try_except {A} (body : M A) (handler : exn -> option (M A)) : M A :=
  fun w =>
    match body w with
    | (Ok a, w') => (Ok a, w')
    | (Raise e, w') =>
        match handler e with
        | Some h => h w'
        | None => (Raise e, w')
        end
    end.

Definition error (m : message) : M unit := fun w => (Ok tt, show (Error m) w).
Definition success (crew_size : Z) : M unit :=
  fun w => (Ok tt, show (Success crew_size) w).
Definition header (text : string) : M unit :=
  fun w => (Ok tt, show (Header text) w).
Definition write (label : string) (text : fixed) : M unit :=
  fun w => (Ok tt, show (Write label text) w).
Definition download_button (file_name : string) (data : document) : M unit :=
  fun w => (Ok tt, show (DownloadButton file_name data) w).

(** [canvas.save()], [open(name, "rb")] and [os.remove(name)].  Each can
    fail on its own: a file that could be written may still be unreadable,
    or in a directory that lets no entry be removed. *)
Definition save (name : string) (d : document) : M unit :=
  fun w =>
    if disk_writable w then (Ok tt, set_disk (<[name := d]> (disk w)) w)
    else (Raise IOError, w).

Definition open_rb (name : string) : M document :=
  fun w =>
    match disk w !! name with
    | Some d => if disk_readable w then (Ok d, w) else (Raise IOError, w)
    | None => (Raise IOError, w)
    end.

Definition remove (name : string) : M unit :=
  fun w =>
    match disk w !! name with
    | Some _ =>
        if disk_removable w then (Ok tt, set_disk (delete name (disk w)) w)
        else (Raise IOError, w)
    | None => (Raise IOError, w)
    end.

End St.

Import St.

(** ** The script *)

(** The options of the two select boxes, and the bounds of the number
    input and of the slider. *)
Definition scope_options : list string :=
  ["Interior Only"; "Exterior Only"; "Both Interior and Exterior"].

Definition prep_level_options : list string :=
  ["Low (minimal prep)"; "Medium (some scraping/patching)";
   "High (extensive prep)"].

Definition sq_ft_min : Z := 1000.
Definition sq_ft_max : Z := 4000.
Definition crew_size_min : Z := 1.
Definition crew_size_max : Z := 4.

(** Constants based on prior data *)
Definition PAINTER_WAGE : Z := 20.
Definition PAINT_COST_PER_GALLON : Z := 40.
Definition GALLONS_PER_100_SQFT : float := literal 25 3.
Definition SUPPLIES_COST_PER_1000_SQFT : Z := 50.
Definition MARKUP_PERCENT : float := literal 45 2.
Definition MAX_WEEK_HOURS : Z := 50.

(** Time estimates (hours per 1,000 sq ft, adjusted for prep and scope) *)
Definition TIME_ESTIMATES : gmap string (gmap string Z) :=
  <["Interior Only" :=
      <["Low" := 10]> (<["Medium" := 12]> (<["High" := 15]> ∅))]>
  (<["Exterior Only" :=
      <["Low" := 12]> (<["Medium" := 15]> (<["High" := 20]> ∅))]>
  (<["Both Interior and Exterior" :=
      <["Low" := 22]> (<["Medium" := 27]> (<["High" := 35]> ∅))]> ∅)).

(** [d[key]] *)
Definition getitem {V} (d : gmap string V) (key : string) : res V :=
  match d !! key with
  | Some v => Ok v
  | None => Raise (KeyError key)
  end.

(** The functions take the square footage and the crew size as integers,
    which is what [st.number_input] with integer bounds and [st.slider]
    return, and the scope and the prep level as strings. *)

(** The body of the [try] of [calculate_hours]. *)
Definition calculate_hours_body (sq_ft : Z) (scope prep_level : string)
  : res value :=
  rbind (getitem TIME_ESTIMATES scope) (fun by_prep =>
  rbind (getitem by_prep prep_level) (fun base_hours_per_1000 =>
  rbind (truediv (PInt sq_ft) (PInt 1000)) (fun per_1000 =>
  rbind (mul per_1000 (PInt base_hours_per_1000)) (fun total_hours =>
  round total_hours 1)))).

Definition calculate_hours (sq_ft : Z) (scope prep_level : string) : M value :=
  try_except
    (lift (calculate_hours_body sq_ft scope prep_level))
    (fun e =>
       match e with
       | KeyError _ =>
           Some (_ ← error (HourCalculationError e); mret (PInt 0))
       | _ => None
       end).

Definition costs : Type := value * value * value * value * value.

(** The body of the [try] of [calculate_costs]. *)
Definition calculate_costs_body (sq_ft : Z) (scope prep_level : string)
  (crew_size : Z) : M costs :=
  total_hours ← calculate_hours sq_ft scope prep_level;
  hours_per_painter ←
    (if crew_size >? 0 then lift (truediv total_hours (PInt crew_size))
     else mret total_hours);
  labor_cost ← lift (mul total_hours (PInt PAINTER_WAGE));
  let paint_area :=
    if String.eqb scope "Both Interior and Exterior" then sq_ft * 2
    else sq_ft in
  per_100 ← lift (truediv (PInt paint_area) (PInt 100));
  gallons_needed ← lift (mul per_100 (PFloat GALLONS_PER_100_SQFT));
  paint_cost ← lift (mul gallons_needed (PInt PAINT_COST_PER_GALLON));
  per_1000 ← lift (truediv (PInt sq_ft) (PInt 1000));
  supplies_cost ← lift (mul per_1000 (PInt SUPPLIES_COST_PER_1000_SQFT));
  material_cost ← lift (add paint_cost supplies_cost);
  subtotal ← lift (add labor_cost material_cost);
  markup ← lift (mul subtotal (PFloat MARKUP_PERCENT));
  total_cost ← lift (add subtotal markup);
  mret (total_hours, hours_per_painter, labor_cost, material_cost, total_cost).

Definition calculate_costs (sq_ft : Z) (scope prep_level : string)
  (crew_size : Z) : M costs :=
  try_except
    (calculate_costs_body sq_ft scope prep_level crew_size)
    (fun e =>
       Some (_ ← error (CostCalculationError e);
             mret (PInt 0, PInt 0, PInt 0, PInt 0, PInt 0))).

Definition pdf_filename : string := "painting_bid.pdf".

(** The lines are formatted one after the other, and [c.save()] writes
    the file at the end: nothing is written when a line cannot be
    formatted. *)
Definition generate_pdf_bid (sq_ft : Z) (scope prep_level : string)
  (crew_size : Z) (total_hours labor_cost material_cost total_cost : value)
  : M (option string) :=
  try_except
    (w ← get_world;
     house_size ← lift (int_str sq_ft);
     painters ← lift (int_str crew_size);
     hours ← lift (format_fixed total_hours 1);
     labor ← lift (format_fixed labor_cost 2);
     material ← lift (format_fixed material_cost 2);
     total ← lift (format_fixed total_cost 2);
     _ ← save pdf_filename
           (Document (today w) house_size scope prep_level painters
              hours labor material total);
     mret (Some pdf_filename))
    (fun e => Some (_ ← error (PdfError e); mret None)).

(** Main logic, run when the "Generate Bid" button is pressed. *)
Definition generate_bid (sq_ft : Z) (scope prep_level : string)
  (crew_size : Z) : M unit :=
  '(total_hours, hours_per_painter, labor_cost, material_cost, total_cost) ←
    calculate_costs sq_ft scope prep_level crew_size;
  if eqb total_hours (PInt 0) then error CalculationFailed
  else if leb hours_per_painter (PInt MAX_WEEK_HOURS) then
    painters ← lift (int_str crew_size);
    _ ← success painters;
    _ ← header "Bid Summary";
    hours ← lift (format_fixed total_hours 1);
    _ ← write "Total Hours" hours;
    per_painter ← lift (format_fixed hours_per_painter 1);
    _ ← write "Hours per Painter" per_painter;
    labor ← lift (format_fixed labor_cost 2);
    _ ← write "Labor Cost" labor;
    material ← lift (format_fixed material_cost 2);
    _ ← write "Material Cost" material;
    total ← lift (format_fixed total_cost 2);
    _ ← write "Total Cost" total;
    pdf_file ← generate_pdf_bid sq_ft scope prep_level crew_size
                 total_hours labor_cost material_cost total_cost;
    match pdf_file with
    | Some name =>
        data ← open_rb name;
        _ ← download_button name data;
        remove name
    | None => mret tt
    end
  else
    per_painter ← lift (format_fixed hours_per_painter 1);
    error (WeekLimitExceeded per_painter MAX_WEEK_HOURS).

(** The table entry for [(scope, prep_level)], when the pair is a key path
    of [TIME_ESTIMATES]. *)
Definition base_hours (scope prep_level : string) : option Z :=
  TIME_ESTIMATES !! scope ≫= fun by_prep => by_prep !! prep_level.

(** The nine key paths of the table. *)
Definition time_estimate_entries : list (string * string * Z) :=
  [("Interior Only", "Low", 10); ("Interior Only", "Medium", 12);
   ("Interior Only", "High", 15);
   ("Exterior Only", "Low", 12); ("Exterior Only", "Medium", 15);
   ("Exterior Only", "High", 20);
   ("Both Interior and Exterior", "Low", 22);
   ("Both Interior and Exterior", "Medium", 27);
   ("Both Interior and Exterior", "High", 35)].

(** A world to run the examples in: an empty page and an empty disk. *)
Definition empty_world : world :=
  {| page := []; disk := ∅; disk_writable := true; disk_readable := true;
     disk_removable := true; today := "2024-05-01" |}.

(** What one run put on the page: [w'] shows the page of [w] followed by
    [els]. *)
Definition shows (w w' : world) (els : list element) : Prop :=
  page w' = page w ++ els.

Definition is_error (el : element) : bool :=
  match el with Error _ => true | _ => false end.

(** The five numbers of the tuple as the handler formats them for the
    summary: the hours with one decimal, the costs with two. *)
Definition texts : Type := fixed * fixed * fixed * fixed * fixed.

Definition summary_texts (c : costs) : res texts :=
  let '(total_hours, hours_per_painter, labor_cost, material_cost,
        total_cost) := c in
  rbind (format_fixed total_hours 1) (fun hours =>
  rbind (format_fixed hours_per_painter 1) (fun per_painter =>
  rbind (format_fixed labor_cost 2) (fun labor =>
  rbind (format_fixed material_cost 2) (fun material =>
  rbind (format_fixed total_cost 2) (fun total =>
  Ok (hours, per_painter, labor, material, total)))))).

(** The bid summary of the handler. *)
Definition bid_summary (crew_size : Z) (t : texts) : list element :=
  let '(hours, per_painter, labor, material, total) := t in
  [Success crew_size; Header "Bid Summary";
   Write "Total Hours" hours;
   Write "Hours per Painter" per_painter;
   Write "Labor Cost" labor;
   Write "Material Cost" material;
   Write "Total Cost" total].

(** A computation whose result does not depend on the world it runs in,
    and whose effect on the world is a function of the world alone. *)
Definition oblivious {A} (m : M A) : Prop :=
  exists (r : res A) (f : world -> world), forall w, m w = (r, f w).

(** The components of the tuple [calculate_costs] returns. *)
Definition total_hours_of (c : costs) : value :=
  let '(total_hours, _, _, _, _) := c in total_hours.
Definition hours_per_painter_of (c : costs) : value :=
  let '(_, hours_per_painter, _, _, _) := c in hours_per_painter.
Definition labor_cost_of (c : costs) : value :=
  let '(_, _, labor_cost, _, _) := c in labor_cost.
Definition material_cost_of (c : costs) : value :=
  let '(_, _, _, material_cost, _) := c in material_cost.
Definition total_cost_of (c : costs) : value :=
  let '(_, _, _, _, total_cost) := c in total_cost.

(** The tuple of the [except] branch of [calculate_costs]. *)
Definition zero_costs : costs := (PInt 0, PInt 0, PInt 0, PInt 0, PInt 0).

(** The statements of [calculate_costs] that follow the call of
    [calculate_hours]; none of them touches the world. *)
Definition costs_from_hours (sq_ft : Z) (scope : string) (crew_size : Z)
  (total_hours : value) : res costs :=
  rbind (if crew_size >? 0 then truediv total_hours (PInt crew_size)
         else Ok total_hours) (fun hours_per_painter =>
  rbind (mul total_hours (PInt PAINTER_WAGE)) (fun labor_cost =>
  let paint_area :=
    if String.eqb scope "Both Interior and Exterior" then sq_ft * 2
    else sq_ft in
  rbind (truediv (PInt paint_area) (PInt 100)) (fun per_100 =>
  rbind (mul per_100 (PFloat GALLONS_PER_100_SQFT)) (fun gallons_needed =>
  rbind (mul gallons_needed (PInt PAINT_COST_PER_GALLON)) (fun paint_cost =>
  rbind (truediv (PInt sq_ft) (PInt 1000)) (fun per_1000 =>
  rbind (mul per_1000 (PInt SUPPLIES_COST_PER_1000_SQFT)) (fun supplies_cost =>
  rbind (add paint_cost supplies_cost) (fun material_cost =>
  rbind (add labor_cost material_cost) (fun subtotal =>
  rbind (mul subtotal (PFloat MARKUP_PERCENT)) (fun markup =>
  rbind (add subtotal markup) (fun total_cost =>
  Ok (total_hours, hours_per_painter, labor_cost, material_cost,
      total_cost)))))))))))).

(** The material cost as the specification words it:
    [(paint_area / 100) * 0.025 * 40 + (sq_ft / 1000) * 50] with
    [paint_area = 2 * sq_ft] for both scopes and [sq_ft] otherwise. *)
Definition spec_material_cost (sq_ft : Z) (scope : string) : res value :=
  let paint_area :=
    if String.eqb scope "Both Interior and Exterior" then 2 * sq_ft
    else sq_ft in
  rbind (truediv (PInt paint_area) (PInt 100)) (fun a =>
  rbind (mul a (PFloat (literal 25 3))) (fun b =>
  rbind (mul b (PInt 40)) (fun paint =>
  rbind (truediv (PInt sq_ft) (PInt 1000)) (fun c =>
  rbind (mul c (PInt 50)) (fun supplies =>
  add paint supplies))))).

(** The total cost as the specification words it:
    [(labor_cost + material_cost) * (1 + 0.45)]. *)
Definition spec_total_cost (labor_cost material_cost : value) : res value :=
  rbind (add labor_cost material_cost) (fun subtotal =>
  rbind (add (PInt 1) (PFloat (literal 45 2))) (fun factor =>
  mul subtotal factor)).

(** The total cost as the script computes it:
    [subtotal + subtotal * MARKUP_PERCENT]. *)
Definition marked_up (labor_cost material_cost : value) : res value :=
  rbind (add labor_cost material_cost) (fun subtotal =>
  rbind (mul subtotal (PFloat MARKUP_PERCENT)) (fun markup =>
  add subtotal markup)).

(** A value that is a number: an integer, or a float other than NaN. *)
Definition is_number (v : value) : bool :=
  match v with
  | PInt _ => true
  | PFloat f => negb (is_nan f)
  end.

(** The handler reports failure and renders no bid: from [w] to [w'] the
    page only gains error boxes, the last of them "Calculation failed",
    and the disk is as it was. *)
Definition reports_failure (w w' : world) : Prop :=
  exists errs,
    shows w w' (errs ++ [Error CalculationFailed]) /\
    Forall (fun el => is_error el = true) errs /\
    disk w' = disk w.

(** The elements [els] begin with the bid summary of the tuple [c]. *)
Definition renders_summary (crew_size : Z) (c : costs) (els : list element)
  : Prop :=
  exists t rest,
    summary_texts c = Ok t /\ els = bid_summary crew_size t ++ rest.

#[global] Instance float_eq_dec : EqDecision float.
Proof. solve_decision. Defined.

#[global] Instance value_eq_dec : EqDecision value.
Proof. solve_decision. Defined.

(** [f] holds of [0], ..., [n - 1]. *)
Fixpoint all_below (n : nat) (f : Z -> bool) : bool :=
  match n with
  | O => true
  | S n' => f (Z.of_nat n') && all_below n' f
  end.

(** What [calculate_hours] computes once the table has given [base]:
    [round((sq_ft / 1000) * base, 1)]. *)
Definition hours_of (base sq_ft : Z) : res value :=
  rbind (truediv (PInt sq_ft) (PInt 1000)) (fun per_1000 =>
  rbind (mul per_1000 (PInt base)) (fun total_hours => round total_hours 1)).

(** [calculate_hours(k * a) = round(k * calculate_hours(a), 1)] for the
    table entry [base], decided by running both sides; and the same for
    every multiple [a] of 100 and every [k] with [k * a] in the range of
    the number input. *)
Definition scales_rounded (base a k : Z) : bool :=
  match hours_of base a with
  | Ok h =>
      match rbind (mul (PInt k) h) (fun x => round x 1),
            hours_of base (k * a) with
      | Ok (PFloat x), Ok (PFloat y) => bool_decide (x = y)
      | _, _ => false
      end
  | Raise _ => false
  end.

Definition scales_rounded_upto (base : Z) : bool :=
  all_below 41 (fun j =>
    all_below 41 (fun k =>
      if j =? 0 then true
      else if sq_ft_max <? k * (100 * j) then true
      else scales_rounded base (100 * j) k)).

(** [f] is zero or a finite float of magnitude under [2^B], with an
    exponent no rounding has to lower. *)
Definition below (B : Z) (f : float) : Prop :=
  match f with
  | S754_zero _ => True
  | S754_finite _ m e => Zpos m < 2 ^ (B - e) /\ e <= Z.max 0 (B - prec)
  | _ => False
  end.

(** Integers under this bound are far inside the range of a float. *)
Definition int_bound : Z := 10 ^ 300.

(** What the form can send: a square footage and a crew size within the
    bounds of the number input and of the slider, and one option of each
    select box. *)
Definition form_input (sq_ft : Z) (scope prep_level : string) (crew_size : Z)
  : Prop :=
  sq_ft_min <= sq_ft <= sq_ft_max /\
  scope ∈ scope_options /\
  prep_level ∈ prep_level_options /\
  crew_size_min <= crew_size <= crew_size_max.

(** The document [generate_pdf_bid] hands to the PDF writer, when every
    line of it can be formatted. *)
Definition bid_document (date : string) (sq_ft : Z) (scope prep_level : string)
  (crew_size : Z) (total_hours labor_cost material_cost total_cost : value)
  : res document :=
  rbind (int_str sq_ft) (fun house_size =>
  rbind (int_str crew_size) (fun painters =>
  rbind (format_fixed total_hours 1) (fun hours =>
  rbind (format_fixed labor_cost 2) (fun labor =>
  rbind (format_fixed material_cost 2) (fun material =>
  rbind (format_fixed total_cost 2) (fun total =>
  Ok (Document date house_size scope prep_level painters
        hours labor material total))))))).

(** A float within the range of the format: a finite one is under
    [2^emax]. *)
Definition in_range (f : float) : Prop :=
  match f with
  | S754_finite _ m e => Zdigits2 (Zpos m) + e <= emax
  | _ => True
  end.


(** The key a failed lookup reports: the scope when the table does not
    know it, and the prep level otherwise. *)
Definition missing_key (scope prep_level : string) : string :=
  match TIME_ESTIMATES !! scope with
  | Some _ => prep_level
  | None => scope
  end.

(** The error boxes [calculate_hours] shows: none for a key path of the
    table, and the key error otherwise. *)
Definition hour_errors (scope prep_level : string) : list element :=
  match base_hours scope prep_level with
  | Some _ => []
  | None =>
      [Error (HourCalculationError
                (KeyError (missing_key scope prep_level)))]
  end.

(** [round((sq_ft / 1000) * base, 1)] is a zero for [base = b] and every
    [sq_ft] with [|sq_ft| * b < 50], decided by running it. *)
Definition rounds_to_zero (b sq_ft : Z) : bool :=
  match hours_of b sq_ft with
  | Ok (PFloat f) => is_zero f
  | _ => false
  end.

Definition rounds_to_zero_upto (b : Z) : bool :=
  all_below 9 (fun j =>
    if 50 <=? Z.abs (j - 4) * b then true else rounds_to_zero b (j - 4)).

(** [f] is an infinity or a finite float of magnitude at least [2^L]. *)
Definition above (L : Z) (f : float) : Prop :=
  match f with
  | S754_finite _ m e => L < Zdigits2 (Zpos m) + e
  | S754_infinity _ => True
  | _ => False
  end.

(** [f] is a number whose sign bit is [s]. *)
Definition has_sign (s : bool) (f : float) : Prop :=
  match f with
  | S754_zero s' | S754_infinity s' | S754_finite s' _ _ => s' = s
  | S754_nan => False
  end.

(** [v] is not negative: an integer from 0 on, or a float without the
    sign bit (so neither [-0.0] nor a NaN). *)
Definition nonneg (v : value) : Prop :=
  match v with
  | PInt z => 0 <= z
  | PFloat f => has_sign false f
  end.

(** ** Python's arithmetic on known values *)

(** [0.45] is [0x1.ccccccccccccdp-2]. *)
Example literal_0_45 :
  literal 45 2 = S754_finite false 8106479329266893 (-54).
Proof. vm_compute. reflexivity. Qed.

(** [0.1 + 0.2 = 0.30000000000000004] *)
Example add_tenths :
  add (PFloat (literal 1 1)) (PFloat (literal 2 1)) =
  Ok (PFloat (literal 30000000000000004 17)).
Proof. vm_compute. reflexivity. Qed.

(** [round(0.25, 1) = 0.2], [round(0.35, 1) = 0.3], [round(2.675, 2) = 2.67],
    [round(20.08, 1) = 20.1] and [round(-0.04, 1) = -0.0]. *)
Example round_known :
  round (PFloat (literal 25 2)) 1 = Ok (PFloat (literal 2 1)) /\
  round (PFloat (literal 35 2)) 1 = Ok (PFloat (literal 3 1)) /\
  round (PFloat (literal 2675 3)) 2 = Ok (PFloat (literal 267 2)) /\
  round (PFloat (literal 2008 2)) 1 = Ok (PFloat (literal 201 1)) /\
  round (PFloat (literal (-4) 2)) 1 = Ok (PFloat (S754_zero true)).
Proof. repeat split; vm_compute; reflexivity. Qed.

(** [20.0 / 10**400] and [10**400 / 1000] raise [OverflowError], [1 / 0]
    raises [ZeroDivisionError], and [0 / -5 = -0.0]. *)
Example truediv_known :
  truediv (PFloat (literal 200 1)) (PInt (10 ^ 400)) = Raise OverflowError /\
  truediv (PInt (10 ^ 400)) (PInt 1000) = Raise OverflowError /\
  truediv (PInt 1) (PInt 0) = Raise ZeroDivisionError /\
  truediv (PInt 0) (PInt (-5)) = Ok (PFloat (S754_zero true)).
Proof. repeat split; vm_compute; reflexivity. Qed.

(** [0 == -0.0] holds, and [2**53 + 1 == float(2**53 + 1)] does not: an
    integer and a float are compared exactly. *)
Example eqb_known :
  eqb (PInt 0) (PFloat (S754_zero true)) = true /\
  float_of_int (2 ^ 53 + 1) = Ok (literal 9007199254740992 0) /\
  eqb (PInt (2 ^ 53 + 1)) (PFloat (literal 9007199254740992 0)) = false.
Proof. repeat split; vm_compute; reflexivity. Qed.

(** ** Rounding to binary64

    What the claims need of IEEE arithmetic: rounding a mantissa that is
    not negative never yields NaN, and yields zero only under the least
    subnormal; so the conversion of an integer, the quotient of two
    integers and the product of two finite floats are numbers. *)

Section Rounding.

Lemma digits2_pos_bounds m :
  2 ^ (Zpos (digits2_pos m) - 1) <= Zpos m < 2 ^ Zpos (digits2_pos m).
Proof.
  induction m as [m IH | m IH |]; simpl digits2_pos.
  - rewrite Pos2Z.inj_succ.
    replace (Z.succ (Zpos (digits2_pos m)) - 1)
      with (Z.succ (Zpos (digits2_pos m) - 1)) by lia.
    rewrite !Z.pow_succ_r by lia. lia.
  - rewrite Pos2Z.inj_succ.
    replace (Z.succ (Zpos (digits2_pos m)) - 1)
      with (Z.succ (Zpos (digits2_pos m) - 1)) by lia.
    rewrite !Z.pow_succ_r by lia. lia.
  - simpl. lia.
Qed.

Lemma shr_1_div2 r : 0 <= shr_m r -> shr_m (shr_1 r) = shr_m r / 2.
Proof.
  destruct r as [[| [p | p |] | p] rb sb]; simpl; intros H;
    try reflexivity; try lia.
  - change (Zpos p~1) with (2 * Zpos p + 1).
    apply Z.div_unique with 1; lia.
  - change (Zpos p~0) with (2 * Zpos p).
    apply Z.div_unique with 0; lia.
Qed.

Lemma pow2_xO n : 2 ^ Zpos n~0 = 2 ^ Zpos n * 2 ^ Zpos n.
Proof. rewrite Pos2Z.inj_xO, <- Z.pow_add_r by lia. f_equal. lia. Qed.

Lemma pow2_xI n : 2 ^ Zpos n~1 = 2 * (2 ^ Zpos n * 2 ^ Zpos n).
Proof.
  rewrite Pos2Z.inj_xI, <- Z.pow_add_r by lia.
  replace (2 * Zpos n + 1) with (Z.succ (Zpos n + Zpos n)) by lia.
  apply Z.pow_succ_r. lia.
Qed.

Lemma iter_pos_shr_1 n : forall r,
  0 <= shr_m r -> shr_m (SpecFloat.iter_pos shr_1 n r) = shr_m r / 2 ^ Zpos n.
Proof.
  induction n as [n IH | n IH |]; intros r Hr; cbn [SpecFloat.iter_pos].
  - assert (Hp : 0 < 2 ^ Zpos n) by (apply Z.pow_pos_nonneg; lia).
    assert (H1 : 0 <= shr_m (shr_1 r))
      by (rewrite shr_1_div2 by lia; apply Z.div_pos; lia).
    assert (H2 : 0 <= shr_m (SpecFloat.iter_pos shr_1 n (shr_1 r)))
      by (rewrite IH by lia; apply Z.div_pos; lia).
    rewrite (IH _ H2), (IH _ H1), shr_1_div2 by lia.
    rewrite pow2_xI, !Z.div_div by lia. reflexivity.
  - assert (Hp : 0 < 2 ^ Zpos n) by (apply Z.pow_pos_nonneg; lia).
    assert (H2 : 0 <= shr_m (SpecFloat.iter_pos shr_1 n r))
      by (rewrite IH by lia; apply Z.div_pos; lia).
    rewrite (IH _ H2), (IH _ Hr).
    rewrite pow2_xO, Z.div_div by lia. reflexivity.
  - rewrite shr_1_div2 by lia. reflexivity.
Qed.

Lemma shr_record_of_loc_m m l : shr_m (shr_record_of_loc m l) = m.
Proof. destruct l as [| []]; reflexivity. Qed.

Lemma shr_m_shift r e n :
  0 <= shr_m r ->
  shr_m (fst (shr r e n)) = shr_m r / 2 ^ Z.max 0 n /\
  snd (shr r e n) = e + Z.max 0 n.
Proof.
  intros Hr. destruct n as [| n | n]; simpl.
  - rewrite Z.div_1_r. lia.
  - rewrite iter_pos_shr_1 by exact Hr. split; [reflexivity | lia].
  - rewrite Z.div_1_r. lia.
Qed.

Lemma Zdigits2_bounds m :
  0 < m -> 2 ^ (Zdigits2 m - 1) <= m < 2 ^ Zdigits2 m.
Proof.
  destruct m as [| p | p]; try lia. intros _. apply digits2_pos_bounds.
Qed.

Lemma Zdigits2_pos m : 0 < m -> 0 < Zdigits2 m.
Proof. destruct m; simpl; lia. Qed.

Lemma Zdigits2_mono m m' : 0 < m -> m <= m' -> Zdigits2 m <= Zdigits2 m'.
Proof.
  intros Hm Hle.
  pose proof (Zdigits2_bounds m Hm) as [Hlo _].
  pose proof (Zdigits2_bounds m' ltac:(lia)) as [_ Hhi].
  pose proof (Zdigits2_pos m Hm). pose proof (Zdigits2_pos m' ltac:(lia)).
  assert (H2 : 2 ^ (Zdigits2 m - 1) < 2 ^ Zdigits2 m') by lia.
  apply Z.pow_lt_mono_r_iff in H2; lia.
Qed.

(** The shift that brings [m * 2^e] to its exponent leaves a mantissa that
    is not zero, unless the number lies under the least subnormal. *)
Lemma shift_keeps_positive m e :
  0 < m -> emin prec emax < Zdigits2 m + e ->
  2 ^ Z.max 0 (fexp prec emax (Zdigits2 m + e) - e) <= m.
Proof.
  intros Hm He.
  pose proof (Zdigits2_bounds m Hm) as [Hlo _].
  pose proof (Zdigits2_pos m Hm) as Hd.
  apply Z.le_trans with (2 ^ (Zdigits2 m - 1)); [| exact Hlo].
  apply Z.pow_le_mono_r; [lia |].
  unfold fexp, emin, prec, emax in *. lia.
Qed.

Lemma shr_fexp_m m e l :
  0 <= m ->
  shr_m (fst (shr_fexp prec emax m e l)) =
    m / 2 ^ Z.max 0 (fexp prec emax (Zdigits2 m + e) - e) /\
  snd (shr_fexp prec emax m e l) =
    e + Z.max 0 (fexp prec emax (Zdigits2 m + e) - e).
Proof.
  intros Hm. unfold shr_fexp.
  pose proof (shr_m_shift (shr_record_of_loc m l) e
                (fexp prec emax (Zdigits2 m + e) - e)) as H.
  rewrite shr_record_of_loc_m in H. apply H, Hm.
Qed.

Lemma round_nearest_even_bounds m l :
  m <= round_nearest_even m l <= m + 1.
Proof.
  destruct l as [| []]; simpl; try lia. destruct (Z.even m); lia.
Qed.

Lemma binary_round_aux_not_nan s m e l :
  0 <= m -> is_nan (binary_round_aux prec emax s m e l) = false.
Proof.
  intros Hm. unfold binary_round_aux.
  destruct (shr_fexp prec emax m e l) as [r1 e1] eqn:E1.
  pose proof (shr_fexp_m m e l Hm) as [H1 _]. rewrite E1 in H1. simpl in H1.
  assert (Hr1 : 0 <= shr_m r1).
  { rewrite H1. apply Z.div_pos; [lia |]. apply Z.pow_pos_nonneg; lia. }
  pose proof (round_nearest_even_bounds (shr_m r1) (loc_of_shr_record r1))
    as Hb.
  destruct (shr_fexp prec emax _ e1 loc_Exact) as [r2 e2] eqn:E2.
  pose proof (shr_fexp_m (round_nearest_even (shr_m r1) (loc_of_shr_record r1))
                e1 loc_Exact ltac:(lia)) as [H2 _].
  rewrite E2 in H2. simpl in H2.
  assert (Hr2 : 0 <= shr_m r2).
  { rewrite H2. apply Z.div_pos; [lia |]. apply Z.pow_pos_nonneg; lia. }
  destruct (shr_m r2) as [| p | p]; try lia; [reflexivity |].
  destruct (e2 <=? emax - prec); reflexivity.
Qed.

Lemma binary_round_aux_not_zero s m e l :
  0 < m -> emin prec emax < Zdigits2 m + e ->
  is_zero (binary_round_aux prec emax s m e l) = false.
Proof.
  intros Hm He. unfold binary_round_aux.
  destruct (shr_fexp prec emax m e l) as [r1 e1] eqn:E1.
  pose proof (shr_fexp_m m e l ltac:(lia)) as [H1 H1e].
  rewrite E1 in H1, H1e. simpl in H1, H1e.
  pose proof (shift_keeps_positive m e Hm He) as Hk1.
  assert (Hr1 : 0 < shr_m r1).
  { rewrite H1. apply Z.div_str_pos. split; [| exact Hk1].
    apply Z.pow_pos_nonneg; lia. }
  pose proof (round_nearest_even_bounds (shr_m r1) (loc_of_shr_record r1))
    as Hb.
  set (m2 := round_nearest_even (shr_m r1) (loc_of_shr_record r1)) in *.
  assert (He1 : emin prec emax < Zdigits2 m2 + e1).
  { pose proof (Zdigits2_pos m2 ltac:(lia)) as Hd2.
    destruct (Z.max_spec 0 (fexp prec emax (Zdigits2 m + e) - e))
      as [[Hlt Hmx] | [Hge Hmx]].
    - rewrite Hmx in H1e. unfold fexp in H1e. lia.
    - rewrite Hmx in H1, H1e. rewrite Z.div_1_r in H1.
      pose proof (Zdigits2_mono m m2 Hm ltac:(lia)). lia. }
  destruct (shr_fexp prec emax m2 e1 loc_Exact) as [r2 e2] eqn:E2.
  pose proof (shr_fexp_m m2 e1 loc_Exact ltac:(lia)) as [H2 _].
  rewrite E2 in H2. simpl in H2.
  pose proof (shift_keeps_positive m2 e1 ltac:(lia) He1) as Hk2.
  assert (Hr2 : 0 < shr_m r2).
  { rewrite H2. apply Z.div_str_pos. split; [| exact Hk2].
    apply Z.pow_pos_nonneg; lia. }
  destruct (shr_m r2) as [| p | p]; try lia.
  destruct (e2 <=? emax - prec); reflexivity.
Qed.

Lemma classify f :
  is_nan f = false -> is_inf f = false -> is_zero f = false ->
  is_finite f = true.
Proof. destruct f; simpl; congruence. Qed.

Lemma SFdiv_core_binary_nonneg m1 e1 m2 e2 :
  0 <= fst (fst (SFdiv_core_binary prec emax (Zpos m1) e1 (Zpos m2) e2)).
Proof.
  unfold SFdiv_core_binary.
  set (s := _ - _ - _).
  set (m' := match s with Z0 => Zpos m1 | Zpos _ => Z.shiftl (Zpos m1) s
                     | Zneg _ => 0 end).
  assert (Hm' : 0 <= m').
  { subst m'. destruct s; try lia. apply Z.shiftl_nonneg. lia. }
  pose proof (Z_div_mod m' (Zpos m2) ltac:(lia)) as H.
  destruct (Z.div_eucl m' (Zpos m2)) as [q r]. simpl. nia.
Qed.

Lemma SFdiv_finite_not_nan x y :
  is_nan x = false -> is_finite y = true ->
  is_nan (SFdiv prec emax x y) = false.
Proof.
  destruct x as [sx | sx | | sx mx ex], y as [sy | sy | | sy my ey];
    simpl; try congruence. intros _ _.
  pose proof (SFdiv_core_binary_nonneg mx ex my ey) as H.
  destruct (SFdiv_core_binary prec emax (Zpos mx) ex (Zpos my) ey)
    as [[mz ez] lz].
  apply binary_round_aux_not_nan, H.
Qed.

Lemma SFmul_not_nan x y :
  is_nan x = false -> is_nan y = false ->
  is_inf x = false -> is_inf y = false ->
  is_nan (SFmul prec emax x y) = false.
Proof.
  destruct x as [sx | sx | | sx mx ex], y as [sy | sy | | sy my ey];
    simpl; try congruence. intros _ _ _ _.
  apply binary_round_aux_not_nan. lia.
Qed.

Lemma div_round_not_nan a b : is_nan (div_round a b) = false.
Proof.
  unfold div_round.
  destruct (Z.abs a) as [| ma | ma]; try reflexivity.
  destruct (Z.abs b) as [| mb | mb]; try reflexivity.
  apply SFdiv_finite_not_nan; reflexivity.
Qed.

Lemma binary_round_finite_or_inf s m e :
  emin prec emax <= e ->
  is_nan (binary_round prec emax s m e) = false /\
  is_zero (binary_round prec emax s m e) = false.
Proof.
  intros He. unfold binary_round.
  destruct (shl_align m e _) as [mz ez] eqn:E.
  assert (Hez : emin prec emax <= ez).
  { unfold shl_align in E.
    destruct (fexp prec emax (Zpos (digits2_pos m) + e) - e) eqn:Ed;
      injection E as <- <-; try exact He.
    unfold fexp. lia. }
  split.
  - apply binary_round_aux_not_nan. lia.
  - apply binary_round_aux_not_zero; [lia |].
    pose proof (Zdigits2_pos (Zpos mz) ltac:(lia)). lia.
Qed.

(** [float(z)] is a finite float, and not zero unless [z] is. *)
Lemma float_of_int_finite z y :
  float_of_int z = Ok y ->
  z <> 0 -> is_finite y = true.
Proof.
  unfold float_of_int, binary_normalize. intros H Hz.
  destruct (is_inf _) eqn:Ei; [discriminate |]. injection H as <-.
  destruct z as [| p | p]; [lia | |];
    match type of Ei with
    | is_inf (binary_round _ _ ?s _ _) = _ =>
        destruct (binary_round_finite_or_inf s p 0) as [Hn Hzr];
        [unfold emin, prec, emax; lia |]
    end;
    apply classify; assumption.
Qed.

Lemma float_of_int_not_nan z y :
  float_of_int z = Ok y -> is_nan y = false /\ is_inf y = false.
Proof.
  unfold float_of_int, binary_normalize. intros H.
  destruct (is_inf _) eqn:Ei; [discriminate |]. injection H as <-.
  split; [| exact Ei].
  destruct z as [| p | p]; [reflexivity | |];
    apply binary_round_finite_or_inf; unfold emin, prec, emax; lia.
Qed.

(** *** No overflow

    Rounding a mantissa under [2^B] gives a float under [2^(B+1)], so
    that the operations of the script overflow on huge integers only. *)

Lemma below_not_inf B f : below B f -> is_inf f = false.
Proof. destruct f; simpl; tauto. Qed.

Lemma pow2_pos n : 0 <= n -> 0 < 2 ^ n.
Proof. intros. apply Z.pow_pos_nonneg; lia. Qed.

Lemma lt_pow2_exponent m n : 0 <= m < 2 ^ n -> 0 <= n.
Proof.
  intros [Hm Hlt]. destruct (Z.lt_ge_cases n 0) as [Hn | Hn]; [| exact Hn].
  rewrite Z.pow_neg_r in Hlt by exact Hn. lia.
Qed.

Lemma Zdigits2_le m n : 0 <= m < 2 ^ n -> Zdigits2 m <= n.
Proof.
  intros Hm. pose proof (lt_pow2_exponent m n Hm) as Hn.
  destruct (Z.eq_dec m 0) as [-> | Hne]; [simpl; lia |].
  pose proof (Zdigits2_bounds m ltac:(lia)) as [Hlo _].
  pose proof (Zdigits2_pos m ltac:(lia)) as Hd.
  assert (H2 : 2 ^ (Zdigits2 m - 1) < 2 ^ n) by lia.
  apply Z.pow_lt_mono_r_iff in H2; lia.
Qed.

(** One shift to the exponent of the format keeps the magnitude. *)
Lemma shr_fexp_below m e l B E :
  0 <= m < 2 ^ (B - e) -> 0 <= B -> e <= E -> 0 <= E -> B - prec <= E ->
  0 <= shr_m (fst (shr_fexp prec emax m e l)) <
    2 ^ (B - snd (shr_fexp prec emax m e l)) /\
  snd (shr_fexp prec emax m e l) <= E.
Proof.
  intros Hm HB He HE HBE.
  pose proof (shr_fexp_m m e l ltac:(lia)) as [-> ->].
  pose proof (lt_pow2_exponent _ _ Hm) as HBe.
  pose proof (Zdigits2_le _ _ Hm) as Hd.
  set (k := Z.max 0 (fexp prec emax (Zdigits2 m + e) - e)).
  assert (Hk : 0 <= k <= B - e /\ e + k <= E).
  { subst k. unfold fexp, SpecFloat.emin, emax, prec in *. lia. }
  destruct Hk as [Hk Hek].
  assert (Hp : 0 < 2 ^ k) by (apply pow2_pos; lia).
  split; [| exact Hek]. split; [apply Z.div_pos; lia |].
  apply Z.div_lt_upper_bound; [exact Hp |].
  rewrite <- Z.pow_add_r by lia.
  replace (k + (B - (e + k))) with (B - e) by lia. lia.
Qed.

Lemma binary_round_aux_below s m e l B :
  0 <= m < 2 ^ (B - e) -> e <= Z.max 0 (B + 1 - prec) -> 0 <= B < emax ->
  below (B + 1) (binary_round_aux prec emax s m e l).
Proof.
  intros Hm He HB. unfold binary_round_aux.
  set (E := Z.max 0 (B + 1 - prec)) in *.
  pose proof (shr_fexp_below m e l B E Hm ltac:(lia) He ltac:(lia)
                ltac:(lia)) as [H1 H1e].
  destruct (shr_fexp prec emax m e l) as [r1 e1]. simpl in H1, H1e.
  pose proof (round_nearest_even_bounds (shr_m r1) (loc_of_shr_record r1))
    as Hb.
  set (m2 := round_nearest_even (shr_m r1) (loc_of_shr_record r1)) in *.
  assert (Hm2 : 0 <= m2 < 2 ^ (B + 1 - e1)).
  { pose proof (lt_pow2_exponent _ _ H1).
    replace (B + 1 - e1) with (Z.succ (B - e1)) by lia.
    rewrite Z.pow_succ_r by lia. lia. }
  pose proof (shr_fexp_below m2 e1 loc_Exact (B + 1) E Hm2 ltac:(lia) H1e
                ltac:(lia) ltac:(lia)) as [H2 H2e].
  destruct (shr_fexp prec emax m2 e1 loc_Exact) as [r2 e2].
  simpl in H2, H2e.
  destruct (shr_m r2) as [| p | p]; simpl; try lia.
  destruct (Z.leb_spec e2 (emax - prec));
    [| subst E; unfold emax, prec in *; lia].
  simpl. split; lia.
Qed.

Lemma SFmul_below x y Bx By :
  below Bx x -> below By y -> 0 <= Bx -> 0 <= By -> Bx + By < emax ->
  below (Bx + By + 1) (SFmul prec emax x y).
Proof.
  destruct x as [sx | sx | | sx mx ex], y as [sy | sy | | sy my ey];
    simpl; try tauto.
  intros [Hx Hex] [Hy Hey] HBx HBy HB.
  pose proof (lt_pow2_exponent (Zpos mx) (Bx - ex) ltac:(lia)) as Hx0.
  pose proof (lt_pow2_exponent (Zpos my) (By - ey) ltac:(lia)) as Hy0.
  apply binary_round_aux_below; [| unfold prec in *; lia | lia].
  split; [lia |].
  replace (Bx + By - (ex + ey)) with ((Bx - ex) + (By - ey)) by lia.
  rewrite Z.pow_add_r by lia. rewrite Pos2Z.inj_mul.
  apply Z.mul_lt_mono_nonneg; lia.
Qed.

Lemma div_round_below a b B :
  Z.abs a < 2 ^ B -> 0 <= B < emax - 1 -> below (B + 1) (div_round a b).
Proof.
  intros Ha HB. unfold div_round.
  destruct (Z.abs a) as [| ma | ma] eqn:Ea; try exact I.
  destruct (Z.abs b) as [| mb | mb] eqn:Eb; try exact I.
  unfold SFdiv, SFdiv_core_binary.
  set (e' := Z.min _ _).
  assert (He' : e' <= 0) by (subst e'; lia).
  replace (0 - 0 - e') with (- e') by lia.
  set (m' := match - e' with
             | 0 => Zpos ma
             | Zpos _ => Z.shiftl (Zpos ma) (- e')
             | Zneg _ => 0
             end).
  assert (Hm' : m' = Zpos ma * 2 ^ (- e')).
  { subst m'. destruct (- e') eqn:E; try lia.
    rewrite Z.shiftl_mul_pow2 by lia. reflexivity. }
  pose proof (Z_div_mod m' (Zpos mb) ltac:(lia)) as Hdiv.
  destruct (Z.div_eucl m' (Zpos mb)) as [q r].
  destruct Hdiv as [Hq Hr].
  assert (Hp : 0 < 2 ^ (- e')) by (apply pow2_pos; lia).
  apply binary_round_aux_below; [| unfold prec; lia | lia].
  assert (Hq0 : 0 <= q) by nia.
  split; [exact Hq0 |].
  replace (B - e') with (B + - e') by lia.
  rewrite Z.pow_add_r by lia.
  assert (q <= m') by nia. nia.
Qed.

Lemma iter_xO m d : Zpos (Pos.iter xO m d) = Zpos m * 2 ^ Zpos d.
Proof.
  induction d as [| d IH] using Pos.peano_ind.
  - simpl. lia.
  - rewrite Pos.iter_succ, Pos2Z.inj_xO, IH, Pos2Z.inj_succ,
      Z.pow_succ_r by lia. lia.
Qed.

Lemma binary_round_below s m B :
  Zpos m < 2 ^ B -> 0 <= B < emax ->
  below (B + 1) (binary_round prec emax s m 0).
Proof.
  intros Hm HB. unfold binary_round, shl_align.
  set (ex' := fexp prec emax (Zpos (digits2_pos m) + 0)).
  destruct (ex' - 0) as [| d | d] eqn:Ed.
  - apply binary_round_aux_below; [| unfold prec; lia | exact HB].
    rewrite Z.sub_0_r. lia.
  - apply binary_round_aux_below; [| unfold prec; lia | exact HB].
    rewrite Z.sub_0_r. lia.
  - assert (Hex : ex' = Zneg d) by lia.
    apply binary_round_aux_below; [| rewrite Hex; unfold prec; lia
                                   | exact HB].
    rewrite iter_xO, Hex.
    replace (B - Zneg d) with (B + Zpos d) by lia.
    rewrite Z.pow_add_r by lia.
    assert (0 < 2 ^ Zpos d) by (apply pow2_pos; lia). nia.
Qed.

(** An integer under [2^B] converts to a float under [2^(B+1)]. *)
Lemma float_of_int_below z B :
  Z.abs z < 2 ^ B -> 0 <= B < emax ->
  exists y, float_of_int z = Ok y /\ below (B + 1) y.
Proof.
  intros Hz HB. unfold float_of_int, binary_normalize.
  assert (H : below (B + 1)
                match z with
                | 0 => S754_zero false
                | Zpos m => binary_round prec emax false m 0
                | Zneg m => binary_round prec emax true m 0
                end).
  { destruct z as [| m | m]; [exact I | |];
      apply binary_round_below; auto; lia. }
  rewrite (below_not_inf _ _ H). eauto.
Qed.

Lemma int_truediv_below a b B :
  b <> 0 -> Z.abs a < 2 ^ B -> 0 <= B < emax - 1 ->
  exists f, int_truediv a b = Ok (PFloat f) /\ below (B + 1) f.
Proof.
  intros Hb Ha HB. unfold int_truediv.
  destruct (Z.eqb_spec b 0); [contradiction |].
  pose proof (div_round_below a b B Ha HB) as H.
  rewrite (below_not_inf _ _ H). eauto.
Qed.

Lemma div_half_even_bounds n d :
  0 <= n -> 0 < d -> 0 <= div_half_even n d <= n / d + 1.
Proof.
  intros Hn Hd. unfold div_half_even.
  pose proof (Z.div_pos n d Hn Hd).
  destruct (2 * (n mod d) ?= d); [destruct (Z.even (n / d)) | |]; lia.
Qed.

(** [round(x, 1)] raises nothing on a float under [2^B]. *)
Lemma float_round_below x B :
  below B x -> 0 <= B < emax - 6 ->
  exists f, float_round x 1 = Ok (PFloat f) /\ below (B + 6) f.
Proof.
  intros Hx HB. unfold float_round.
  destruct x as [s | s | | s m e]; simpl in Hx; try tauto; [eauto |].
  destruct Hx as [Hm He].
  change (NDIGITS_MAX <? 1) with false. change (1 <? NDIGITS_MIN) with false.
  cbv iota.
  assert (Hn : 0 <= fst (round_pos m e 1) < 2 ^ (B + 5) /\
               snd (round_pos m e 1) = 10).
  { unfold round_pos. change (0 <=? 1) with true. change (10 ^ 1) with 10.
    pose proof (lt_pow2_exponent (Zpos m) (B - e) ltac:(lia)) as HBe.
    assert (H16 : 2 ^ (B + 5) = 32 * 2 ^ B).
    { rewrite Z.pow_add_r by lia. change (2 ^ 5) with 32. lia. }
    assert (HpB : 0 < 2 ^ B) by (apply pow2_pos; lia).
    destruct e as [| p | p]; cbv iota; cbn [fst snd]; (split; [| reflexivity]).
    - rewrite Z.sub_0_r in Hm.
      pose proof (div_half_even_bounds (Zpos m * 2 ^ 0 * 10) 1
                    ltac:(simpl; lia) ltac:(lia)) as Hb.
      rewrite Z.div_1_r in Hb. simpl in Hb. lia.
    - assert (Hp : 0 < 2 ^ Zpos p) by (apply pow2_pos; lia).
      assert (Hv : Zpos m * 2 ^ Zpos p < 2 ^ B).
      { assert (HBp : 2 ^ B = 2 ^ (B - Zpos p) * 2 ^ Zpos p)
          by (rewrite <- Z.pow_add_r by lia; f_equal; lia).
        nia. }
      pose proof (div_half_even_bounds (Zpos m * 2 ^ Zpos p * 10) 1
                    ltac:(nia) ltac:(lia)) as Hb.
      rewrite Z.div_1_r in Hb. lia.
    - assert (Hp : 0 < 2 ^ Zpos p) by (apply pow2_pos; lia).
      pose proof (div_half_even_bounds (Zpos m * 10) (2 ^ Zpos p)
                    ltac:(lia) Hp) as Hb.
      assert (Hq : Zpos m * 10 / 2 ^ Zpos p < 16 * 2 ^ B).
      { apply Z.div_lt_upper_bound; [exact Hp |].
        replace (B - Zneg p) with (B + Zpos p) in Hm by lia.
        rewrite Z.pow_add_r in Hm by lia. nia. }
      lia. }
  destruct (round_pos m e 1) as [n d]. simpl in Hn. destruct Hn as [Hn ->].
  assert (Hf : below (B + 5 + 1) (div_round (if s then - n else n) 10)).
  { apply div_round_below; [destruct s; lia | unfold emax in *; lia]. }
  replace (B + 5 + 1) with (B + 6) in Hf by lia.
  cbv zeta.
  destruct (div_round (if s then - n else n) 10) as [t | t | | t m' e'];
    simpl in Hf; try tauto; simpl; eauto.
Qed.

End Rounding.

(** ** No underflow

    Rounding a number of at least [2^L] gives a float of at least [2^L],
    so that the hours of a house of the form's size are not zero. *)

Lemma Zdigits2_lower m n : 0 <= n -> 2 ^ n <= m -> n < Zdigits2 m.
Proof.
  intros Hn Hm.
  assert (H0 : 0 < 2 ^ n) by (apply pow2_pos; exact Hn).
  pose proof (Zdigits2_bounds m ltac:(lia)) as [_ Hhi].
  pose proof (Zdigits2_pos m ltac:(lia)) as Hd.
  assert (H2 : 2 ^ n < 2 ^ Zdigits2 m) by lia.
  apply Z.pow_lt_mono_r_iff in H2; lia.
Qed.

Lemma shr_fexp_above m e l L :
  0 < m -> emin prec emax <= L -> L < Zdigits2 m + e ->
  0 < shr_m (fst (shr_fexp prec emax m e l)) /\
  L < Zdigits2 (shr_m (fst (shr_fexp prec emax m e l))) +
      snd (shr_fexp prec emax m e l).
Proof.
  intros Hm HL Hd.
  pose proof (shr_fexp_m m e l ltac:(lia)) as [-> ->].
  pose proof (Zdigits2_bounds m Hm) as [Hlo _].
  pose proof (Zdigits2_pos m Hm) as Hpos.
  set (d := Zdigits2 m) in *.
  set (k := Z.max 0 (fexp prec emax (d + e) - e)).
  assert (Hk : 0 <= k <= d - 1).
  { subst k. unfold fexp, emin, emax, prec in *. lia. }
  assert (Hp : 0 < 2 ^ k) by (apply pow2_pos; lia).
  assert (Hq : 2 ^ (d - 1 - k) <= m / 2 ^ k).
  { apply Z.div_le_lower_bound; [exact Hp |].
    rewrite <- Z.pow_add_r by lia.
    replace (k + (d - 1 - k)) with (d - 1) by lia. exact Hlo. }
  assert (H0 : 0 < 2 ^ (d - 1 - k)) by (apply pow2_pos; lia).
  split; [lia |].
  pose proof (Zdigits2_lower (m / 2 ^ k) (d - 1 - k) ltac:(lia) Hq). lia.
Qed.

Lemma binary_round_aux_above s m e l L :
  0 < m -> emin prec emax <= L -> L < Zdigits2 m + e ->
  above L (binary_round_aux prec emax s m e l).
Proof.
  intros Hm HL Hd. unfold binary_round_aux.
  pose proof (shr_fexp_above m e l L Hm HL Hd) as [H1 H1d].
  destruct (shr_fexp prec emax m e l) as [r1 e1]. simpl in H1, H1d.
  pose proof (round_nearest_even_bounds (shr_m r1) (loc_of_shr_record r1))
    as Hb.
  set (m2 := round_nearest_even (shr_m r1) (loc_of_shr_record r1)) in *.
  pose proof (Zdigits2_mono (shr_m r1) m2 H1 ltac:(lia)) as Hmono.
  pose proof (shr_fexp_above m2 e1 loc_Exact L ltac:(lia) HL ltac:(lia))
    as [H2 H2d].
  destruct (shr_fexp prec emax m2 e1 loc_Exact) as [r2 e2].
  simpl in H2, H2d.
  destruct (shr_m r2) as [| p | p]; try lia.
  destruct (e2 <=? emax - prec); simpl; [exact H2d | exact I].
Qed.

Lemma SFmul_above x y Lx Ly :
  above Lx x -> above Ly y -> emin prec emax <= Lx + Ly ->
  above (Lx + Ly) (SFmul prec emax x y).
Proof.
  destruct x as [sx | sx | | sx mx ex], y as [sy | sy | | sy my ey];
    simpl; try tauto.
  intros Hx Hy HL.
  pose proof (digits2_pos_bounds mx) as [Hlx _].
  pose proof (digits2_pos_bounds my) as [Hly _].
  apply binary_round_aux_above; [lia | exact HL |].
  assert (Hd : Zpos (digits2_pos mx) - 1 + (Zpos (digits2_pos my) - 1) <
               Zdigits2 (Zpos (mx * my))).
  { apply Zdigits2_lower; [lia |].
    rewrite Z.pow_add_r, Pos2Z.inj_mul by lia.
    apply Z.mul_le_mono_nonneg; try lia; apply Z.lt_le_incl, pow2_pos; lia. }
  lia.
Qed.

Lemma div_round_above a b L :
  0 <= L -> b <> 0 -> Z.abs b * 2 ^ L <= Z.abs a ->
  above L (div_round a b).
Proof.
  intros HL Hb Ha. unfold div_round.
  assert (HpL : 0 < 2 ^ L) by (apply pow2_pos; exact HL).
  destruct (Z.abs a) as [| ma | ma] eqn:Ea; [nia | | lia].
  destruct (Z.abs b) as [| mb | mb] eqn:Eb; [lia | | lia].
  unfold SFdiv, SFdiv_core_binary.
  set (e' := Z.min _ _).
  assert (He' : e' <= 0) by (subst e'; lia).
  replace (0 - 0 - e') with (- e') by lia.
  set (m' := match - e' with
             | 0 => Zpos ma
             | Zpos _ => Z.shiftl (Zpos ma) (- e')
             | Zneg _ => 0
             end).
  assert (Hm' : m' = Zpos ma * 2 ^ (- e')).
  { subst m'. destruct (- e') eqn:E; try lia.
    rewrite Z.shiftl_mul_pow2 by lia. reflexivity. }
  assert (Hp : 0 < 2 ^ (- e')) by (apply pow2_pos; lia).
  assert (Hq : 2 ^ (L - e') <= m' / Zpos mb).
  { apply Z.div_le_lower_bound; [lia |].
    replace (L - e') with (L + - e') by lia.
    rewrite Z.pow_add_r, Hm' by lia. nia. }
  unfold Z.div in Hq.
  destruct (Z.div_eucl m' (Zpos mb)) as [q r]. simpl in Hq.
  assert (H0 : 0 < 2 ^ (L - e')) by (apply pow2_pos; lia).
  pose proof (Zdigits2_lower q (L - e') ltac:(lia) Hq).
  apply binary_round_aux_above; [lia | unfold emin, emax, prec; lia | lia].
Qed.

Lemma float_of_int_above z y L :
  0 <= L -> 2 ^ L <= Z.abs z -> float_of_int z = Ok y -> above L y.
Proof.
  intros HL Hz. unfold float_of_int, binary_normalize.
  assert (HpL : 0 < 2 ^ L) by (apply pow2_pos; exact HL).
  assert (H : forall s m, 2 ^ L <= Zpos m ->
                          above L (binary_round prec emax s m 0)).
  { intros s m Hm. unfold binary_round, shl_align.
    set (ex' := fexp prec emax (Zpos (digits2_pos m) + 0)).
    pose proof (Zdigits2_lower (Zpos m) L HL Hm) as Hd.
    destruct (ex' - 0) as [| d | d] eqn:Ed.
    - apply binary_round_aux_above;
        [lia | unfold emin, emax, prec; lia | lia].
    - apply binary_round_aux_above;
        [lia | unfold emin, emax, prec; lia | lia].
    - assert (Hex : ex' = Zneg d) by lia.
      apply binary_round_aux_above;
        [lia | unfold emin, emax, prec; lia |].
      rewrite iter_xO, Hex.
      assert (Hp : 0 < 2 ^ Zpos d) by (apply pow2_pos; lia).
      pose proof (Zdigits2_lower (Zpos m * 2 ^ Zpos d) (L + Zpos d)
                    ltac:(lia)) as Hd'.
      rewrite Z.pow_add_r in Hd' by lia.
      specialize (Hd' ltac:(nia)). lia. }
  destruct z as [| m | m]; [simpl in Hz; lia | |];
    destruct (is_inf _); intros Hy; try discriminate Hy;
    injection Hy as <-; apply H; simpl in Hz; exact Hz.
Qed.

Lemma div_half_even_lower n d : n / d <= div_half_even n d.
Proof.
  unfold div_half_even.
  destruct (2 * (n mod d) ?= d); [destruct (Z.even (n / d)) | |]; lia.
Qed.

(** [round(x, 1)] of a float of at least 1 is at least 1. *)
Lemma float_round_above x f :
  above 0 x -> float_round x 1 = Ok (PFloat f) -> above 0 f.
Proof.
  unfold float_round.
  destruct x as [s | s | | s m e]; simpl above; try tauto;
    [intros _ H; injection H as <-; exact I |].
  intros Hx.
  change (NDIGITS_MAX <? 1) with false. change (1 <? NDIGITS_MIN) with false.
  cbv iota.
  pose proof (digits2_pos_bounds m) as [Hlo _].
  assert (Hn : 10 <= fst (round_pos m e 1) /\ snd (round_pos m e 1) = 10).
  { unfold round_pos. change (0 <=? 1) with true. change (10 ^ 1) with 10.
    destruct e as [| p | p]; cbv iota; cbn [fst snd]; (split; [| reflexivity]).
    - pose proof (div_half_even_lower (Zpos m * 2 ^ 0 * 10) 1) as Hb.
      rewrite Z.div_1_r in Hb. simpl in Hb. lia.
    - assert (Hp : 0 < 2 ^ Zpos p) by (apply pow2_pos; lia).
      pose proof (div_half_even_lower (Zpos m * 2 ^ Zpos p * 10) 1) as Hb.
      rewrite Z.div_1_r in Hb. nia.
    - assert (Hp : 0 < 2 ^ Zpos p) by (apply pow2_pos; lia).
      pose proof (div_half_even_lower (Zpos m * 10) (2 ^ Zpos p)) as Hb.
      assert (Hmp : 2 ^ Zpos p <= Zpos m).
      { apply Z.le_trans with (2 ^ (Zpos (digits2_pos m) - 1));
          [| exact Hlo].
        apply Z.pow_le_mono_r; simpl in Hx; lia. }
      assert (Hq : 10 <= Zpos m * 10 / 2 ^ Zpos p)
        by (apply Z.div_le_lower_bound; lia).
      lia. }
  destruct (round_pos m e 1) as [n d]. simpl in Hn. destruct Hn as [Hn ->].
  assert (Hf : above 0 (div_round (if s then - n else n) 10)).
  { apply div_round_above; [lia | lia |]. destruct s; simpl; lia. }
  cbv zeta.
  destruct (div_round (if s then - n else n) 10) as [t | t | | t m' e'];
    simpl in Hf; try tauto; simpl; [discriminate |].
  intros H. injection H as <-. exact Hf.
Qed.

(** A float of at least [2^L] is not [== 0]. *)
Lemma above_not_zero L f : above L f -> eqb (PFloat f) (PInt 0) = false.
Proof.
  unfold eqb, compare, compare_float_int.
  destruct f as [s | s | | s m e]; simpl; try tauto.
  - destruct s; reflexivity.
  - intros _.
    assert (H : forall n, n <> 0 ->
                  match (match e with
                         | Zneg p => n ?= 0 * 2 ^ Zpos p
                         | _ => n * 2 ^ e ?= 0
                         end) with
                  | Eq => true
                  | _ => false
                  end = false).
    { intros n Hn. destruct e as [| p | p].
      - destruct (Z.compare_spec (n * 2 ^ 0) 0); try reflexivity.
        simpl in *. lia.
      - assert (Hp : 0 < 2 ^ Zpos p) by (apply pow2_pos; lia).
        destruct (Z.compare_spec (n * 2 ^ Zpos p) 0); try reflexivity. nia.
      - destruct (Z.compare_spec n (0 * 2 ^ Zpos p)); try reflexivity. lia. }
    destruct s; apply H; lia.
Qed.

(** The hours of a house of at least 1000 square feet are at least 1, in
    magnitude. *)
Lemma hours_of_above b sq_ft v :
  1 <= b -> 1000 <= Z.abs sq_ft -> hours_of b sq_ft = Ok v ->
  exists f, v = PFloat f /\ above 0 f.
Proof.
  intros Hb Hsq. unfold hours_of, truediv, int_truediv.
  change (1000 =? 0) with false. cbv iota.
  pose proof (div_round_above sq_ft 1000 0 ltac:(lia) ltac:(lia)
                ltac:(change (2 ^ 0) with 1; lia)) as Hper.
  destruct (is_inf (div_round sq_ft 1000)); [discriminate |].
  cbn [rbind]. unfold mul.
  destruct (float_of_int b) as [y | e] eqn:Ey; [| discriminate].
  pose proof (float_of_int_above b y 0 ltac:(lia) ltac:(simpl; lia) Ey) as Hy.
  cbn [rbind]. unfold round.
  pose proof (SFmul_above _ _ 0 0 Hper Hy
                ltac:(unfold emin, emax, prec; lia)) as Hx.
  simpl in Hx.
  destruct v as [z | f]; intros Hv.
  - unfold float_round in Hv.
    destruct (SFmul prec emax (div_round sq_ft 1000) y); try discriminate Hv.
    simpl in Hv. destruct (round_pos _ _ _).
    destruct (is_inf _); discriminate.
  - exists f. split; [reflexivity |]. eapply float_round_above; eassumption.
Qed.


(** ** The range of a float

    A float that rounding produced has at most [prec] digits and an
    exponent of at most [emax - prec]: an integer of [2^emax] or more
    converts to no float, and neither does a quotient that large. *)

Lemma shr_fexp_digits m e l :
  0 <= m -> Zdigits2 (shr_m (fst (shr_fexp prec emax m e l))) <= prec.
Proof.
  intros Hm. pose proof (shr_fexp_m m e l Hm) as [-> _].
  set (k := Z.max 0 (fexp prec emax (Zdigits2 m + e) - e)).
  assert (Hk : 0 <= k /\ Zdigits2 m - prec <= k)
    by (subst k; unfold fexp; lia).
  assert (Hp : 0 < 2 ^ k) by (apply pow2_pos; lia).
  apply Zdigits2_le. split; [apply Z.div_pos; lia |].
  apply Z.div_lt_upper_bound; [exact Hp |].
  rewrite <- Z.pow_add_r by (unfold prec; lia).
  destruct (Z.eq_dec m 0) as [-> | Hne];
    [apply pow2_pos; unfold prec; lia |].
  pose proof (Zdigits2_bounds m ltac:(lia)) as [_ Hhi].
  apply Z.lt_le_trans with (2 ^ Zdigits2 m); [exact Hhi |].
  apply Z.pow_le_mono_r; lia.
Qed.

Lemma binary_round_aux_in_range s m e l :
  0 <= m -> in_range (binary_round_aux prec emax s m e l).
Proof.
  intros Hm. unfold binary_round_aux.
  pose proof (shr_fexp_m m e l Hm) as [H1 _].
  destruct (shr_fexp prec emax m e l) as [r1 e1]. simpl in H1.
  assert (Hr1 : 0 <= shr_m r1).
  { rewrite H1. apply Z.div_pos; [lia |]. apply pow2_pos. lia. }
  pose proof (round_nearest_even_bounds (shr_m r1) (loc_of_shr_record r1))
    as Hb.
  set (m2 := round_nearest_even (shr_m r1) (loc_of_shr_record r1)) in *.
  pose proof (shr_fexp_digits m2 e1 loc_Exact ltac:(lia)) as Hd.
  destruct (shr_fexp prec emax m2 e1 loc_Exact) as [r2 e2]. simpl in Hd.
  destruct (shr_m r2) as [| p | p] eqn:E2; try exact I.
  destruct (Z.leb_spec e2 (emax - prec)); simpl in *; [lia | exact I].
Qed.

Lemma div_round_in_range a b : in_range (div_round a b).
Proof.
  unfold div_round.
  destruct (Z.abs a) as [| ma | ma]; try exact I.
  destruct (Z.abs b) as [| mb | mb]; try exact I.
  unfold SFdiv.
  pose proof (SFdiv_core_binary_nonneg ma 0 mb 0) as H.
  destruct (SFdiv_core_binary prec emax (Zpos ma) 0 (Zpos mb) 0)
    as [[mz ez] lz].
  apply binary_round_aux_in_range, H.
Qed.

Lemma float_of_int_in_range z y : float_of_int z = Ok y -> in_range y.
Proof.
  unfold float_of_int, binary_normalize.
  destruct (is_inf _); [discriminate |]. injection 1 as <-.
  destruct z as [| m | m]; [exact I | |];
    unfold binary_round; destruct (shl_align _ _ _) as [mz ez];
    apply binary_round_aux_in_range; lia.
Qed.

Lemma above_in_range L f :
  above L f -> in_range f -> emax <= L -> is_inf f = true.
Proof. destruct f; simpl; try tauto. lia. Qed.

(** A quotient that [int.__truediv__] returns is under [2^emax]. *)
Lemma int_truediv_bounded a b v :
  int_truediv a b = Ok v -> Z.abs a < Z.abs b * 2 ^ emax.
Proof.
  unfold int_truediv. destruct (Z.eqb_spec b 0); [discriminate |].
  destruct (is_inf (div_round a b)) eqn:Ei; [discriminate |]. intros _.
  destruct (Z.lt_ge_cases (Z.abs a) (Z.abs b * 2 ^ emax)) as [Hlt | Hge];
    [exact Hlt |].
  pose proof (div_round_above a b emax ltac:(unfold emax; lia) n Hge) as Ha.
  rewrite (above_in_range _ _ Ha (div_round_in_range a b) ltac:(lia)) in Ei.
  discriminate Ei.
Qed.

(** An integer that [float] converts is under [2^emax]. *)
Lemma float_of_int_bounded z y : float_of_int z = Ok y -> Z.abs z < 2 ^ emax.
Proof.
  intros Hy.
  destruct (Z.lt_ge_cases (Z.abs z) (2 ^ emax)) as [Hlt | Hge];
    [exact Hlt |].
  pose proof (float_of_int_above z y emax ltac:(unfold emax; lia) Hge Hy)
    as Ha.
  pose proof (above_in_range _ _ Ha (float_of_int_in_range _ _ Hy)
                ltac:(lia)) as Hi.
  apply float_of_int_not_nan in Hy as [_ Hy]. congruence.
Qed.

(** ** Formatting *)

Lemma range_has_text : 1000 * 2 ^ emax < 10 ^ INT_MAX_STR_DIGITS.
Proof. vm_compute. reflexivity. Qed.

Lemma int_bound_has_text : int_bound < 10 ^ INT_MAX_STR_DIGITS.
Proof. vm_compute. reflexivity. Qed.

Lemma int_str_ok a : Z.abs a < 10 ^ INT_MAX_STR_DIGITS -> int_str a = Ok a.
Proof.
  intros Ha. unfold int_str.
  destruct (Z.leb_spec (10 ^ INT_MAX_STR_DIGITS) (Z.abs a)); [lia |].
  reflexivity.
Qed.


Lemma int_str_cases a :
  int_str a = Ok a \/
  (int_str a = Raise ValueError /\ 10 ^ INT_MAX_STR_DIGITS <= Z.abs a).
Proof.
  unfold int_str.
  destruct (Z.leb_spec (10 ^ INT_MAX_STR_DIGITS) (Z.abs a)); auto.
Qed.

(** ** The lookup table *)

Lemma base_hours_entries scope prep_level b :
  base_hours scope prep_level = Some b ->
  (scope, prep_level, b) ∈ time_estimate_entries.
Proof.
  unfold base_hours, TIME_ESTIMATES, time_estimate_entries.
  intros H.
  repeat (rewrite lookup_insert in H; case_decide; subst; simpl in H);
    try (rewrite lookup_empty in H; discriminate);
    repeat (rewrite lookup_insert in H; case_decide; subst; simpl in H);
    try (rewrite lookup_empty in H; discriminate);
    injection H as <-; set_solver.
Qed.

Lemma entries_base_hours scope prep_level b :
  (scope, prep_level, b) ∈ time_estimate_entries ->
  base_hours scope prep_level = Some b.
Proof.
  unfold time_estimate_entries. intros H.
  repeat (apply elem_of_cons in H as [H | H];
          [injection H as -> -> ->; vm_compute; reflexivity |]).
  inversion H.
Qed.

Lemma getitem_base_hours scope prep_level :
  rbind (getitem TIME_ESTIMATES scope)
        (fun by_prep => getitem by_prep prep_level) =
  match base_hours scope prep_level with
  | Some b => Ok b
  | None =>
      Raise (KeyError (match TIME_ESTIMATES !! scope with
                       | Some _ => prep_level
                       | None => scope
                       end))
  end.
Proof.
  unfold base_hours, getitem.
  destruct (TIME_ESTIMATES !! scope) as [by_prep |]; simpl; [| reflexivity].
  destruct (by_prep !! prep_level); reflexivity.
Qed.

Lemma ui_prep_level_no_entry scope prep_level :
  prep_level ∈ prep_level_options -> base_hours scope prep_level = None.
Proof.
  intros Hui.
  destruct (base_hours scope prep_level) as [b |] eqn:E; [| reflexivity].
  apply base_hours_entries in E.
  unfold prep_level_options in Hui. unfold time_estimate_entries in E.
  repeat (apply elem_of_cons in Hui as [-> | Hui];
          [repeat (apply elem_of_cons in E as [E | E]; [discriminate E |]);
           inversion E |]).
  inversion Hui.
Qed.

(** ** Running the computations *)

Lemma calculate_hours_run sq_ft scope prep_level w :
  calculate_hours sq_ft scope prep_level w =
  match calculate_hours_body sq_ft scope prep_level with
  | Ok h => (Ok h, w)
  | Raise (KeyError key) =>
      (Ok (PInt 0), show (Error (HourCalculationError (KeyError key))) w)
  | Raise e => (Raise e, w)
  end.
Proof.
  unfold calculate_hours, try_except, lift.
  destruct (calculate_hours_body sq_ft scope prep_level) as [h | []];
    reflexivity.
Qed.

Lemma calculate_hours_body_entry sq_ft scope prep_level b :
  base_hours scope prep_level = Some b ->
  calculate_hours_body sq_ft scope prep_level =
  rbind (truediv (PInt sq_ft) (PInt 1000)) (fun per_1000 =>
  rbind (mul per_1000 (PInt b)) (fun total_hours => round total_hours 1)).
Proof.
  unfold base_hours, calculate_hours_body, getitem. intros H.
  destruct (TIME_ESTIMATES !! scope) as [by_prep |]; simpl in *;
    [| discriminate].
  rewrite H. reflexivity.
Qed.

Lemma calculate_hours_body_no_entry sq_ft scope prep_level :
  base_hours scope prep_level = None ->
  exists key,
    calculate_hours_body sq_ft scope prep_level = Raise (KeyError key).
Proof.
  unfold base_hours, calculate_hours_body, getitem. intros H.
  destruct (TIME_ESTIMATES !! scope) as [by_prep |]; simpl in *;
    [rewrite H |]; eauto.
Qed.

Lemma calculate_costs_body_run sq_ft scope prep_level crew_size w :
  calculate_costs_body sq_ft scope prep_level crew_size w =
  match calculate_hours sq_ft scope prep_level w with
  | (Ok total_hours, w') =>
      (costs_from_hours sq_ft scope crew_size total_hours, w')
  | (Raise e, w') => (Raise e, w')
  end.
Proof.
  unfold calculate_costs_body, costs_from_hours, mbind, M_bind, mret, M_ret,
    lift.
  destruct (calculate_hours sq_ft scope prep_level w) as [[th | e] w'];
    [| reflexivity].
  assert (Hpp : forall (k : value -> M costs) (k' : value -> res costs),
             (forall a, k a w' = (k' a, w')) ->
             (let (r, w1) :=
                (if crew_size >? 0
                 then fun w0 => (truediv th (PInt crew_size), w0)
                 else fun w0 => (Ok th, w0)) w' in
              match r with Ok a => k a w1 | Raise e => (Raise e, w1) end) =
             (rbind (if crew_size >? 0 then truediv th (PInt crew_size)
                     else Ok th) k', w')).
  { intros k k' Hk. destruct (crew_size >? 0); simpl;
      [destruct (truediv th (PInt crew_size)); simpl |]; auto. }
  apply Hpp. intros hpp.
  destruct (mul th (PInt PAINTER_WAGE)) as [lab |]; simpl; [| reflexivity].
  cbv zeta.
  match goal with
  | |- context [truediv (PInt ?area) (PInt 100)] =>
      destruct (truediv (PInt area) (PInt 100)) as [per_100 |]
  end; simpl; [| reflexivity].
  destruct (mul per_100 _) as [gallons |]; simpl; [| reflexivity].
  destruct (mul gallons _) as [paint |]; simpl; [| reflexivity].
  destruct (truediv (PInt sq_ft) _) as [per_1000 |]; simpl; [| reflexivity].
  destruct (mul per_1000 _) as [supplies |]; simpl; [| reflexivity].
  destruct (add paint supplies) as [mat |]; simpl; [| reflexivity].
  destruct (add lab mat) as [subtotal |]; simpl; [| reflexivity].
  destruct (mul subtotal _) as [markup |]; simpl; [| reflexivity].
  destruct (add subtotal markup) as [total |]; reflexivity.
Qed.

Lemma calculate_costs_run sq_ft scope prep_level crew_size w :
  calculate_costs sq_ft scope prep_level crew_size w =
  match calculate_costs_body sq_ft scope prep_level crew_size w with
  | (Ok c, w') => (Ok c, w')
  | (Raise e, w') => (Ok zero_costs, show (Error (CostCalculationError e)) w')
  end.
Proof.
  unfold calculate_costs, try_except.
  destruct (calculate_costs_body sq_ft scope prep_level crew_size w)
    as [[c | e] w']; reflexivity.
Qed.

Lemma costs_from_hours_total_hours sq_ft scope crew_size th c :
  costs_from_hours sq_ft scope crew_size th = Ok c -> total_hours_of c = th.
Proof.
  unfold costs_from_hours. intros H.
  repeat match type of H with
         | rbind ?r _ = Ok _ => destruct r; simpl in H; [| discriminate]
         end.
  injection H as <-. reflexivity.
Qed.

(** Whatever happens in it, [calculate_costs] returns a tuple. *)
Lemma calculate_costs_returns sq_ft scope prep_level crew_size w :
  exists c w', calculate_costs sq_ft scope prep_level crew_size w = (Ok c, w').
Proof.
  rewrite calculate_costs_run.
  destruct (calculate_costs_body sq_ft scope prep_level crew_size w)
    as [[c | e] w']; eauto.
Qed.

(** With a pair that is no key path, the first component of the tuple is
    the integer 0, and the page has gained error boxes only. *)
Lemma calculate_costs_no_entry sq_ft scope prep_level crew_size w :
  base_hours scope prep_level = None ->
  exists key c w' errs,
    calculate_costs sq_ft scope prep_level crew_size w = (Ok c, w') /\
    total_hours_of c = PInt 0 /\
    page w' = page w ++ Error (HourCalculationError (KeyError key)) :: errs /\
    Forall (fun el => is_error el = true) errs /\
    disk w' = disk w.
Proof.
  intros Hno.
  destruct (calculate_hours_body_no_entry sq_ft scope prep_level Hno)
    as [key Hbody].
  exists key.
  rewrite calculate_costs_run, calculate_costs_body_run, calculate_hours_run,
    Hbody.
  destruct (costs_from_hours sq_ft scope crew_size (PInt 0)) as [c | e] eqn:E.
  - exists c, (show (Error (HourCalculationError (KeyError key))) w), [].
    repeat split; auto.
    eapply costs_from_hours_total_hours, E.
  - exists zero_costs,
      (show (Error (CostCalculationError e))
         (show (Error (HourCalculationError (KeyError key))) w)),
      [Error (CostCalculationError e)].
    repeat split; auto.
    simpl. rewrite <- app_assoc. reflexivity.
Qed.

(** ** Numbers and exceptions of the arithmetic *)

Lemma float_of_int_raises z e : float_of_int z = Raise e -> e = OverflowError.
Proof.
  unfold float_of_int. destruct (is_inf _); congruence.
Qed.

Lemma mul_raises v w e : mul v w = Raise e -> e = OverflowError.
Proof.
  destruct v as [a | x], w as [b | y]; unfold mul; try discriminate;
    match goal with
    | |- rbind (float_of_int ?z) _ = _ -> _ =>
        destruct (float_of_int z) eqn:E; simpl; [discriminate |];
        apply float_of_int_raises in E; congruence
    end.
Qed.

Lemma add_raises v w e : add v w = Raise e -> e = OverflowError.
Proof.
  destruct v as [a | x], w as [b | y]; unfold add; try discriminate;
    match goal with
    | |- rbind (float_of_int ?z) _ = _ -> _ =>
        destruct (float_of_int z) eqn:E; simpl; [discriminate |];
        apply float_of_int_raises in E; congruence
    end.
Qed.

Lemma int_truediv_raises a b e :
  b <> 0 -> int_truediv a b = Raise e -> e = OverflowError.
Proof.
  unfold int_truediv. intros Hb.
  destruct (Z.eqb_spec b 0); [contradiction |].
  destruct (is_inf _); congruence.
Qed.

Lemma int_truediv_number a b v :
  int_truediv a b = Ok v ->
  exists f, v = PFloat f /\ is_nan f = false /\ is_inf f = false.
Proof.
  unfold int_truediv.
  destruct (b =? 0); [discriminate |].
  destruct (is_inf _) eqn:E; [discriminate |]. injection 1 as <-.
  eauto using div_round_not_nan.
Qed.

(** Division by an integer that is not zero raises nothing but
    [OverflowError], and its quotient is a number when the dividend is. *)
Lemma truediv_int_raises v b e :
  b <> 0 -> truediv v (PInt b) = Raise e -> e = OverflowError.
Proof.
  intros Hb. destruct v as [a | x]; unfold truediv.
  - apply int_truediv_raises, Hb.
  - destruct (float_of_int b) as [y |] eqn:E; simpl.
    + apply float_of_int_finite in E; [| exact Hb].
      unfold float_truediv. destruct y; try discriminate E. discriminate.
    + apply float_of_int_raises in E. congruence.
Qed.

Lemma truediv_int_number v b q :
  b <> 0 -> is_number v = true -> truediv v (PInt b) = Ok q ->
  is_number q = true.
Proof.
  intros Hb Hv. destruct v as [a | x]; unfold truediv.
  - intros H. apply int_truediv_number in H as (f & -> & Hn & _).
    simpl. rewrite Hn. reflexivity.
  - destruct (float_of_int b) as [y |] eqn:E; simpl; [| discriminate].
    apply float_of_int_finite in E; [| exact Hb].
    unfold float_truediv. destruct (is_zero y); [discriminate |].
    injection 1 as <-. simpl in *.
    rewrite SFdiv_finite_not_nan; auto.
    destruct (is_nan x); [discriminate | reflexivity].
Qed.

Lemma float_round_number x ndigits v :
  is_nan x = false -> float_round x ndigits = Ok v -> is_number v = true.
Proof.
  intros Hx. unfold float_round.
  destruct x as [s | s | | s m e]; try (injection 1 as <-; reflexivity);
    [discriminate Hx |].
  destruct (NDIGITS_MAX <? ndigits); [injection 1 as <-; reflexivity |].
  destruct (ndigits <? NDIGITS_MIN); [injection 1 as <-; reflexivity |].
  destruct (round_pos m e ndigits) as [n d].
  pose proof (div_round_not_nan (if s then - n else n) d) as Hn.
  destruct (div_round (if s then - n else n) d); simpl;
    try (injection 1 as <-; reflexivity); discriminate.
Qed.

Lemma hours_of_number base sq_ft h :
  hours_of base sq_ft = Ok h -> is_number h = true.
Proof.
  unfold hours_of, truediv.
  destruct (int_truediv sq_ft 1000) as [v |] eqn:E1; simpl; [| discriminate].
  apply int_truediv_number in E1 as (f & -> & Hn & Hi).
  unfold mul.
  destruct (float_of_int base) as [y |] eqn:E2; simpl; [| discriminate].
  apply float_of_int_not_nan in E2 as [Hny Hiy].
  unfold round. apply float_round_number, SFmul_not_nan; assumption.
Qed.

Lemma hours_of_raises base sq_ft e :
  hours_of base sq_ft = Raise e -> e = OverflowError.
Proof.
  unfold hours_of.
  destruct (truediv (PInt sq_ft) (PInt 1000)) as [v |] eqn:E1; simpl.
  - destruct (mul v (PInt base)) as [x |] eqn:E2; simpl.
    + destruct x as [a | x]; unfold round; simpl.
      * discriminate.
      * unfold float_round.
        destruct x; try discriminate.
        destruct (NDIGITS_MAX <? 1); [discriminate |].
        destruct (1 <? NDIGITS_MIN); [discriminate |].
        destruct (round_pos m e0 1) as [n d].
        destruct (is_inf _); congruence.
    + intros H. injection H as <-. eapply mul_raises, E2.
  - intros H. injection H as <-.
    eapply truediv_int_raises, E1. lia.
Qed.

Lemma compare_refl v : is_number v = true -> compare v v = Some Eq.
Proof.
  destruct v as [a | [s | s | | s m e]]; simpl; try discriminate; intros _.
  - rewrite Z.compare_refl. reflexivity.
  - reflexivity.
  - destruct s; reflexivity.
  - rewrite Z.compare_refl.
    change (Pos.compare_cont Eq m m) with (Pos.compare m m).
    rewrite Pos.compare_refl. destruct s; reflexivity.
Qed.

Lemma eqb_refl v : is_number v = true -> eqb v v = true.
Proof. intros H. unfold eqb. rewrite compare_refl; auto. Qed.

(** A number is at most the bound or above it. *)
Lemma leb_or_gtb v w :
  is_number v = true -> is_number w = true ->
  leb v w = false -> gtb v w = true.
Proof.
  unfold leb, gtb.
  destruct v as [a | x], w as [b | y]; simpl.
  - destruct (a ?= b); congruence.
  - destruct y as [s | s | | s m e]; simpl; try discriminate;
      repeat match goal with
             | |- context [CompOpp ?c] => destruct c; simpl
             | |- context [if ?s then _ else _] => destruct s; simpl
             end; congruence.
  - destruct x as [s | s | | s m e]; simpl; try discriminate;
      repeat match goal with
             | |- context [match ?c with Eq => _ | Lt => _ | Gt => _ end] =>
                 destruct c; simpl
             | |- context [if ?s then _ else _] => destruct s; simpl
             end; congruence.
  - destruct x as [s | s | | s m e], y as [t | t | | t n f]; simpl;
      try discriminate;
      repeat match goal with
             | |- context [match ?c with Eq => _ | Lt => _ | Gt => _ end] =>
                 destruct c; simpl
             | |- context [if ?s then _ else _] => destruct s; simpl
             end; congruence.
Qed.

(** ** What [calculate_hours] and [calculate_costs] return *)

Lemma calculate_hours_body_cases sq_ft scope prep_level :
  match base_hours scope prep_level with
  | Some b => calculate_hours_body sq_ft scope prep_level = hours_of b sq_ft
  | None =>
      exists key,
        calculate_hours_body sq_ft scope prep_level = Raise (KeyError key)
  end.
Proof.
  destruct (base_hours scope prep_level) as [b |] eqn:E.
  - apply calculate_hours_body_entry, E.
  - apply calculate_hours_body_no_entry, E.
Qed.

(** [calculate_hours] returns a number, or raises [OverflowError]; it
    touches the page only to report a key error. *)
Lemma calculate_hours_cases sq_ft scope prep_level w :
  (exists th,
     calculate_hours sq_ft scope prep_level w = (Ok th, w) /\
     calculate_hours_body sq_ft scope prep_level = Ok th /\
     is_number th = true) \/
  (exists key,
     calculate_hours sq_ft scope prep_level w =
       (Ok (PInt 0), show (Error (HourCalculationError (KeyError key))) w) /\
     base_hours scope prep_level = None) \/
  (calculate_hours sq_ft scope prep_level w = (Raise OverflowError, w)).
Proof.
  rewrite calculate_hours_run.
  pose proof (calculate_hours_body_cases sq_ft scope prep_level) as H.
  destruct (base_hours scope prep_level) as [b |].
  - rewrite H. destruct (hours_of b sq_ft) as [h | e] eqn:E.
    + left. exists h. eauto using hours_of_number.
    + apply hours_of_raises in E as ->. right. right. reflexivity.
  - destruct H as [key ->]. right. left. eauto.
Qed.

Lemma costs_from_hours_raises sq_ft scope crew_size th e :
  costs_from_hours sq_ft scope crew_size th = Raise e -> e = OverflowError.
Proof.
  unfold costs_from_hours. intros H.
  destruct (crew_size >? 0) eqn:Hc.
  - destruct (truediv th (PInt crew_size)) as [hpp |] eqn:E; simpl in H;
      [| injection H as <-; eapply truediv_int_raises, E; lia].
    repeat match type of H with
           | rbind ?r _ = Raise _ =>
               let E := fresh "E" in
               destruct r eqn:E; simpl in H;
               [| injection H as <-;
                  first [ eapply mul_raises, E | eapply add_raises, E
                        | eapply truediv_int_raises, E; lia ] ]
           end.
    discriminate.
  - simpl in H.
    repeat match type of H with
           | rbind ?r _ = Raise _ =>
               let E := fresh "E" in
               destruct r eqn:E; simpl in H;
               [| injection H as <-;
                  first [ eapply mul_raises, E | eapply add_raises, E
                        | eapply truediv_int_raises, E; lia ] ]
           end.
    discriminate.
Qed.

(** The only exception that reaches the [except] of [calculate_costs]. *)
Lemma calculate_costs_body_raises sq_ft scope prep_level crew_size w e w' :
  calculate_costs_body sq_ft scope prep_level crew_size w = (Raise e, w') ->
  e = OverflowError.
Proof.
  rewrite calculate_costs_body_run.
  destruct (calculate_hours_cases sq_ft scope prep_level w)
    as [(th & -> & _) | [(key & -> & _) | ->]].
  - destruct (costs_from_hours _ _ _ th) eqn:E; [discriminate |].
    injection 1 as <- _. eapply costs_from_hours_raises, E.
  - destruct (costs_from_hours _ _ _ (PInt 0)) eqn:E; [discriminate |].
    injection 1 as <- _. eapply costs_from_hours_raises, E.
  - congruence.
Qed.

Lemma costs_from_hours_components sq_ft scope crew_size th c :
  costs_from_hours sq_ft scope crew_size th = Ok c ->
  total_hours_of c = th /\
  (if crew_size >? 0
   then truediv th (PInt crew_size) = Ok (hours_per_painter_of c)
   else hours_per_painter_of c = th) /\
  mul th (PInt PAINTER_WAGE) = Ok (labor_cost_of c) /\
  rbind (truediv
           (PInt (if String.eqb scope "Both Interior and Exterior"
                  then sq_ft * 2 else sq_ft)) (PInt 100)) (fun per_100 =>
  rbind (mul per_100 (PFloat GALLONS_PER_100_SQFT)) (fun gallons_needed =>
  rbind (mul gallons_needed (PInt PAINT_COST_PER_GALLON)) (fun paint_cost =>
  rbind (truediv (PInt sq_ft) (PInt 1000)) (fun per_1000 =>
  rbind (mul per_1000 (PInt SUPPLIES_COST_PER_1000_SQFT)) (fun supplies_cost =>
  add paint_cost supplies_cost))))) = Ok (material_cost_of c) /\
  marked_up (labor_cost_of c) (material_cost_of c) = Ok (total_cost_of c).
Proof.
  unfold costs_from_hours, marked_up. intros H.
  destruct (crew_size >? 0);
    repeat match type of H with
           | rbind ?r _ = Ok _ =>
               let E := fresh "E" in
               destruct r eqn:E; simpl in H; [| discriminate]
           end;
    injection H as <-; simpl;
    repeat match goal with
           | E : ?r = Ok _ |- context [?r] => rewrite E; simpl
           end; repeat split; congruence.
Qed.

(** Every component that reaches the handler is a number. *)
Lemma calculate_costs_hours_numbers sq_ft scope prep_level crew_size w c w' :
  calculate_costs sq_ft scope prep_level crew_size w = (Ok c, w') ->
  is_number (total_hours_of c) = true /\
  is_number (hours_per_painter_of c) = true.
Proof.
  rewrite calculate_costs_run, calculate_costs_body_run.
  assert (Hfrom : forall th c0,
            is_number th = true ->
            costs_from_hours sq_ft scope crew_size th = Ok c0 ->
            is_number (total_hours_of c0) = true /\
            is_number (hours_per_painter_of c0) = true).
  { intros th c0 Hth Hc0.
    apply costs_from_hours_components in Hc0 as (-> & Hpp & _).
    split; [exact Hth |].
    destruct (crew_size >? 0) eqn:Hcrew; [| rewrite Hpp; exact Hth].
    eapply truediv_int_number; [| exact Hth | exact Hpp]. lia. }
  destruct (calculate_hours_cases sq_ft scope prep_level w)
    as [(th & -> & _ & Hth) | [(key & -> & _) | ->]].
  - destruct (costs_from_hours _ _ _ th) eqn:E; injection 1 as <- _;
      [eapply Hfrom; eassumption | split; reflexivity].
  - destruct (costs_from_hours _ _ _ (PInt 0)) eqn:E; injection 1 as <- _;
      [eapply Hfrom; [| eassumption]; reflexivity | split; reflexivity].
  - injection 1 as <- _. split; reflexivity.
Qed.

Lemma page_fold_show els : forall w,
  page (fold_left (fun w el => show el w) els w) = page w ++ els /\
  disk (fold_left (fun w el => show el w) els w) = disk w.
Proof.
  induction els as [| el els IH]; intros w; simpl.
  - rewrite app_nil_r. auto.
  - destruct (IH (show el w)) as [-> ->]. simpl.
    rewrite <- app_assoc. auto.
Qed.

Lemma calculate_costs_oblivious sq_ft scope prep_level crew_size :
  oblivious (calculate_costs sq_ft scope prep_level crew_size).
Proof.
  unfold oblivious.
  destruct (calculate_hours_body sq_ft scope prep_level) as [h | e] eqn:Eh.
  - destruct (costs_from_hours sq_ft scope crew_size h) as [c | e] eqn:Ec.
    + exists (Ok c), (fun w => w). intros w.
      rewrite calculate_costs_run, calculate_costs_body_run,
        calculate_hours_run, Eh, Ec. reflexivity.
    + exists (Ok zero_costs), (show (Error (CostCalculationError e))).
      intros w.
      rewrite calculate_costs_run, calculate_costs_body_run,
        calculate_hours_run, Eh, Ec. reflexivity.
  - assert (Hother : (forall key, e <> KeyError key) ->
                     exists (r : res costs) (f : world -> world),
                       forall w,
                         calculate_costs sq_ft scope prep_level crew_size w =
                         (r, f w)).
    { intros Hne.
      exists (Ok zero_costs), (show (Error (CostCalculationError e))).
      intros w.
      rewrite calculate_costs_run, calculate_costs_body_run,
        calculate_hours_run, Eh.
      destruct e; [destruct (Hne key); reflexivity | ..]; reflexivity. }
    destruct e as [key | | | |]; try (apply Hother; discriminate).
    clear Hother.
    destruct (costs_from_hours sq_ft scope crew_size (PInt 0))
      as [c | e] eqn:Ec.
    + exists (Ok c), (show (Error (HourCalculationError (KeyError key)))).
      intros w.
      rewrite calculate_costs_run, calculate_costs_body_run,
        calculate_hours_run, Eh, Ec. reflexivity.
    + exists (Ok zero_costs),
        (fun w => show (Error (CostCalculationError e))
                    (show (Error (HourCalculationError (KeyError key))) w)).
      intros w.
      rewrite calculate_costs_run, calculate_costs_body_run,
        calculate_hours_run, Eh, Ec. reflexivity.
Qed.

Lemma all_below_spec n f :
  all_below n f = true -> forall z, 0 <= z < Z.of_nat n -> f z = true.
Proof.
  induction n as [| n IH]; simpl; intros H z Hz; [lia |].
  apply andb_true_iff in H as [Hn Hrest].
  destruct (Z.eq_dec z (Z.of_nat n)) as [-> | Hne]; [exact Hn |].
  apply IH; [exact Hrest | lia].
Qed.

Lemma scales_rounded_entries scope prep_level b :
  base_hours scope prep_level = Some b -> scales_rounded_upto b = true.
Proof.
  intros H. apply base_hours_entries in H.
  unfold time_estimate_entries in H.
  repeat (apply elem_of_cons in H as [H | H];
          [injection H as _ _ ->; vm_compute; reflexivity |]).
  inversion H.
Qed.

(** ** When the [try] block completes

    The block of [calculate_costs] raises nothing when the two integers are
    under [10^300], whatever the two strings. *)

Lemma int_bound_pow2 : int_bound < 2 ^ 997.
Proof. vm_compute. reflexivity. Qed.

Lemma float_of_int_small n :
  0 <= n <= 50 -> exists y, float_of_int n = Ok y.
Proof.
  intros Hn.
  destruct (float_of_int_below n 6) as (y & Hy & _);
    [change (2 ^ 6) with 64; lia | unfold emax; lia |].
  eauto.
Qed.

Lemma mul_small v n :
  0 <= n <= 50 -> v = PInt 0 \/ (exists f, v = PFloat f) ->
  exists r, mul v (PInt n) = Ok r /\ (r = PInt 0 \/ exists f, r = PFloat f).
Proof.
  intros Hn [-> | [f ->]]; unfold mul.
  - exists (PInt 0). auto.
  - destruct (float_of_int_small n Hn) as (y & ->). simpl. eauto.
Qed.

Lemma mul_float_small x n :
  0 <= n <= 50 -> exists f, mul (PFloat x) (PInt n) = Ok (PFloat f).
Proof.
  intros Hn. unfold mul.
  destruct (float_of_int_small n Hn) as (y & ->). simpl. eauto.
Qed.

Lemma add_floats v w :
  v = PInt 0 \/ (exists f, v = PFloat f) -> (exists f, w = PFloat f) ->
  exists f, add v w = Ok (PFloat f).
Proof.
  intros [-> | [x ->]] [y ->]; unfold add; [| eauto].
  destruct (float_of_int_small 0 ltac:(lia)) as (z & ->). simpl. eauto.
Qed.

Lemma truediv_completes v n :
  0 < n < int_bound -> v = PInt 0 \/ (exists f, v = PFloat f) ->
  exists f, truediv v (PInt n) = Ok (PFloat f).
Proof.
  pose proof int_bound_pow2 as Hb.
  intros Hn [-> | [f ->]]; unfold truediv.
  - destruct (int_truediv_below 0 n 0) as (q & -> & _);
      [lia | simpl; lia | unfold emax; lia |]. eauto.
  - destruct (float_of_int_below n 997) as (y & Hy & _);
      [lia | unfold emax; lia |].
    rewrite Hy. simpl. unfold float_truediv.
    apply float_of_int_finite in Hy; [| lia].
    destruct y; try discriminate Hy. simpl. eauto.
Qed.

Lemma int_truediv_completes a b :
  b <> 0 -> Z.abs a < 2 * int_bound ->
  exists f, truediv (PInt a) (PInt b) = Ok (PFloat f) /\ below 999 f.
Proof.
  pose proof int_bound_pow2 as Hb. intros Hne Ha.
  assert (H2 : 2 ^ 998 = 2 * 2 ^ 997)
    by (change 998 with (Z.succ 997); apply Z.pow_succ_r; lia).
  apply (int_truediv_below a b 998); [exact Hne | lia | unfold emax; lia].
Qed.

Lemma hours_of_completes base sq_ft :
  Z.abs sq_ft < int_bound -> 0 <= base <= 50 ->
  exists f, hours_of base sq_ft = Ok (PFloat f).
Proof.
  intros Hsq Hbase. unfold hours_of.
  destruct (int_truediv_completes sq_ft 1000) as (per_1000 & -> & Hper);
    [lia | lia |].
  cbn [rbind]. unfold mul.
  destruct (float_of_int_below base 6) as (y & -> & Hy);
    [change (2 ^ 6) with 64; lia | unfold emax; lia |].
  cbn [rbind]. unfold round.
  destruct (float_round_below (SFmul prec emax per_1000 y) (999 + 7 + 1))
    as (f & -> & _); [| unfold emax; lia | eauto].
  apply SFmul_below; auto; unfold emax; lia.
Qed.

Lemma base_hours_small scope prep_level b :
  base_hours scope prep_level = Some b -> 0 <= b <= 50.
Proof.
  intros H. apply base_hours_entries in H.
  unfold time_estimate_entries in H.
  repeat (apply elem_of_cons in H as [H | H]; [injection H as _ _ ->; lia |]).
  inversion H.
Qed.

Lemma costs_from_hours_completes sq_ft scope crew_size th :
  Z.abs sq_ft < int_bound -> crew_size < int_bound ->
  th = PInt 0 \/ (exists f, th = PFloat f) ->
  exists c, costs_from_hours sq_ft scope crew_size th = Ok c.
Proof.
  intros Hsq Hcrew Hth.
  assert (Hpp : exists hpp,
            (if crew_size >? 0 then truediv th (PInt crew_size) else Ok th) =
            Ok hpp).
  { destruct (Z.gtb_spec crew_size 0); [| eauto].
    destruct (truediv_completes th crew_size ltac:(lia) Hth) as [f ->].
    eauto. }
  destruct Hpp as [hpp Hpp].
  destruct (mul_small th PAINTER_WAGE ltac:(unfold PAINTER_WAGE; lia) Hth)
    as (lab & Hlab & Hlab').
  destruct (int_truediv_completes
              (if String.eqb scope "Both Interior and Exterior"
               then sq_ft * 2 else sq_ft) 100)
    as (per_100 & Harea & _);
    [lia | destruct (String.eqb scope _); lia |].
  assert (Hgal : exists gallons,
            mul (PFloat per_100) (PFloat GALLONS_PER_100_SQFT) =
            Ok (PFloat gallons)) by (unfold mul; eauto).
  destruct Hgal as [gallons Hgal].
  destruct (mul_float_small gallons PAINT_COST_PER_GALLON
              ltac:(unfold PAINT_COST_PER_GALLON; lia)) as [paint Hpaint].
  destruct (int_truediv_completes sq_ft 1000) as (per_1000 & H1000 & _);
    [lia | lia |].
  destruct (mul_float_small per_1000 SUPPLIES_COST_PER_1000_SQFT
              ltac:(unfold SUPPLIES_COST_PER_1000_SQFT; lia))
    as [supplies Hsupplies].
  destruct (add_floats (PFloat paint) (PFloat supplies)
              ltac:(eauto) ltac:(eauto)) as [mat Hmat].
  destruct (add_floats lab (PFloat mat) Hlab' ltac:(eauto))
    as [subtotal Hsub].
  assert (Hmark : exists markup,
            mul (PFloat subtotal) (PFloat MARKUP_PERCENT) =
            Ok (PFloat markup)) by (unfold mul; eauto).
  destruct Hmark as [markup Hmark].
  destruct (add_floats (PFloat subtotal) (PFloat markup)
              ltac:(eauto) ltac:(eauto)) as [total Htotal].
  unfold costs_from_hours.
  rewrite Hpp, Hlab. cbn [rbind]. cbv zeta.
  rewrite Harea. cbn [rbind]. rewrite Hgal. cbn [rbind].
  rewrite Hpaint. cbn [rbind]. rewrite H1000. cbn [rbind].
  rewrite Hsupplies. cbn [rbind]. rewrite Hmat. cbn [rbind].
  rewrite Hsub. cbn [rbind]. rewrite Hmark. cbn [rbind].
  rewrite Htotal. cbn [rbind]. eauto.
Qed.

(** With a square footage and a crew size under [10^300], the [try] block
    of [calculate_costs] completes, and [calculate_costs] returns what the
    block computed. *)
Theorem try_block_completes sq_ft scope prep_level crew_size w :
  Z.abs sq_ft < int_bound -> crew_size < int_bound ->
  exists c w',
    calculate_costs_body sq_ft scope prep_level crew_size w = (Ok c, w') /\
    calculate_costs sq_ft scope prep_level crew_size w = (Ok c, w').
Proof.
  intros Hsq Hcrew.
  assert (Hbody : exists c w',
            calculate_costs_body sq_ft scope prep_level crew_size w =
            (Ok c, w')).
  { rewrite calculate_costs_body_run, calculate_hours_run.
    pose proof (calculate_hours_body_cases sq_ft scope prep_level) as Hh.
    destruct (base_hours scope prep_level) as [b |] eqn:Hb.
    - rewrite Hh.
      destruct (hours_of_completes b sq_ft Hsq (base_hours_small _ _ _ Hb))
        as [f ->].
      destruct (costs_from_hours_completes sq_ft scope crew_size (PFloat f))
        as [c ->]; eauto.
    - destruct Hh as [key ->].
      destruct (costs_from_hours_completes sq_ft scope crew_size (PInt 0))
        as [c ->]; eauto. }
  destruct Hbody as (c & w' & Hbody).
  exists c, w'. split; [exact Hbody |].
  rewrite calculate_costs_run, Hbody. reflexivity.
Qed.

(** ** Running the handler *)


Lemma hours_of_float b sq_ft v :
  hours_of b sq_ft = Ok v ->
  exists f, v = PFloat f /\ Z.abs sq_ft < 1000 * 2 ^ emax.
Proof.
  unfold hours_of, truediv.
  destruct (int_truediv sq_ft 1000) as [per_1000 |] eqn:E; [| discriminate].
  pose proof (int_truediv_bounded _ _ _ E) as Hsq.
  unfold int_truediv in E. change (1000 =? 0) with false in E. cbv iota in E.
  destruct (is_inf _); [discriminate |]. injection E as <-.
  cbn [rbind]. unfold mul.
  destruct (float_of_int b); [| discriminate]. cbn [rbind].
  unfold round, float_round.
  destruct (SFmul _ _ _ _) as [s | s | | s m e]; simpl;
    try (injection 1 as <-; eauto).
  destruct (round_pos m e 1). destruct (is_inf _); [discriminate |].
  injection 1 as <-. eauto.
Qed.

Lemma truediv_int_float v n q :
  truediv v (PInt n) = Ok q -> exists g, q = PFloat g.
Proof.
  destruct v as [a | x]; unfold truediv.
  - unfold int_truediv. destruct (n =? 0); [discriminate |].
    destruct (is_inf _); [discriminate |]. injection 1 as <-. eauto.
  - destruct (float_of_int n); [| discriminate]. cbn [rbind].
    unfold float_truediv. destruct (is_zero _); [discriminate |].
    injection 1 as <-. eauto.
Qed.

Lemma mul_float x w r : mul (PFloat x) w = Ok r -> exists g, r = PFloat g.
Proof.
  destruct w as [b | y]; unfold mul.
  - destruct (float_of_int b); [| discriminate]. cbn [rbind].
    injection 1 as <-. eauto.
  - injection 1 as <-. eauto.
Qed.

Lemma add_float x w r : add (PFloat x) w = Ok r -> exists g, r = PFloat g.
Proof.
  destruct w as [b | y]; unfold add.
  - destruct (float_of_int b); [| discriminate]. cbn [rbind].
    injection 1 as <-. eauto.
  - injection 1 as <-. eauto.
Qed.

(** From hours that are a float, every number of the tuple is a float. *)
Lemma costs_from_hours_floats sq_ft scope crew_size f c :
  costs_from_hours sq_ft scope crew_size (PFloat f) = Ok c ->
  (exists f2 f3 f4 f5,
     c = (PFloat f, PFloat f2, PFloat f3, PFloat f4, PFloat f5)) /\
  crew_size < 2 ^ emax.
Proof.
  unfold costs_from_hours. intros H.
  destruct (if crew_size >? 0 then truediv (PFloat f) (PInt crew_size)
            else Ok (PFloat f)) as [hpp |] eqn:Epp; [| discriminate].
  assert (Hpp : (exists g, hpp = PFloat g) /\ crew_size < 2 ^ emax).
  { destruct (Z.gtb_spec crew_size 0).
    - split; [eapply truediv_int_float, Epp |].
      unfold truediv in Epp.
      destruct (float_of_int crew_size) eqn:Ey; [| discriminate].
      apply float_of_int_bounded in Ey. lia.
    - injection Epp as <-. split; [eauto |].
      assert (0 < 2 ^ emax) by (apply pow2_pos; unfold emax; lia). lia. }
  destruct Hpp as [[g ->] Hcrew]. cbn [rbind] in H.
  destruct (mul (PFloat f) (PInt PAINTER_WAGE)) as [lab |] eqn:El;
    [| discriminate].
  apply mul_float in El as [lab' ->]. cbn [rbind] in H. cbv zeta in H.
  match type of H with
  | context [truediv (PInt ?area) (PInt 100)] =>
      destruct (truediv (PInt area) (PInt 100)) as [per_100 |] eqn:E100
  end; [| discriminate].
  apply truediv_int_float in E100 as [p100 ->]. cbn [rbind] in H.
  destruct (mul (PFloat p100) _) as [gallons |] eqn:Eg; [| discriminate].
  apply mul_float in Eg as [gal ->]. cbn [rbind] in H.
  destruct (mul (PFloat gal) _) as [paint |] eqn:Ep; [| discriminate].
  apply mul_float in Ep as [pt ->]. cbn [rbind] in H.
  destruct (truediv (PInt sq_ft) _) as [per_1000 |] eqn:E1000;
    [| discriminate].
  apply truediv_int_float in E1000 as [p1000 ->]. cbn [rbind] in H.
  destruct (mul (PFloat p1000) _) as [supplies |] eqn:Es; [| discriminate].
  apply mul_float in Es as [sup ->]. cbn [rbind] in H.
  destruct (add (PFloat pt) _) as [mat |] eqn:Em; [| discriminate].
  apply add_float in Em as [mat' ->]. cbn [rbind] in H.
  destruct (add (PFloat lab') _) as [subtotal |] eqn:Esub; [| discriminate].
  apply add_float in Esub as [sub ->]. cbn [rbind] in H.
  destruct (mul (PFloat sub) _) as [markup |] eqn:Emk; [| discriminate].
  apply mul_float in Emk as [mk ->]. cbn [rbind] in H.
  destruct (add (PFloat sub) _) as [total |] eqn:Et; [| discriminate].
  apply add_float in Et as [tot ->]. cbn [rbind] in H.
  injection H as <-. split; [eauto 10 | exact Hcrew].
Qed.

(** A calculation the handler takes as successful returned five floats,
    for a square footage and a crew size within the range of a float. *)
Lemma calculate_costs_floats sq_ft scope prep_level crew_size w c w1 :
  calculate_costs sq_ft scope prep_level crew_size w = (Ok c, w1) ->
  eqb (total_hours_of c) (PInt 0) = false ->
  (exists f1 f2 f3 f4 f5,
     c = (PFloat f1, PFloat f2, PFloat f3, PFloat f4, PFloat f5)) /\
  Z.abs sq_ft < 1000 * 2 ^ emax /\ crew_size < 2 ^ emax.
Proof.
  rewrite calculate_costs_run, calculate_costs_body_run, calculate_hours_run.
  pose proof (calculate_hours_body_cases sq_ft scope prep_level) as Hh.
  destruct (base_hours scope prep_level) as [b |].
  - rewrite Hh. destruct (hours_of b sq_ft) as [th | e] eqn:Eh.
    + apply hours_of_float in Eh as (f & -> & Hsq).
      destruct (costs_from_hours sq_ft scope crew_size (PFloat f))
        as [c' | e] eqn:Ec.
      * injection 1 as <- _. intros _.
        apply costs_from_hours_floats in Ec as [(f2 & f3 & f4 & f5 & ->) Hc].
        split; [eauto 10 | auto].
      * injection 1 as <- _. discriminate.
    + apply hours_of_raises in Eh as ->. injection 1 as <- _. discriminate.
  - destruct Hh as [key ->].
    destruct (costs_from_hours sq_ft scope crew_size (PInt 0))
      as [c' | e] eqn:Ec.
    + injection 1 as <- _.
      rewrite (costs_from_hours_total_hours _ _ _ _ _ Ec). discriminate.
    + injection 1 as <- _. discriminate.
Qed.

Lemma generate_pdf_bid_run
  sq_ft scope prep_level crew_size total_hours labor_cost material_cost
  total_cost w :
  generate_pdf_bid sq_ft scope prep_level crew_size total_hours labor_cost
    material_cost total_cost w =
  match bid_document (today w) sq_ft scope prep_level crew_size total_hours
          labor_cost material_cost total_cost with
  | Ok d =>
      if disk_writable w
      then (Ok (Some pdf_filename),
            set_disk (<[pdf_filename := d]> (disk w)) w)
      else (Ok None, show (Error (PdfError IOError)) w)
  | Raise e => (Ok None, show (Error (PdfError e)) w)
  end.
Proof.
  unfold generate_pdf_bid, bid_document, try_except, get_world, save, lift,
    error, mbind, M_bind, mret, M_ret.
  destruct (int_str sq_ft); cbn [rbind]; [| reflexivity].
  destruct (int_str crew_size); cbn [rbind]; [| reflexivity].
  destruct (format_fixed total_hours 1); cbn [rbind]; [| reflexivity].
  destruct (format_fixed labor_cost 2); cbn [rbind]; [| reflexivity].
  destruct (format_fixed material_cost 2); cbn [rbind]; [| reflexivity].
  destruct (format_fixed total_cost 2); cbn [rbind]; [| reflexivity].
  destruct (disk_writable w); reflexivity.
Qed.

(** The three branches of the handler. *)
Lemma generate_bid_failed sq_ft scope prep_level crew_size w c w1 :
  calculate_costs sq_ft scope prep_level crew_size w = (Ok c, w1) ->
  eqb (total_hours_of c) (PInt 0) = true ->
  generate_bid sq_ft scope prep_level crew_size w =
  (Ok tt, show (Error CalculationFailed) w1).
Proof.
  intros Hc Hz. unfold generate_bid, mbind, M_bind at 1. rewrite Hc.
  destruct c as [[[[th hpp] lab] mat] tot]. simpl in Hz. rewrite Hz.
  reflexivity.
Qed.

Lemma generate_bid_over_limit sq_ft scope prep_level crew_size w c w1 :
  calculate_costs sq_ft scope prep_level crew_size w = (Ok c, w1) ->
  eqb (total_hours_of c) (PInt 0) = false ->
  leb (hours_per_painter_of c) (PInt MAX_WEEK_HOURS) = false ->
  generate_bid sq_ft scope prep_level crew_size w =
  match format_fixed (hours_per_painter_of c) 1 with
  | Ok t => (Ok tt, show (Error (WeekLimitExceeded t MAX_WEEK_HOURS)) w1)
  | Raise e => (Raise e, w1)
  end.
Proof.
  intros Hc Hz Hle. unfold generate_bid, mbind, M_bind at 1. rewrite Hc.
  destruct c as [[[[th hpp] lab] mat] tot]. simpl in Hz, Hle.
  cbn [hours_per_painter_of]. rewrite Hz, Hle.
  unfold mbind, M_bind, lift, error.
  destruct (format_fixed hpp 1); reflexivity.
Qed.

(** In the summary branch nothing is rendered when the crew size has no
    text. *)
Lemma generate_bid_no_text sq_ft scope prep_level crew_size w c w1 e :
  calculate_costs sq_ft scope prep_level crew_size w = (Ok c, w1) ->
  eqb (total_hours_of c) (PInt 0) = false ->
  leb (hours_per_painter_of c) (PInt MAX_WEEK_HOURS) = true ->
  int_str crew_size = Raise e ->
  generate_bid sq_ft scope prep_level crew_size w = (Raise e, w1).
Proof.
  intros Hc Hz Hle Hs. unfold generate_bid, mbind, M_bind at 1. rewrite Hc.
  destruct c as [[[[th hpp] lab] mat] tot]. simpl in Hz, Hle.
  rewrite Hz, Hle. unfold mbind, M_bind at 1. unfold lift. rewrite Hs.
  reflexivity.
Qed.

(** The summary branch, when every text exists: the summary, then the
    PDF, and on a PDF the file is read, offered and removed. *)
Lemma generate_bid_summary sq_ft scope prep_level crew_size w c w1 t :
  calculate_costs sq_ft scope prep_level crew_size w = (Ok c, w1) ->
  eqb (total_hours_of c) (PInt 0) = false ->
  leb (hours_per_painter_of c) (PInt MAX_WEEK_HOURS) = true ->
  int_str crew_size = Ok crew_size ->
  summary_texts c = Ok t ->
  generate_bid sq_ft scope prep_level crew_size w =
  let w2 := fold_left (fun w el => show el w) (bid_summary crew_size t) w1 in
  match bid_document (today w1) sq_ft scope prep_level crew_size
          (total_hours_of c) (labor_cost_of c) (material_cost_of c)
          (total_cost_of c) with
  | Raise e => (Ok tt, show (Error (PdfError e)) w2)
  | Ok d =>
      if disk_writable w1
      then
        let w3 := set_disk (<[pdf_filename := d]> (disk w1)) w2 in
        if disk_readable w1
        then
          let w4 := show (DownloadButton pdf_filename d) w3 in
          if disk_removable w1
          then (Ok tt,
                set_disk (delete pdf_filename
                            (<[pdf_filename := d]> (disk w1))) w4)
          else (Raise IOError, w4)
        else (Raise IOError, w3)
      else (Ok tt, show (Error (PdfError IOError)) w2)
  end.
Proof.
  intros Hc Hz Hle Hs Ht. unfold generate_bid, mbind, M_bind at 1. rewrite Hc.
  destruct c as [[[[th hpp] lab] mat] tot]. simpl in Hz, Hle.
  cbn [total_hours_of labor_cost_of material_cost_of total_cost_of].
  rewrite Hz, Hle. simpl in Ht.
  destruct (format_fixed th 1) as [t1 |] eqn:E1; [| discriminate].
  destruct (format_fixed hpp 1) as [t2 |] eqn:E2; [| discriminate].
  destruct (format_fixed lab 2) as [t3 |] eqn:E3; [| discriminate].
  destruct (format_fixed mat 2) as [t4 |] eqn:E4; [| discriminate].
  destruct (format_fixed tot 2) as [t5 |] eqn:E5; [| discriminate].
  injection Ht as <-.
  unfold mbind, M_bind, lift, success, header, write. rewrite Hs.
  cbn [bid_summary fold_left].
  set (w2 := show (Write "Total Cost" t5) _).
  rewrite generate_pdf_bid_run.
  change (today w2) with (today w1). change (disk_writable w2)
    with (disk_writable w1). change (disk w2) with (disk w1).
  destruct (bid_document _ _ _ _ _ _ _ _ _) as [d | e]; [| reflexivity].
  destruct (disk_writable w1); [| reflexivity].
  unfold open_rb, download_button, remove, mret, M_ret. simpl.
  rewrite lookup_insert_eq.
  destruct (disk_readable w1); [| reflexivity]. simpl.
  rewrite lookup_insert_eq.
  destruct (disk_removable w1); reflexivity.
Qed.

Lemma reports_failure_no_entry sq_ft scope prep_level crew_size w :
  base_hours scope prep_level = None ->
  exists w',
    generate_bid sq_ft scope prep_level crew_size w = (Ok tt, w') /\
    reports_failure w w'.
Proof.
  intros Hno.
  destruct (calculate_costs_no_entry sq_ft scope prep_level crew_size w Hno)
    as (key & c & w1 & errs & Hc & Hth & Hpage & Herrs & Hdisk).
  rewrite (generate_bid_failed _ _ _ _ _ _ _ Hc)
    by (rewrite Hth; reflexivity).
  eexists. split; [reflexivity |].
  exists (Error (HourCalculationError (KeyError key)) :: errs).
  unfold shows. simpl. rewrite Hpage, <- app_assoc. auto.
Qed.

(** [calculate_costs] only adds to the page. *)
Lemma calculate_costs_keeps sq_ft scope prep_level crew_size w r w' :
  calculate_costs sq_ft scope prep_level crew_size w = (r, w') ->
  disk w' = disk w /\ disk_writable w' = disk_writable w /\
  disk_readable w' = disk_readable w /\
  disk_removable w' = disk_removable w /\ today w' = today w.
Proof.
  rewrite calculate_costs_run, calculate_costs_body_run.
  destruct (calculate_hours_cases sq_ft scope prep_level w)
    as [(th & -> & _) | [(key & -> & _) | ->]].
  - destruct (costs_from_hours _ _ _ th); injection 1 as _ <-; auto.
  - destruct (costs_from_hours _ _ _ (PInt 0)); injection 1 as _ <-; auto.
  - injection 1 as _ <-. auto.
Qed.

(** Everything the handler can do once [calculate_costs] has returned
    [c] in [w1]: the result, what is added to the page, and the disk. *)
Lemma generate_bid_cases sq_ft scope prep_level crew_size w c w1 :
  calculate_costs sq_ft scope prep_level crew_size w = (Ok c, w1) ->
  exists r w' els,
    generate_bid sq_ft scope prep_level crew_size w = (r, w') /\
    page w' = page w1 ++ els /\
    ((eqb (total_hours_of c) (PInt 0) = true /\
      r = Ok tt /\ els = [Error CalculationFailed] /\ disk w' = disk w) \/
     (eqb (total_hours_of c) (PInt 0) = false /\
      leb (hours_per_painter_of c) (PInt MAX_WEEK_HOURS) = false /\
      gtb (hours_per_painter_of c) (PInt MAX_WEEK_HOURS) = true /\
      r = Ok tt /\
      (exists t,
         format_fixed (hours_per_painter_of c) 1 = Ok t /\
         els = [Error (WeekLimitExceeded t MAX_WEEK_HOURS)]) /\
      disk w' = disk w) \/
     (eqb (total_hours_of c) (PInt 0) = false /\
      leb (hours_per_painter_of c) (PInt MAX_WEEK_HOURS) = true /\
      crew_size <= - 10 ^ INT_MAX_STR_DIGITS /\
      r = Raise ValueError /\ els = [] /\ disk w' = disk w) \/
     (eqb (total_hours_of c) (PInt 0) = false /\
      leb (hours_per_painter_of c) (PInt MAX_WEEK_HOURS) = true /\
      - 10 ^ INT_MAX_STR_DIGITS < crew_size /\
      exists t d,
        summary_texts c = Ok t /\
        bid_document (today w) sq_ft scope prep_level crew_size
          (total_hours_of c) (labor_cost_of c) (material_cost_of c)
          (total_cost_of c) = Ok d /\
        ((disk_writable w = false /\
          r = Ok tt /\
          els = bid_summary crew_size t ++ [Error (PdfError IOError)] /\
          disk w' = disk w) \/
         (disk_writable w = true /\ disk_readable w = false /\
          r = Raise IOError /\
          els = bid_summary crew_size t /\
          disk w' = <[pdf_filename := d]> (disk w)) \/
         (disk_writable w = true /\ disk_readable w = true /\
          disk_removable w = false /\
          r = Raise IOError /\
          els = bid_summary crew_size t ++ [DownloadButton pdf_filename d] /\
          disk w' = <[pdf_filename := d]> (disk w)) \/
         (disk_writable w = true /\ disk_readable w = true /\
          disk_removable w = true /\
          r = Ok tt /\
          els = bid_summary crew_size t ++ [DownloadButton pdf_filename d] /\
          disk w' = delete pdf_filename (disk w))))).
Proof.
  intros Hc.
  pose proof (calculate_costs_hours_numbers _ _ _ _ _ _ _ Hc) as [_ Hnum].
  destruct (calculate_costs_keeps _ _ _ _ _ _ _ Hc)
    as (Hd & Hw & Hr & Hx & Ht).
  destruct (eqb (total_hours_of c) (PInt 0)) eqn:Hz.
  { rewrite (generate_bid_failed _ _ _ _ _ _ _ Hc Hz).
    eexists _, _, _. split; [reflexivity |]. split; [reflexivity |].
    left. auto. }
  destruct (calculate_costs_floats _ _ _ _ _ _ _ Hc Hz)
    as ((f1 & f2 & f3 & f4 & f5 & ->) & Hsq & Hcrew).
  cbn [total_hours_of hours_per_painter_of labor_cost_of material_cost_of
       total_cost_of] in *.
  pose proof range_has_text as Hrange.
  assert (H2 : 0 < 2 ^ emax) by (apply pow2_pos; unfold emax; lia).
  destruct (leb (PFloat f2) (PInt MAX_WEEK_HOURS)) eqn:Hle.
  - destruct (Z.le_gt_cases crew_size (- 10 ^ INT_MAX_STR_DIGITS))
      as [Hlow | Hlow].
    + destruct (int_str_cases crew_size) as [Hs | [Hs _]].
      { unfold int_str in Hs.
        destruct (Z.leb_spec (10 ^ INT_MAX_STR_DIGITS) (Z.abs crew_size));
          [discriminate | lia]. }
      rewrite (generate_bid_no_text _ _ _ _ _ _ _ _ Hc Hz Hle Hs).
      eexists _, _, []. split; [reflexivity |].
      rewrite app_nil_r. split; [reflexivity |].
      right. right. left. auto 10.
    + assert (Hs : int_str crew_size = Ok crew_size)
        by (apply int_str_ok; lia).
      assert (Hsq' : int_str sq_ft = Ok sq_ft) by (apply int_str_ok; lia).
      set (t := (float_format f1 1, float_format f2 1, float_format f3 2,
                 float_format f4 2, float_format f5 2)).
      set (d := Document (today w) sq_ft scope prep_level crew_size
                  (float_format f1 1) (float_format f3 2)
                  (float_format f4 2) (float_format f5 2)).
      assert (Hdoc : bid_document (today w) sq_ft scope prep_level crew_size
                       (PFloat f1) (PFloat f3) (PFloat f4) (PFloat f5) =
                     Ok d)
        by (unfold bid_document; rewrite Hsq', Hs; reflexivity).
      assert (Htexts : summary_texts
                         (PFloat f1, PFloat f2, PFloat f3, PFloat f4,
                          PFloat f5) = Ok t) by reflexivity.
      clearbody t d.
      rewrite (generate_bid_summary _ _ _ _ _ _ _ t Hc Hz Hle Hs Htexts).
      cbn [total_hours_of labor_cost_of material_cost_of total_cost_of].
      rewrite Ht, Hdoc, Hw, Hr, Hx, Hd.
      destruct (page_fold_show (bid_summary crew_size t) w1)
        as [Hpage Hdisk].
      cbv zeta.
      destruct (disk_writable w) eqn:Ew;
        [destruct (disk_readable w) eqn:Er;
         [destruct (disk_removable w) eqn:Ex |] |].
      * eexists (Ok tt), _,
          (bid_summary crew_size t ++ [DownloadButton pdf_filename d]).
        split; [reflexivity |].
        split; [cbn [page show set_disk]; rewrite Hpage, app_assoc;
                reflexivity |].
        right. right. right.
        split; [reflexivity |]. split; [reflexivity |]. split; [exact Hlow |].
        exists t, d. split; [exact Htexts |]. split; [reflexivity |].
        right. right. right. cbn [disk set_disk].
        rewrite delete_insert_eq. auto 10.
      * eexists (Raise IOError), _,
          (bid_summary crew_size t ++ [DownloadButton pdf_filename d]).
        split; [reflexivity |].
        split; [cbn [page show set_disk]; rewrite Hpage, app_assoc;
                reflexivity |].
        right. right. right.
        split; [reflexivity |]. split; [reflexivity |]. split; [exact Hlow |].
        exists t, d. split; [exact Htexts |]. split; [reflexivity |].
        right. right. left. cbn [disk set_disk show]. auto 10.
      * eexists (Raise IOError), _, (bid_summary crew_size t).
        split; [reflexivity |].
        split; [cbn [page show set_disk]; exact Hpage |].
        right. right. right.
        split; [reflexivity |]. split; [reflexivity |]. split; [exact Hlow |].
        exists t, d. split; [exact Htexts |]. split; [reflexivity |].
        right. left. cbn [disk set_disk]. auto 10.
      * eexists (Ok tt), _,
          (bid_summary crew_size t ++ [Error (PdfError IOError)]).
        split; [reflexivity |].
        split; [cbn [page show]; rewrite Hpage, app_assoc; reflexivity |].
        right. right. right.
        split; [reflexivity |]. split; [reflexivity |]. split; [exact Hlow |].
        exists t, d. split; [exact Htexts |]. split; [reflexivity |].
        left. cbn [disk show]. rewrite Hdisk, Hd. auto 10.
  - rewrite (generate_bid_over_limit _ _ _ _ _ _ _ Hc Hz Hle).
    cbn [hours_per_painter_of format_fixed].
    eexists _, _, _. split; [reflexivity |]. split; [reflexivity |].
    right. left. split; [reflexivity |]. split; [reflexivity |].
    split; [apply leb_or_gtb; [exact Hnum | reflexivity | exact Hle] |].
    split; [reflexivity |]. split; [eauto |]. exact Hd.
Qed.

(** ** The claims *)

(** C1. With [sq_ft = 2000], scope "Interior Only", prep level "Low" and a
    crew of 2, the calculation returns [total_hours = 20.0] and
    [hours_per_painter = 10.0]; the other components are 400.0, 120.0 and
    754.0, and nothing is put on the page. *)
Theorem calculate_costs_2000_interior_low w :
  calculate_costs 2000 "Interior Only" "Low" 2 w =
  (Ok (PFloat (literal 200 1), PFloat (literal 100 1),
       PFloat (literal 4000 1), PFloat (literal 1200 1),
       PFloat (literal 7540 1)), w).
Proof.
  rewrite calculate_costs_run, calculate_costs_body_run, calculate_hours_run.
  assert (Hh : calculate_hours_body 2000 "Interior Only" "Low" =
               Ok (PFloat (literal 200 1))) by (vm_compute; reflexivity).
  rewrite Hh.
  assert (Hc : costs_from_hours 2000 "Interior Only" 2
                 (PFloat (literal 200 1)) =
               Ok (PFloat (literal 200 1), PFloat (literal 100 1),
                   PFloat (literal 4000 1), PFloat (literal 1200 1),
                   PFloat (literal 7540 1))) by (vm_compute; reflexivity).
  rewrite Hc. reflexivity.
Qed.

(** C2. For every prep-level string of the select box and every scope, the
    lookup [TIME_ESTIMATES[scope][prep_level]] raises [KeyError], so
    [calculate_hours] reports the error and returns 0, and the handler
    reports that the calculation failed and renders no bid, whatever the
    square footage and the crew size. *)
Theorem ui_prep_levels_always_fail sq_ft scope prep_level crew_size w :
  prep_level ∈ prep_level_options ->
  (exists key,
     rbind (getitem TIME_ESTIMATES scope)
           (fun by_prep => getitem by_prep prep_level) =
     Raise (KeyError key)) /\
  (exists key,
     calculate_hours sq_ft scope prep_level w =
     (Ok (PInt 0), show (Error (HourCalculationError (KeyError key))) w)) /\
  (exists w',
     generate_bid sq_ft scope prep_level crew_size w = (Ok tt, w') /\
     reports_failure w w').
Proof.
  intros Hui.
  pose proof (ui_prep_level_no_entry scope prep_level Hui) as Hno.
  split; [| split].
  - rewrite getitem_base_hours, Hno. eauto.
  - destruct (calculate_hours_body_no_entry sq_ft scope prep_level Hno)
      as [key Hbody].
    exists key. rewrite calculate_hours_run, Hbody. reflexivity.
  - apply reports_failure_no_entry, Hno.
Qed.

(** The first option of the select box, on the default inputs. *)
Lemma ui_prep_levels_always_fail_witness :
  "Low (minimal prep)" ∈ prep_level_options /\
  (exists key,
     rbind (getitem TIME_ESTIMATES "Interior Only")
           (fun by_prep => getitem by_prep "Low (minimal prep)") =
     Raise (KeyError key)) /\
  (exists key,
     calculate_hours 2000 "Interior Only" "Low (minimal prep)" empty_world =
     (Ok (PInt 0),
      show (Error (HourCalculationError (KeyError key))) empty_world)) /\
  (exists w',
     generate_bid 2000 "Interior Only" "Low (minimal prep)" 2 empty_world =
     (Ok tt, w') /\
     reports_failure empty_world w').
Proof.
  split; [constructor |].
  apply (ui_prep_levels_always_fail 2000 "Interior Only" "Low (minimal prep)"
           2 empty_world).
  constructor.
Defined.

(** C6. For every pair [(scope, prep_level)] that is no key path of the
    table, [calculate_hours] shows an error message and returns 0 instead
    of raising, and the handler then reports failure and renders no bid. *)
Theorem invalid_pair_reports_failure sq_ft scope prep_level crew_size w :
  base_hours scope prep_level = None ->
  (exists key,
     calculate_hours sq_ft scope prep_level w =
     (Ok (PInt 0), show (Error (HourCalculationError (KeyError key))) w)) /\
  (exists w',
     generate_bid sq_ft scope prep_level crew_size w = (Ok tt, w') /\
     reports_failure w w').
Proof.
  intros Hno. split.
  - destruct (calculate_hours_body_no_entry sq_ft scope prep_level Hno)
      as [key Hbody].
    exists key. rewrite calculate_hours_run, Hbody. reflexivity.
  - apply reports_failure_no_entry, Hno.
Qed.

(** A scope the table does not know. *)
Lemma invalid_pair_reports_failure_witness :
  base_hours "Garage Only" "Low" = None /\
  (exists key,
     calculate_hours 2000 "Garage Only" "Low" empty_world =
     (Ok (PInt 0),
      show (Error (HourCalculationError (KeyError key))) empty_world)) /\
  (exists w',
     generate_bid 2000 "Garage Only" "Low" 2 empty_world = (Ok tt, w') /\
     reports_failure empty_world w').
Proof.
  split; [vm_compute; reflexivity |].
  apply (invalid_pair_reports_failure 2000 "Garage Only" "Low" 2 empty_world).
  vm_compute. reflexivity.
Defined.

(** C9. [calculate_costs] is deterministic: the tuple it returns for given
    [(sq_ft, scope, prep_level, crew_size)] is the same in every world it
    is run in. *)
Theorem calculate_costs_deterministic sq_ft scope prep_level crew_size w1 w2 :
  fst (calculate_costs sq_ft scope prep_level crew_size w1) =
  fst (calculate_costs sq_ft scope prep_level crew_size w2).
Proof.
  destruct (calculate_costs_oblivious sq_ft scope prep_level crew_size)
    as (r & f & H).
  rewrite (H w1), (H w2). reflexivity.
Qed.

(** C3, as stated, fails: at 1100 sq ft, "Interior Only", "Low", the
    subtotal is 220.0 + 66.0 and the script returns
    [286.0 + 286.0 * 0.45 = 414.70000000000005], while
    [(220.0 + 66.0) * (1 + 0.45) = 414.7]. *)
Lemma total_cost_factor_counterexample :
  calculate_costs 1100 "Interior Only" "Low" 2 empty_world =
  (Ok (PFloat (literal 110 1), PFloat (literal 55 1),
       PFloat (literal 2200 1), PFloat (literal 660 1),
       PFloat (literal 41470000000000005 14)), empty_world) /\
  spec_total_cost (PFloat (literal 2200 1)) (PFloat (literal 660 1)) =
  Ok (PFloat (literal 4147 1)) /\
  eqb (PFloat (literal 41470000000000005 14)) (PFloat (literal 4147 1)) = false.
Proof.
  split; [| split]; vm_compute; reflexivity.
Qed.

(** C3, amended. For every input on which the [try] block of
    [calculate_costs] completes, that tuple is returned and
    [total_cost = subtotal + subtotal * 0.45] with
    [subtotal = labor_cost + material_cost], each operation rounded to
    binary64. *)
Theorem total_cost_is_marked_up_subtotal
  sq_ft scope prep_level crew_size w c w' :
  calculate_costs_body sq_ft scope prep_level crew_size w = (Ok c, w') ->
  calculate_costs sq_ft scope prep_level crew_size w = (Ok c, w') /\
  exists subtotal markup,
    add (labor_cost_of c) (material_cost_of c) = Ok subtotal /\
    mul subtotal (PFloat (literal 45 2)) = Ok markup /\
    add subtotal markup = Ok (total_cost_of c).
Proof.
  intros Hbody. split; [rewrite calculate_costs_run, Hbody; reflexivity |].
  rewrite calculate_costs_body_run in Hbody.
  destruct (calculate_hours sq_ft scope prep_level w) as [[th | e] w1];
    [| discriminate].
  injection Hbody as Hc _.
  apply costs_from_hours_components in Hc as (_ & _ & _ & _ & Hm).
  unfold marked_up in Hm.
  destruct (add (labor_cost_of c) (material_cost_of c)) as [subtotal |];
    simpl in Hm; [| discriminate].
  destruct (mul subtotal (PFloat MARKUP_PERCENT)) as [markup |] eqn:E;
    simpl in Hm; [| discriminate].
  eauto.
Qed.

(** The input of the counterexample: the block completes on it. *)
Lemma total_cost_is_marked_up_subtotal_witness :
  let c := (PFloat (literal 110 1), PFloat (literal 55 1),
            PFloat (literal 2200 1), PFloat (literal 660 1),
            PFloat (literal 41470000000000005 14)) in
  calculate_costs_body 1100 "Interior Only" "Low" 2 empty_world =
    (Ok c, empty_world) /\
  calculate_costs 1100 "Interior Only" "Low" 2 empty_world =
    (Ok c, empty_world) /\
  exists subtotal markup,
    add (labor_cost_of c) (material_cost_of c) = Ok subtotal /\
    mul subtotal (PFloat (literal 45 2)) = Ok markup /\
    add subtotal markup = Ok (total_cost_of c).
Proof.
  assert (H : calculate_costs_body 1100 "Interior Only" "Low" 2 empty_world =
              (Ok (PFloat (literal 110 1), PFloat (literal 55 1),
                   PFloat (literal 2200 1), PFloat (literal 660 1),
                   PFloat (literal 41470000000000005 14)), empty_world))
    by (vm_compute; reflexivity).
  split; [exact H |].
  exact (total_cost_is_marked_up_subtotal 1100 "Interior Only" "Low" 2
           empty_world _ empty_world H).
Defined.

(** C7, as stated, fails: with a crew size no float can hold,
    [total_hours / crew_size] raises [OverflowError], the [except] branch
    returns zeros, and the material cost is 0, not the 120.0 of the
    formula. *)
Lemma material_cost_counterexample :
  calculate_costs 2000 "Interior Only" "Low" (10 ^ 400) empty_world =
  (Ok zero_costs,
   show (Error (CostCalculationError OverflowError)) empty_world) /\
  spec_material_cost 2000 "Interior Only" = Ok (PFloat (literal 1200 1)) /\
  eqb (material_cost_of zero_costs) (PFloat (literal 1200 1)) = false.
Proof.
  split; [| split]; vm_compute; reflexivity.
Qed.

(** C7, amended. For every input on which the [try] block of
    [calculate_costs] completes, that tuple is returned and
    [material_cost = (paint_area / 100) * 0.025 * 40 + (sq_ft / 1000) * 50],
    where [paint_area = 2 * sq_ft] for "Both Interior and Exterior" and
    [sq_ft] otherwise.  The block only fails to complete by an
    [OverflowError], with a square footage or a crew size of at least
    [10^300], and then the zero tuple is returned. *)
Theorem material_cost_formula sq_ft scope prep_level crew_size w :
  match fst (calculate_costs_body sq_ft scope prep_level crew_size w) with
  | Ok c =>
      fst (calculate_costs sq_ft scope prep_level crew_size w) = Ok c /\
      spec_material_cost sq_ft scope = Ok (material_cost_of c)
  | Raise e =>
      e = OverflowError /\
      ~ (Z.abs sq_ft < 10 ^ 300 /\ crew_size < 10 ^ 300) /\
      fst (calculate_costs sq_ft scope prep_level crew_size w) = Ok zero_costs
  end.
Proof.
  rewrite calculate_costs_run.
  destruct (calculate_costs_body sq_ft scope prep_level crew_size w)
    as [[c | e] w'] eqn:Hbody; simpl.
  - split; [reflexivity |].
    rewrite calculate_costs_body_run in Hbody.
    destruct (calculate_hours sq_ft scope prep_level w) as [[th | e] w1];
      [| discriminate].
    injection Hbody as Hc _.
    apply costs_from_hours_components in Hc as (_ & _ & _ & Hm & _).
    unfold spec_material_cost. rewrite (Z.mul_comm 2 sq_ft). exact Hm.
  - split; [eapply calculate_costs_body_raises, Hbody |].
    split; [| reflexivity].
    intros [Hsq Hcrew].
    destruct (try_block_completes sq_ft scope prep_level crew_size w
                Hsq Hcrew) as (c & w2 & Hc & _).
    congruence.
Qed.

(** C8, as stated, fails: with a crew size no float can hold,
    [calculate_hours] returns 20.0, whose product with the wage is 400.0,
    but the [except] branch of [calculate_costs] returns a labor cost
    of 0. *)
Lemma labor_cost_counterexample :
  calculate_costs 2000 "Interior Only" "Low" (10 ^ 400) empty_world =
  (Ok zero_costs,
   show (Error (CostCalculationError OverflowError)) empty_world) /\
  calculate_hours 2000 "Interior Only" "Low" empty_world =
  (Ok (PFloat (literal 200 1)), empty_world) /\
  mul (PFloat (literal 200 1)) (PInt 20) = Ok (PFloat (literal 4000 1)) /\
  eqb (labor_cost_of zero_costs) (PFloat (literal 4000 1)) = false.
Proof.
  repeat split; vm_compute; reflexivity.
Qed.

(** C8, amended. For every input, [labor_cost] equals the returned
    [total_hours] multiplied by the hourly wage of 20; the returned
    [total_hours] is [calculate_hours(sq_ft, scope, prep_level)] when the
    [try] block of [calculate_costs] completes.  The block only fails to
    complete by an [OverflowError], with a square footage or a crew size of
    at least [10^300], and then the whole tuple is zero. *)
Theorem labor_cost_is_hours_times_wage sq_ft scope prep_level crew_size w :
  exists c w',
    calculate_costs sq_ft scope prep_level crew_size w = (Ok c, w') /\
    mul (total_hours_of c) (PInt 20) = Ok (labor_cost_of c) /\
    match fst (calculate_costs_body sq_ft scope prep_level crew_size w) with
    | Ok _ =>
        fst (calculate_hours sq_ft scope prep_level w) = Ok (total_hours_of c)
    | Raise e =>
        e = OverflowError /\
        ~ (Z.abs sq_ft < 10 ^ 300 /\ crew_size < 10 ^ 300) /\
        c = zero_costs
    end.
Proof.
  rewrite calculate_costs_run.
  destruct (calculate_costs_body sq_ft scope prep_level crew_size w)
    as [[c | e] w'] eqn:Hbody; simpl.
  - exists c, w'. split; [reflexivity |].
    rewrite calculate_costs_body_run in Hbody.
    destruct (calculate_hours sq_ft scope prep_level w) as [[th | e] w1];
      [| discriminate].
    injection Hbody as Hc _.
    apply costs_from_hours_components in Hc as (-> & _ & Hl & _).
    split; [exact Hl | reflexivity].
  - exists zero_costs, (show (Error (CostCalculationError e)) w').
    split; [reflexivity |]. split; [reflexivity |].
    split; [eapply calculate_costs_body_raises, Hbody |].
    split; [| reflexivity].
    intros [Hsq Hcrew].
    destruct (try_block_completes sq_ft scope prep_level crew_size w
                Hsq Hcrew) as (c & w2 & Hc & _).
    congruence.
Qed.

(** C10. [calculate_costs] never divides by zero: the only exception its
    [try] block can raise is [OverflowError].  With [crew_size = 0] the
    guard makes [hours_per_painter] the returned [total_hours]; with
    [crew_size >= 1], [hours_per_painter == total_hours / crew_size] on the
    returned tuple. *)
Theorem no_division_by_zero sq_ft scope prep_level crew_size w :
  exists c w',
    calculate_costs sq_ft scope prep_level crew_size w = (Ok c, w') /\
    fst (calculate_costs_body sq_ft scope prep_level crew_size w) <>
      Raise ZeroDivisionError /\
    (crew_size = 0 -> hours_per_painter_of c = total_hours_of c) /\
    (1 <= crew_size ->
     exists q,
       truediv (total_hours_of c) (PInt crew_size) = Ok q /\
       eqb (hours_per_painter_of c) q = true).
Proof.
  destruct (calculate_costs_returns sq_ft scope prep_level crew_size w)
    as (c & w' & Hc).
  exists c, w'. split; [exact Hc |].
  pose proof (calculate_costs_hours_numbers _ _ _ _ _ _ _ Hc) as [_ Hnum].
  rewrite calculate_costs_run in Hc.
  destruct (calculate_costs_body sq_ft scope prep_level crew_size w)
    as [[c' | e] w1] eqn:Hbody; simpl.
  - injection Hc as -> ->. split; [discriminate |].
    rewrite calculate_costs_body_run in Hbody.
    destruct (calculate_hours sq_ft scope prep_level w) as [[th | e] w2];
      [| discriminate].
    injection Hbody as Hfrom _.
    apply costs_from_hours_components in Hfrom as (-> & Hpp & _).
    split.
    + intros ->. exact Hpp.
    + intros Hcrew. destruct (Z.gtb_spec crew_size 0); [| lia].
      exists (hours_per_painter_of c). split; [exact Hpp |].
      apply eqb_refl, Hnum.
  - apply calculate_costs_body_raises in Hbody as ->.
    injection Hc as <- _. split; [discriminate |].
    split; [reflexivity |].
    intros Hcrew. exists (PFloat (S754_zero false)).
    split; [| reflexivity].
    unfold truediv, int_truediv, div_round. simpl.
    destruct (Z.eqb_spec crew_size 0); [lia |].
    destruct (Z.ltb_spec crew_size 0); [lia |].
    reflexivity.
Qed.

(** C5. After a calculation the handler takes as successful
    ([total_hours] is not 0), and with a crew size whose text exists (more
    than [-10^4300]: the summary begins with the crew size), the bid
    summary is rendered if and only if [hours_per_painter <= 50].  When
    [hours_per_painter > 50], which is the only other case, the handler
    returns after a single error message, shown instead, and no bid
    document is produced.  After the summary the handler returns, or the
    reading or the removal of the file raises. *)
Theorem summary_iff_within_week_limit
  sq_ft scope prep_level crew_size w c w1 :
  calculate_costs sq_ft scope prep_level crew_size w = (Ok c, w1) ->
  eqb (total_hours_of c) (PInt 0) = false ->
  - 10 ^ INT_MAX_STR_DIGITS < crew_size ->
  exists r w2 els,
    generate_bid sq_ft scope prep_level crew_size w = (r, w2) /\
    shows w1 w2 els /\
    (renders_summary crew_size c els <->
     leb (hours_per_painter_of c) (PInt 50) = true) /\
    (gtb (hours_per_painter_of c) (PInt 50) = true ->
     r = Ok tt /\
     (exists t,
        format_fixed (hours_per_painter_of c) 1 = Ok t /\
        els = [Error (WeekLimitExceeded t 50)]) /\
     disk w2 = disk w1) /\
    (leb (hours_per_painter_of c) (PInt 50) = true \/
     gtb (hours_per_painter_of c) (PInt 50) = true) /\
    (r = Ok tt \/ r = Raise IOError).
Proof.
  intros Hc Hok Hcrew.
  destruct (calculate_costs_keeps _ _ _ _ _ _ _ Hc) as (Hd & _).
  destruct (generate_bid_cases _ _ _ _ _ _ _ Hc)
    as (r & w2 & els & Hg & Hpage & Hcases).
  exists r, w2, els. split; [exact Hg |]. split; [exact Hpage |].
  change (PInt MAX_WEEK_HOURS) with (PInt 50) in Hcases.
  change MAX_WEEK_HOURS with 50 in Hcases.
  assert (Hnot : forall el rest,
            is_error el = true ->
            ~ renders_summary crew_size c (el :: rest)).
  { intros el rest Hel (t & rest' & _ & Heq).
    destruct t as [[[[t1 t2] t3] t4] t5]. injection Heq as -> _.
    discriminate Hel. }
  assert (Hexcl : leb (hours_per_painter_of c) (PInt 50) = true ->
                  gtb (hours_per_painter_of c) (PInt 50) = true -> False).
  { unfold leb, gtb.
    destruct (compare (hours_per_painter_of c) (PInt 50)) as [[] |];
      congruence. }
  destruct Hcases as [(Hz & _) | [(_ & Hle & Hgt & -> & (t & Ht & ->) & Hdisk)
    | [(_ & _ & Hlow & _) | (_ & Hle & _ & t & d & Ht & _ & Hfiles)]]].
  - congruence.
  - split; [split; [intros H; destruct (Hnot (Error (WeekLimitExceeded t 50))
                                             [] eq_refl H)
                   | congruence] |].
    split; [intros _; rewrite Hdisk, Hd; eauto |]. auto.
  - lia.
  - assert (Hsum : exists rest, els = bid_summary crew_size t ++ rest).
    { destruct Hfiles as [(_ & _ & -> & _) | [(_ & _ & _ & -> & _)
        | [(_ & _ & _ & _ & -> & _) | (_ & _ & _ & _ & -> & _)]]];
        eauto using app_nil_r. }
    destruct Hsum as [rest ->].
    split; [split; [intros _; exact Hle | intros _; exists t, rest; auto] |].
    split; [intros Hgt; destruct (Hexcl Hle Hgt) |].
    split; [auto |].
    destruct Hfiles as [(_ & -> & _) | [(_ & _ & -> & _)
      | [(_ & _ & _ & -> & _) | (_ & _ & _ & -> & _)]]]; auto.
Qed.

(** The default inputs with a prep level of the table: 10.0 hours per
    painter, within the limit. *)
Lemma summary_iff_within_week_limit_witness :
  let c := (PFloat (literal 200 1), PFloat (literal 100 1),
            PFloat (literal 4000 1), PFloat (literal 1200 1),
            PFloat (literal 7540 1)) in
  calculate_costs 2000 "Interior Only" "Low" 2 empty_world =
    (Ok c, empty_world) /\
  eqb (total_hours_of c) (PInt 0) = false /\
  - 10 ^ INT_MAX_STR_DIGITS < 2 /\
  exists r w2 els,
    generate_bid 2000 "Interior Only" "Low" 2 empty_world = (r, w2) /\
    shows empty_world w2 els /\
    (renders_summary 2 c els <->
     leb (hours_per_painter_of c) (PInt 50) = true) /\
    (gtb (hours_per_painter_of c) (PInt 50) = true ->
     r = Ok tt /\
     (exists t,
        format_fixed (hours_per_painter_of c) 1 = Ok t /\
        els = [Error (WeekLimitExceeded t 50)]) /\
     disk w2 = disk empty_world) /\
    (leb (hours_per_painter_of c) (PInt 50) = true \/
     gtb (hours_per_painter_of c) (PInt 50) = true) /\
    (r = Ok tt \/ r = Raise IOError).
Proof.
  assert (H : calculate_costs 2000 "Interior Only" "Low" 2 empty_world =
              (Ok (PFloat (literal 200 1), PFloat (literal 100 1),
                   PFloat (literal 4000 1), PFloat (literal 1200 1),
                   PFloat (literal 7540 1)), empty_world))
    by (vm_compute; reflexivity).
  assert (H0 : eqb (PFloat (literal 200 1)) (PInt 0) = false)
    by (vm_compute; reflexivity).
  assert (H1 : - 10 ^ INT_MAX_STR_DIGITS < 2) by (vm_compute; reflexivity).
  split; [exact H |]. split; [exact H0 |]. split; [exact H1 |].
  exact (summary_iff_within_week_limit 2000 "Interior Only" "Low" 2
           empty_world _ empty_world H H0 H1).
Defined.

(** C4, as stated, fails.  The rounding to one decimal breaks the
    scaling: 1004 sq ft give 10.0 hours and 2008 sq ft give 20.1, not
    [2 * 10.0].  So does the rounding of the product to binary64, even where
    the hours have one decimal: 1100 sq ft give 13.2 hours and 3300 sq ft
    give 39.6, while [3 * 13.2 = 39.599999999999994]. *)
Lemma linear_scaling_counterexample :
  (calculate_hours 1004 "Interior Only" "Low" empty_world =
     (Ok (PFloat (literal 100 1)), empty_world) /\
   calculate_hours (2 * 1004) "Interior Only" "Low" empty_world =
     (Ok (PFloat (literal 201 1)), empty_world) /\
   mul (PInt 2) (PFloat (literal 100 1)) = Ok (PFloat (literal 200 1)) /\
   eqb (PFloat (literal 201 1)) (PFloat (literal 200 1)) = false) /\
  (calculate_hours 1100 "Interior Only" "Medium" empty_world =
     (Ok (PFloat (literal 132 1)), empty_world) /\
   calculate_hours (3 * 1100) "Interior Only" "Medium" empty_world =
     (Ok (PFloat (literal 396 1)), empty_world) /\
   mul (PInt 3) (PFloat (literal 132 1)) =
     Ok (PFloat (literal 39599999999999994 15)) /\
   eqb (PFloat (literal 396 1)) (PFloat (literal 39599999999999994 15)) =
     false).
Proof.
  repeat split; vm_compute; reflexivity.
Qed.

(** C4, amended. For every pair [(scope, prep_level)] that is a key path
    of the table, [total_hours] scales with the square footage up to the
    rounding to one decimal: for square footages [a] and [k * a] of at
    most the 4000 of the number input, [a] a positive multiple of 100 and
    [k] a natural number,
    [calculate_hours(k * a) = round(k * calculate_hours(a), 1)]. *)
Theorem hours_scale_up_to_rounding scope prep_level base a k w :
  base_hours scope prep_level = Some base ->
  0 < a <= sq_ft_max -> (100 | a) -> 0 <= k -> k * a <= sq_ft_max ->
  exists h x r,
    calculate_hours a scope prep_level w = (Ok h, w) /\
    mul (PInt k) h = Ok x /\
    round x 1 = Ok r /\
    calculate_hours (k * a) scope prep_level w = (Ok r, w).
Proof.
  intros Hbase Ha [j ->] Hk Hmax. unfold sq_ft_max in Ha, Hmax.
  pose proof (scales_rounded_entries _ _ _ Hbase) as Hall.
  unfold scales_rounded_upto in Hall.
  assert (Hj : 1 <= j) by lia.
  assert (Hkj : k * 100 <= k * (j * 100))
    by (apply Z.mul_le_mono_nonneg_l; lia).
  apply all_below_spec with (z := j) in Hall; [| simpl; lia].
  apply all_below_spec with (z := k) in Hall; [| simpl; lia].
  destruct (Z.eqb_spec j 0); [lia |].
  unfold sq_ft_max in Hall.
  destruct (Z.ltb_spec 4000 (k * (100 * j))); [lia |].
  simpl in Hall. rewrite (Z.mul_comm 100 j) in Hall.
  unfold scales_rounded in Hall.
  rewrite !calculate_hours_run, !(calculate_hours_body_entry _ _ _ _ Hbase).
  fold (hours_of base (j * 100)). fold (hours_of base (k * (j * 100))).
  destruct (hours_of base (j * 100)) as [h |]; [| discriminate].
  destruct (mul (PInt k) h) as [x |] eqn:Ex; simpl in Hall; [| discriminate].
  destruct (round x 1) as [[| r] |] eqn:Er; try discriminate.
  destruct (hours_of base (k * (j * 100))) as [[| y] |]; try discriminate.
  apply bool_decide_eq_true in Hall as ->.
  exists h, x, (PFloat y). auto.
Qed.

(** The second pair of the counterexample: 39.6 is [round(3 * 13.2, 1)]. *)
Lemma hours_scale_up_to_rounding_witness :
  base_hours "Interior Only" "Medium" = Some 12 /\
  0 < 1100 <= sq_ft_max /\ (100 | 1100) /\ 0 <= 3 /\
  3 * 1100 <= sq_ft_max /\
  exists h x r,
    calculate_hours 1100 "Interior Only" "Medium" empty_world =
      (Ok h, empty_world) /\
    mul (PInt 3) h = Ok x /\
    round x 1 = Ok r /\
    calculate_hours (3 * 1100) "Interior Only" "Medium" empty_world =
      (Ok r, empty_world).
Proof.
  assert (Hb : base_hours "Interior Only" "Medium" = Some 12)
    by (vm_compute; reflexivity).
  assert (Ha : 0 < 1100 <= sq_ft_max) by (unfold sq_ft_max; lia).
  assert (Hd : (100 | 1100)) by (exists 11; reflexivity).
  assert (Hk : 0 <= 3) by lia.
  assert (Hm : 3 * 1100 <= sq_ft_max) by (unfold sq_ft_max; lia).
  repeat (split; [assumption |]).
  exact (hours_scale_up_to_rounding "Interior Only" "Medium" 12 1100 3
           empty_world Hb Ha Hd Hk Hm).
Defined.


(** ** Beyond the claims: the page, the disk and the PDF *)

Lemma calculate_hours_body_key sq_ft scope prep_level :
  base_hours scope prep_level = None ->
  calculate_hours_body sq_ft scope prep_level =
  Raise (KeyError (missing_key scope prep_level)).
Proof.
  unfold base_hours, calculate_hours_body, getitem, missing_key. intros H.
  destruct (TIME_ESTIMATES !! scope) as [by_prep |]; simpl in *;
    [rewrite H |]; reflexivity.
Qed.

(** The three ways [calculate_costs] can go. *)
Lemma calculate_costs_cases sq_ft scope prep_level crew_size w :
  (exists b th c,
     base_hours scope prep_level = Some b /\
     hours_of b sq_ft = Ok th /\
     costs_from_hours sq_ft scope crew_size th = Ok c /\
     calculate_costs sq_ft scope prep_level crew_size w = (Ok c, w)) \/
  (exists c,
     base_hours scope prep_level = None /\
     costs_from_hours sq_ft scope crew_size (PInt 0) = Ok c /\
     calculate_costs sq_ft scope prep_level crew_size w =
     (Ok c,
      show (Error (HourCalculationError
                     (KeyError (missing_key scope prep_level)))) w)) \/
  (~ (Z.abs sq_ft < 10 ^ 300 /\ crew_size < 10 ^ 300) /\
   calculate_costs sq_ft scope prep_level crew_size w =
   (Ok zero_costs,
    show (Error (CostCalculationError OverflowError))
      (fold_left (fun w el => show el w)
         (hour_errors scope prep_level) w))).
Proof.
  assert (Hbound :
            forall e w1,
              calculate_costs_body sq_ft scope prep_level crew_size w =
              (Raise e, w1) ->
              e = OverflowError /\
              ~ (Z.abs sq_ft < 10 ^ 300 /\ crew_size < 10 ^ 300)).
  { intros e w1 Hbody. split; [eapply calculate_costs_body_raises, Hbody |].
    intros [Hsq Hcrew].
    destruct (try_block_completes sq_ft scope prep_level crew_size w
                Hsq Hcrew) as (c0 & w2 & Hc0 & _).
    congruence. }
  rewrite calculate_costs_run.
  rewrite calculate_costs_body_run, calculate_hours_run in *.
  pose proof (calculate_hours_body_cases sq_ft scope prep_level) as Hh.
  unfold hour_errors.
  destruct (base_hours scope prep_level) as [b |] eqn:Hb.
  - rewrite Hh in *.
    destruct (hours_of b sq_ft) as [th | e] eqn:Eh.
    + destruct (costs_from_hours sq_ft scope crew_size th) as [c | e] eqn:Ec.
      * left. exists b, th, c. auto.
      * destruct (Hbound e w eq_refl) as [-> Hnot]. right. right. auto.
    + pose proof (hours_of_raises _ _ _ Eh) as ->.
      destruct (Hbound OverflowError w eq_refl) as [_ Hnot].
      right. right. auto.
  - rewrite (calculate_hours_body_key _ _ _ Hb) in *.
    destruct (costs_from_hours sq_ft scope crew_size (PInt 0))
      as [c | e] eqn:Ec.
    + right. left. exists c. auto.
    + destruct (Hbound e _ eq_refl) as [-> Hnot]. right. right. auto.
Qed.

(** X1. [calculate_costs] always returns a tuple and leaves the disk as
    it was.  To the page it adds the error boxes of [calculate_hours]
    (none for a key path of the table; otherwise the key error, naming the
    scope if the table does not know it and the prep level if it does),
    and after them at most the error of its own [except] branch, which is
    an [OverflowError], comes with the zero tuple, and needs a square
    footage or a crew size of at least [10^300]. *)
Theorem calculate_costs_effects sq_ft scope prep_level crew_size w :
  exists c w' cost_errs,
    calculate_costs sq_ft scope prep_level crew_size w = (Ok c, w') /\
    page w' = page w ++ hour_errors scope prep_level ++ cost_errs /\
    disk w' = disk w /\
    (cost_errs = [] \/
     (cost_errs = [Error (CostCalculationError OverflowError)] /\
      c = zero_costs /\
      ~ (Z.abs sq_ft < 10 ^ 300 /\ crew_size < 10 ^ 300))).
Proof.
  destruct (calculate_costs_cases sq_ft scope prep_level crew_size w)
    as [(b & th & c & Hb & _ & _ & ->)
       | [(c & Hb & _ & ->) | (Hnot & ->)]].
  - exists c, w, []. unfold hour_errors. rewrite Hb, !app_nil_r. auto.
  - eexists c, _, []. unfold hour_errors. rewrite Hb, app_nil_r. auto.
  - eexists zero_costs, _, [Error (CostCalculationError OverflowError)].
    split; [reflexivity |].
    destruct (page_fold_show (hour_errors scope prep_level) w) as [Hp Hd].
    simpl. rewrite Hp, Hd, app_assoc. auto 10.
Qed.





(** X3. What the handler does after [calculate_costs].  With
    [total_hours == 0] it shows "Calculation failed" and returns.  With
    [hours_per_painter > 50] it shows the week-limit error, with the hours
    per painter to one decimal, and returns.  Otherwise it formats the
    crew size first, and with a crew size of [-10^4300] or less that
    raises [ValueError] before anything is rendered.  Otherwise it renders
    the bid summary; every line of the PDF has a text; and then: when the
    file cannot be written, the PDF error follows and the handler returns;
    when the file cannot be read back, the handler raises after the
    summary; when it can, the download button for "painting_bid.pdf"
    with the document follows, and the handler returns if the file can be
    removed and raises if not. *)
Theorem generate_bid_outcomes sq_ft scope prep_level crew_size w :
  exists c w1 r w' els,
    calculate_costs sq_ft scope prep_level crew_size w = (Ok c, w1) /\
    generate_bid sq_ft scope prep_level crew_size w = (r, w') /\
    shows w1 w' els /\
    if eqb (total_hours_of c) (PInt 0)
    then r = Ok tt /\ els = [Error CalculationFailed]
    else if gtb (hours_per_painter_of c) (PInt MAX_WEEK_HOURS)
    then
      r = Ok tt /\
      exists t,
        format_fixed (hours_per_painter_of c) 1 = Ok t /\
        els = [Error (WeekLimitExceeded t MAX_WEEK_HOURS)]
    else if crew_size <=? - 10 ^ INT_MAX_STR_DIGITS
    then r = Raise ValueError /\ els = []
    else
      exists t d,
        summary_texts c = Ok t /\
        bid_document (today w) sq_ft scope prep_level crew_size
          (total_hours_of c) (labor_cost_of c) (material_cost_of c)
          (total_cost_of c) = Ok d /\
        if negb (disk_writable w)
        then
          r = Ok tt /\
          els = bid_summary crew_size t ++ [Error (PdfError IOError)]
        else if negb (disk_readable w)
        then r = Raise IOError /\ els = bid_summary crew_size t
        else
          els = bid_summary crew_size t ++ [DownloadButton pdf_filename d] /\
          r = if disk_removable w then Ok tt else Raise IOError.
Proof.
  destruct (calculate_costs_returns sq_ft scope prep_level crew_size w)
    as (c & w1 & Hc).
  destruct (generate_bid_cases _ _ _ _ _ _ _ Hc)
    as (r & w' & els & Hg & Hpage & Hcases).
  exists c, w1, r, w', els. split; [exact Hc |]. split; [exact Hg |].
  split; [exact Hpage |].
  assert (Hexcl : leb (hours_per_painter_of c) (PInt MAX_WEEK_HOURS) = true ->
                  gtb (hours_per_painter_of c) (PInt MAX_WEEK_HOURS) = false).
  { unfold leb, gtb.
    destruct (compare (hours_per_painter_of c) (PInt MAX_WEEK_HOURS))
      as [[] |]; congruence. }
  destruct Hcases as [(-> & -> & -> & _) | [(-> & _ & -> & -> & Ht & _)
    | [(-> & Hle & Hlow & -> & -> & _)
      | (-> & Hle & Hlow & t & d & Ht & Hd & Hfiles)]]].
  - auto.
  - auto.
  - rewrite (Hexcl Hle).
    destruct (Z.leb_spec crew_size (- 10 ^ INT_MAX_STR_DIGITS)); [auto | lia].
  - rewrite (Hexcl Hle).
    destruct (Z.leb_spec crew_size (- 10 ^ INT_MAX_STR_DIGITS)); [lia |].
    exists t, d. split; [exact Ht |]. split; [exact Hd |].
    destruct Hfiles as [(-> & -> & -> & _) | [(-> & -> & -> & -> & _)
      | [(-> & -> & -> & -> & -> & _) | (-> & -> & -> & -> & -> & _)]]];
      simpl; auto.
Qed.




Lemma form_input_bounds sq_ft scope prep_level crew_size :
  form_input sq_ft scope prep_level crew_size ->
  Z.abs sq_ft < int_bound /\ crew_size < int_bound.
Proof.
  unfold form_input, sq_ft_min, sq_ft_max, crew_size_min, crew_size_max.
  intros (Hsq & _ & _ & Hcrew).
  assert (H : 4000 < int_bound) by reflexivity. lia.
Qed.

Lemma scope_option_known scope prep_level :
  scope ∈ scope_options -> missing_key scope prep_level = prep_level.
Proof.
  unfold scope_options. intros H.
  repeat (apply elem_of_cons in H as [-> | H]; [reflexivity |]).
  inversion H.
Qed.

(** With a pair that is no key path and integers under [10^300], the
    tuple is computed from the 0 that [calculate_hours] returned. *)
Lemma calculate_costs_unknown_pair sq_ft scope prep_level crew_size w :
  base_hours scope prep_level = None ->
  Z.abs sq_ft < int_bound -> crew_size < int_bound ->
  exists c,
    costs_from_hours sq_ft scope crew_size (PInt 0) = Ok c /\
    calculate_costs sq_ft scope prep_level crew_size w =
    (Ok c,
     show (Error (HourCalculationError
                    (KeyError (missing_key scope prep_level)))) w).
Proof.
  intros Hno Hsq Hcrew.
  destruct (calculate_costs_cases sq_ft scope prep_level crew_size w)
    as [(b & th & c & Hb & _) | [(c & _ & Hfrom & Hc) | (Hnot & _)]].
  - congruence.
  - eauto.
  - destruct Hnot. auto.
Qed.

(** X5. Whatever the form sends, the handler shows two error boxes and
    nothing else: the key error of [calculate_hours], which names the prep
    level ([TIME_ESTIMATES] has the three scopes of the select box, and
    none of its prep levels), and "Calculation failed". *)
Theorem form_input_shows_two_errors sq_ft scope prep_level crew_size w :
  form_input sq_ft scope prep_level crew_size ->
  generate_bid sq_ft scope prep_level crew_size w =
  (Ok tt,
   show (Error CalculationFailed)
     (show (Error (HourCalculationError (KeyError prep_level))) w)).
Proof.
  intros Hform.
  destruct (form_input_bounds _ _ _ _ Hform) as [Hsq Hcrew].
  destruct Hform as (_ & Hscope & Hprep & _).
  pose proof (ui_prep_level_no_entry scope prep_level Hprep) as Hno.
  destruct (calculate_costs_unknown_pair sq_ft scope prep_level crew_size w
              Hno Hsq Hcrew) as (c & Hfrom & Hc).
  rewrite (scope_option_known _ _ Hscope) in Hc.
  apply (generate_bid_failed _ _ _ _ _ _ _ Hc).
  rewrite (costs_from_hours_total_hours _ _ _ _ _ Hfrom). reflexivity.
Qed.

(** The defaults of the form. *)
Lemma form_input_shows_two_errors_witness :
  form_input 2000 "Interior Only" "Low (minimal prep)" 2 /\
  generate_bid 2000 "Interior Only" "Low (minimal prep)" 2 empty_world =
  (Ok tt,
   show (Error CalculationFailed)
     (show (Error (HourCalculationError (KeyError "Low (minimal prep)")))
        empty_world)).
Proof.
  assert (H : form_input 2000 "Interior Only" "Low (minimal prep)" 2).
  { unfold form_input, sq_ft_min, sq_ft_max, crew_size_min, crew_size_max.
    repeat split; try lia; constructor. }
  split; [exact H |].
  exact (form_input_shows_two_errors 2000 "Interior Only"
           "Low (minimal prep)" 2 empty_world H).
Defined.

(** With integers under [10^300], the tuple is the one computed from the
    hours that [calculate_hours] returned. *)
Lemma calculate_costs_from_hours sq_ft scope prep_level crew_size w :
  Z.abs sq_ft < int_bound -> crew_size < int_bound ->
  exists th c w',
    calculate_hours sq_ft scope prep_level w = (Ok th, w') /\
    costs_from_hours sq_ft scope crew_size th = Ok c /\
    calculate_costs sq_ft scope prep_level crew_size w = (Ok c, w').
Proof.
  intros Hsq Hcrew.
  destruct (calculate_costs_cases sq_ft scope prep_level crew_size w)
    as [(b & th & c & Hb & Hh & Hfrom & Hc)
       | [(c & Hb & Hfrom & Hc) | (Hnot & _)]].
  - exists th, c, w. split; [| auto].
    rewrite calculate_hours_run.
    pose proof (calculate_hours_body_cases sq_ft scope prep_level) as H.
    rewrite Hb in H. rewrite H, Hh. reflexivity.
  - eexists (PInt 0), c, _. split; [| split; [exact Hfrom | exact Hc]].
    rewrite calculate_hours_run, (calculate_hours_body_key _ _ _ Hb).
    reflexivity.
  - destruct Hnot. auto.
Qed.

(** X6. The crew size only changes the hours per painter: with integers
    under [10^300], two runs that differ in the crew size alone return the
    same total hours, labor cost, material cost and total cost, and show
    the same messages. *)
Theorem crew_size_only_changes_hours_per_painter
  sq_ft scope prep_level crew_size crew_size' w :
  Z.abs sq_ft < int_bound ->
  crew_size < int_bound -> crew_size' < int_bound ->
  exists c c' w',
    calculate_costs sq_ft scope prep_level crew_size w = (Ok c, w') /\
    calculate_costs sq_ft scope prep_level crew_size' w = (Ok c', w') /\
    total_hours_of c = total_hours_of c' /\
    labor_cost_of c = labor_cost_of c' /\
    material_cost_of c = material_cost_of c' /\
    total_cost_of c = total_cost_of c'.
Proof.
  intros Hsq Hcrew Hcrew'.
  destruct (calculate_costs_from_hours sq_ft scope prep_level crew_size w
              Hsq Hcrew) as (th & c & w1 & Hh & Hfrom & Hc).
  destruct (calculate_costs_from_hours sq_ft scope prep_level crew_size' w
              Hsq Hcrew') as (th' & c' & w1' & Hh' & Hfrom' & Hc').
  rewrite Hh in Hh'. injection Hh' as <- <-.
  exists c, c', w1. split; [exact Hc |]. split; [exact Hc' |].
  apply costs_from_hours_components in Hfrom as (Hth & _ & Hl & Hm & Ht).
  apply costs_from_hours_components in Hfrom' as (Hth' & _ & Hl' & Hm' & Ht').
  assert (Hlab : labor_cost_of c = labor_cost_of c') by congruence.
  assert (Hmat : material_cost_of c = material_cost_of c') by congruence.
  rewrite Hlab, Hmat in Ht.
  repeat split; congruence.
Qed.

(** A crew of one and a crew of four on a house of 2000 square feet. *)
Lemma crew_size_only_changes_hours_per_painter_witness :
  Z.abs 2000 < int_bound /\ 1 < int_bound /\ 4 < int_bound /\
  exists c c' w',
    calculate_costs 2000 "Interior Only" "Low" 1 empty_world = (Ok c, w') /\
    calculate_costs 2000 "Interior Only" "Low" 4 empty_world = (Ok c', w') /\
    total_hours_of c = total_hours_of c' /\
    labor_cost_of c = labor_cost_of c' /\
    material_cost_of c = material_cost_of c' /\
    total_cost_of c = total_cost_of c'.
Proof.
  assert (H1 : Z.abs 2000 < int_bound) by reflexivity.
  assert (H2 : 1 < int_bound) by reflexivity.
  assert (H3 : 4 < int_bound) by reflexivity.
  split; [exact H1 |]. split; [exact H2 |]. split; [exact H3 |].
  exact (crew_size_only_changes_hours_per_painter 2000 "Interior Only" "Low"
           1 4 empty_world H1 H2 H3).
Defined.

(** X7. A pair that is no key path does not give the zero tuple of the
    [except] branch: with integers under [10^300], the total hours and the
    labor cost are the integer 0, the hours per painter are 0.0 (the
    integer 0 when the crew size is not positive), and the material cost
    and the total cost are computed as for any other pair, the total from a
    labor cost of 0. *)
Theorem unknown_pair_partial_costs sq_ft scope prep_level crew_size w :
  base_hours scope prep_level = None ->
  Z.abs sq_ft < int_bound -> crew_size < int_bound ->
  exists c w',
    calculate_costs sq_ft scope prep_level crew_size w = (Ok c, w') /\
    total_hours_of c = PInt 0 /\
    hours_per_painter_of c =
      (if crew_size >? 0 then PFloat (S754_zero false) else PInt 0) /\
    labor_cost_of c = PInt 0 /\
    spec_material_cost sq_ft scope = Ok (material_cost_of c) /\
    marked_up (PInt 0) (material_cost_of c) = Ok (total_cost_of c).
Proof.
  intros Hno Hsq Hcrew.
  destruct (calculate_costs_unknown_pair sq_ft scope prep_level crew_size w
              Hno Hsq Hcrew) as (c & Hfrom & Hc).
  eexists c, _. split; [exact Hc |].
  apply costs_from_hours_components in Hfrom as (Hth & Hpp & Hl & Hm & Ht).
  assert (Hlab : labor_cost_of c = PInt 0)
    by (unfold mul in Hl; simpl in Hl; injection Hl as <-; reflexivity).
  split; [exact Hth |]. split; [| split; [exact Hlab |]].
  - destruct (Z.gtb_spec crew_size 0) as [Hpos | Hneg]; [| exact Hpp].
    unfold truediv, int_truediv, div_round in Hpp. simpl in Hpp.
    destruct (Z.eqb_spec crew_size 0); [lia |].
    destruct (Z.ltb_spec crew_size 0); [lia |].
    simpl in Hpp. congruence.
  - rewrite <- Hlab. split; [| exact Ht].
    unfold spec_material_cost. rewrite (Z.mul_comm 2 sq_ft). exact Hm.
Qed.

(** A scope the table does not know. *)
Lemma unknown_pair_partial_costs_witness :
  base_hours "Garage Only" "Low" = None /\
  Z.abs 2000 < int_bound /\ 2 < int_bound /\
  exists c w',
    calculate_costs 2000 "Garage Only" "Low" 2 empty_world = (Ok c, w') /\
    total_hours_of c = PInt 0 /\
    hours_per_painter_of c =
      (if 2 >? 0 then PFloat (S754_zero false) else PInt 0) /\
    labor_cost_of c = PInt 0 /\
    spec_material_cost 2000 "Garage Only" = Ok (material_cost_of c) /\
    marked_up (PInt 0) (material_cost_of c) = Ok (total_cost_of c).
Proof.
  assert (H0 : base_hours "Garage Only" "Low" = None)
    by (vm_compute; reflexivity).
  assert (H1 : Z.abs 2000 < int_bound) by reflexivity.
  assert (H2 : 2 < int_bound) by reflexivity.
  split; [exact H0 |]. split; [exact H1 |]. split; [exact H2 |].
  exact (unknown_pair_partial_costs 2000 "Garage Only" "Low" 2 empty_world
           H0 H1 H2).
Defined.

Lemma rounds_to_zero_entries scope prep_level b :
  base_hours scope prep_level = Some b -> rounds_to_zero_upto b = true.
Proof.
  intros H. apply base_hours_entries in H.
  unfold time_estimate_entries in H.
  repeat (apply elem_of_cons in H as [H | H];
          [injection H as _ _ ->; vm_compute; reflexivity |]).
  inversion H.
Qed.

(** X8. The 0 that signals a failed lookup is also a result: for a pair
    of the table with base hours [b] and a square footage with
    [|sq_ft| * b < 50], [calculate_hours] returns a float zero and shows no
    error, and the handler reports "Calculation failed" and nothing
    else. *)
Theorem tiny_job_reports_failure sq_ft scope prep_level crew_size b w :
  base_hours scope prep_level = Some b ->
  Z.abs sq_ft * b < 50 ->
  crew_size < int_bound ->
  (exists f,
     calculate_hours sq_ft scope prep_level w = (Ok (PFloat f), w) /\
     is_zero f = true) /\
  generate_bid sq_ft scope prep_level crew_size w =
  (Ok tt, show (Error CalculationFailed) w).
Proof.
  intros Hb Hsmall Hcrew.
  pose proof (base_hours_small _ _ _ Hb) as Hbase.
  assert (Hb10 : 10 <= b).
  { apply base_hours_entries in Hb. unfold time_estimate_entries in Hb.
    repeat (apply elem_of_cons in Hb as [Hb | Hb];
            [injection Hb as _ _ ->; lia |]).
    inversion Hb. }
  assert (Hsq : -4 <= sq_ft <= 4) by lia.
  pose proof (all_below_spec _ _ (rounds_to_zero_entries _ _ _ Hb)
                (sq_ft + 4) ltac:(simpl; lia)) as Hz.
  cbv beta in Hz. replace (sq_ft + 4 - 4) with sq_ft in Hz by lia.
  destruct (Z.leb_spec 50 (Z.abs sq_ft * b)); [lia |].
  unfold rounds_to_zero in Hz.
  destruct (hours_of b sq_ft) as [[z | f] | e] eqn:Eh; try discriminate Hz.
  assert (Hh : calculate_hours sq_ft scope prep_level w = (Ok (PFloat f), w)).
  { rewrite calculate_hours_run.
    pose proof (calculate_hours_body_cases sq_ft scope prep_level) as H'.
    rewrite Hb in H'. rewrite H', Eh. reflexivity. }
  split; [eauto |].
  assert (Hbound : Z.abs sq_ft < int_bound).
  { assert (H' : 4 < int_bound) by reflexivity. lia. }
  destruct (calculate_costs_from_hours sq_ft scope prep_level crew_size w
              Hbound Hcrew) as (th & c & w1 & Hh' & Hfrom & Hc).
  rewrite Hh in Hh'. injection Hh' as <- <-.
  apply (generate_bid_failed _ _ _ _ _ _ _ Hc).
  rewrite (costs_from_hours_total_hours _ _ _ _ _ Hfrom).
  destruct f; try discriminate Hz. reflexivity.
Qed.

(** An empty house, "Interior Only" and "Low". *)
Lemma tiny_job_reports_failure_witness :
  base_hours "Interior Only" "Low" = Some 10 /\
  Z.abs 0 * 10 < 50 /\
  2 < int_bound /\
  (exists f,
     calculate_hours 0 "Interior Only" "Low" empty_world =
     (Ok (PFloat f), empty_world) /\
     is_zero f = true) /\
  generate_bid 0 "Interior Only" "Low" 2 empty_world =
  (Ok tt, show (Error CalculationFailed) empty_world).
Proof.
  assert (H0 : base_hours "Interior Only" "Low" = Some 10)
    by (vm_compute; reflexivity).
  assert (H1 : Z.abs 0 * 10 < 50) by reflexivity.
  assert (H2 : 2 < int_bound) by reflexivity.
  split; [exact H0 |]. split; [exact H1 |]. split; [exact H2 |].
  exact (tiny_job_reports_failure 0 "Interior Only" "Low" 2 10 empty_world
           H0 H1 H2).
Defined.


(** ** Pairs of the table *)

(** X9. A pair of the table never fails on a house of the form's size:
    with a square footage of at least 1000 and integers under [10^300],
    [calculate_costs] shows no error, the total hours are not [== 0], and
    whatever the handler then does (the week-limit error, the summary, or
    an exception), it does not show "Calculation failed". *)
Theorem table_pair_never_reports_failure
  sq_ft scope prep_level crew_size b w :
  base_hours scope prep_level = Some b ->
  sq_ft_min <= sq_ft < int_bound -> crew_size < int_bound ->
  exists c r w' els,
    calculate_costs sq_ft scope prep_level crew_size w = (Ok c, w) /\
    eqb (total_hours_of c) (PInt 0) = false /\
    generate_bid sq_ft scope prep_level crew_size w = (r, w') /\
    shows w w' els /\
    Forall (fun el => el <> Error CalculationFailed) els /\
    ~ reports_failure w w'.
Proof.
  intros Hb [Hmin Hmax] Hcrew. unfold sq_ft_min in Hmin.
  pose proof (base_hours_small _ _ _ Hb) as Hbase.
  assert (Hb1 : 1 <= b).
  { apply base_hours_entries in Hb. unfold time_estimate_entries in Hb.
    repeat (apply elem_of_cons in Hb as [Hb | Hb];
            [injection Hb as _ _ ->; lia |]).
    inversion Hb. }
  assert (Habs : Z.abs sq_ft < int_bound) by lia.
  destruct (calculate_costs_cases sq_ft scope prep_level crew_size w)
    as [(b' & th & c & Hb' & Hh & Hfrom & Hc)
       | [(c & Hno & _) | (Hnot & _)]];
    [| congruence | destruct Hnot; split; assumption].
  assert (b' = b) as -> by congruence.
  destruct (hours_of_above b sq_ft th Hb1 ltac:(lia) Hh) as (f & -> & Hf).
  pose proof (costs_from_hours_total_hours _ _ _ _ _ Hfrom) as Hth.
  assert (Hnz : eqb (total_hours_of c) (PInt 0) = false)
    by (rewrite Hth; eapply above_not_zero, Hf).
  destruct (generate_bid_cases _ _ _ _ _ _ _ Hc)
    as (r & w' & els & Hg & Hpage & Hcases).
  assert (Hels : Forall (fun el => el <> Error CalculationFailed) els).
  { assert (Hsum : forall t,
              Forall (fun el => el <> Error CalculationFailed)
                (bid_summary crew_size t))
      by (intros [[[[? ?] ?] ?] ?]; repeat constructor; discriminate).
    destruct Hcases as [(Hz & _) | [(_ & _ & _ & _ & (t & _ & ->) & _)
      | [(_ & _ & _ & _ & -> & _)
        | (_ & _ & _ & t & d & _ & _ & Hfiles)]]].
    - congruence.
    - repeat constructor. discriminate.
    - constructor.
    - destruct Hfiles as [(_ & _ & -> & _) | [(_ & _ & _ & -> & _)
        | [(_ & _ & _ & _ & -> & _) | (_ & _ & _ & _ & -> & _)]]];
        rewrite ?Forall_app; repeat split; auto;
        repeat constructor; discriminate. }
  exists c, r, w', els. split; [exact Hc |]. split; [exact Hnz |].
  split; [exact Hg |]. split; [exact Hpage |]. split; [exact Hels |].
  intros (errs & Hshows & _). unfold shows in Hshows.
  rewrite Hpage in Hshows. apply app_inv_head in Hshows. subst els.
  apply Forall_app in Hels as [_ Hlast].
  inversion Hlast as [| el l Hne _]. apply Hne. reflexivity.
Qed.

(** The defaults of the form, with a prep level of the table. *)
Lemma table_pair_never_reports_failure_witness :
  base_hours "Interior Only" "Low" = Some 10 /\
  sq_ft_min <= 2000 < int_bound /\ 2 < int_bound /\
  exists c r w' els,
    calculate_costs 2000 "Interior Only" "Low" 2 empty_world =
      (Ok c, empty_world) /\
    eqb (total_hours_of c) (PInt 0) = false /\
    generate_bid 2000 "Interior Only" "Low" 2 empty_world = (r, w') /\
    shows empty_world w' els /\
    Forall (fun el => el <> Error CalculationFailed) els /\
    ~ reports_failure empty_world w'.
Proof.
  assert (H0 : base_hours "Interior Only" "Low" = Some 10)
    by (vm_compute; reflexivity).
  assert (H1 : sq_ft_min <= 2000 < int_bound)
    by (split; [unfold sq_ft_min; lia | reflexivity]).
  assert (H2 : 2 < int_bound) by reflexivity.
  split; [exact H0 |]. split; [exact H1 |]. split; [exact H2 |].
  exact (table_pair_never_reports_failure 2000 "Interior Only" "Low" 2 10
           empty_world H0 H1 H2).
Defined.

(** ** Signs

    Rounding keeps the sign, so that a negative square footage gives
    negative hours, which are under any limit. *)

Lemma binary_round_aux_sign s m e l :
  0 <= m -> has_sign s (binary_round_aux prec emax s m e l).
Proof.
  intros Hm. pose proof (binary_round_aux_not_nan s m e l Hm) as Hn.
  unfold binary_round_aux in *.
  destruct (shr_fexp prec emax m e l) as [r1 e1].
  destruct (shr_fexp prec emax _ e1 loc_Exact) as [r2 e2].
  destruct (shr_m r2); [reflexivity | | discriminate Hn].
  destruct (e2 <=? emax - prec); reflexivity.
Qed.

Lemma SFmul_sign sx sy x y :
  has_sign sx x -> has_sign sy y -> is_nan (SFmul prec emax x y) = false ->
  has_sign (xorb sx sy) (SFmul prec emax x y).
Proof.
  destruct x as [s | s | | s mx ex], y as [s' | s' | | s' my ey];
    simpl; try tauto; try discriminate; intros -> -> _; try reflexivity.
  apply binary_round_aux_sign. lia.
Qed.

Lemma SFdiv_sign sx sy x y :
  has_sign sx x -> has_sign sy y -> is_nan (SFdiv prec emax x y) = false ->
  has_sign (xorb sx sy) (SFdiv prec emax x y).
Proof.
  destruct x as [s | s | | s mx ex], y as [s' | s' | | s' my ey];
    simpl; try tauto; try discriminate; intros -> -> _; try reflexivity.
  pose proof (SFdiv_core_binary_nonneg mx ex my ey) as H.
  destruct (SFdiv_core_binary prec emax (Zpos mx) ex (Zpos my) ey)
    as [[mz ez] lz].
  apply binary_round_aux_sign, H.
Qed.

Lemma div_round_sign a b :
  b <> 0 -> has_sign (xorb (a <? 0) (b <? 0)) (div_round a b).
Proof.
  intros Hb. unfold div_round.
  destruct (Z.abs a) as [| ma | ma] eqn:Ea; [reflexivity | | lia].
  destruct (Z.abs b) as [| mb | mb] eqn:Eb; [lia | | lia].
  rewrite <- (xorb_false_r (xorb (a <? 0) (b <? 0))) at 1.
  apply SFdiv_sign; try reflexivity.
  apply SFdiv_finite_not_nan; reflexivity.
Qed.

Lemma float_of_int_sign z y :
  float_of_int z = Ok y -> has_sign (z <? 0) y.
Proof.
  unfold float_of_int, binary_normalize.
  destruct (is_inf _) eqn:Ei; [discriminate |]. injection 1 as <-.
  destruct z as [| m | m]; [reflexivity | |];
    unfold binary_round; destruct (shl_align _ _ _) as [mz ez];
    apply binary_round_aux_sign; lia.
Qed.

(** [round(x, 1)] keeps the sign. *)
Lemma float_round_sign s x f :
  has_sign s x -> float_round x 1 = Ok (PFloat f) -> has_sign s f.
Proof.
  unfold float_round.
  destruct x as [s' | s' | | s' m e]; simpl has_sign; try tauto;
    try (intros -> H; injection H as <-; reflexivity).
  intros ->.
  change (NDIGITS_MAX <? 1) with false. change (1 <? NDIGITS_MIN) with false.
  cbv iota.
  assert (Hn : 0 <= fst (round_pos m e 1) /\ snd (round_pos m e 1) = 10).
  { unfold round_pos. change (0 <=? 1) with true. change (10 ^ 1) with 10.
    destruct e as [| p | p]; cbv iota; cbn [fst snd]; (split; [| reflexivity]).
    - apply div_half_even_bounds; simpl; lia.
    - assert (Hp : 0 < 2 ^ Zpos p) by (apply pow2_pos; lia).
      apply div_half_even_bounds; nia.
    - assert (Hp : 0 < 2 ^ Zpos p) by (apply pow2_pos; lia).
      apply div_half_even_bounds; lia. }
  destruct (round_pos m e 1) as [n d]. simpl in Hn. destruct Hn as [Hn ->].
  cbv zeta.
  destruct (Z.eq_dec n 0) as [-> | Hne].
  { assert (Hz : div_round (if s then - 0 else 0) 10 = S754_zero false)
      by (destruct s; reflexivity).
    rewrite Hz. simpl. intros H. injection H as <-. reflexivity. }
  pose proof (div_round_sign (if s then - n else n) 10 ltac:(lia)) as Hs.
  assert (Hsign : xorb ((if s then - n else n) <? 0) (10 <? 0) = s).
  { change (10 <? 0) with false. rewrite xorb_false_r.
    destruct s; [destruct (Z.ltb_spec (- n) 0) | destruct (Z.ltb_spec n 0)];
      try reflexivity; lia. }
  rewrite Hsign in Hs.
  destruct (div_round (if s then - n else n) 10) as [t | t | | t m' e'];
    simpl in *; try tauto; try discriminate; intros H; injection H as <-;
    [reflexivity | exact Hs].
Qed.

(** A number with the sign bit set is [<= 50]. *)
Lemma negative_within_limit f n :
  has_sign true f -> 0 <= n -> leb (PFloat f) (PInt n) = true.
Proof.
  unfold leb, compare, compare_float_int, has_sign.
  destruct f as [s | s | | s m e]; try tauto; intros -> Hn.
  - destruct (Z.compare_spec 0 n); try reflexivity. lia.
  - reflexivity.
  - destruct e as [| p | p].
    + destruct (Z.compare_spec (Zneg m * 2 ^ 0) n); try reflexivity.
      change (2 ^ 0) with 1 in *. lia.
    + assert (Hp : 0 < 2 ^ Zpos p) by (apply pow2_pos; lia).
      destruct (Z.compare_spec (Zneg m * 2 ^ Zpos p) n); try reflexivity.
      nia.
    + assert (Hp : 0 < 2 ^ Zpos p) by (apply pow2_pos; lia).
      destruct (Z.compare_spec (Zneg m) (n * 2 ^ Zpos p)); try reflexivity.
      nia.
Qed.

(** The hours of a negative square footage have the sign bit set. *)
Lemma hours_of_sign b sq_ft f :
  0 <= b -> hours_of b sq_ft = Ok (PFloat f) -> has_sign (sq_ft <? 0) f.
Proof.
  intros Hb. unfold hours_of, truediv, int_truediv.
  change (1000 =? 0) with false. cbv iota.
  pose proof (div_round_sign sq_ft 1000 ltac:(lia)) as Hper.
  change (1000 <? 0) with false in Hper. rewrite xorb_false_r in Hper.
  destruct (is_inf (div_round sq_ft 1000)) eqn:Ei; [discriminate |].
  cbn [rbind]. unfold mul.
  destruct (float_of_int b) as [y | e] eqn:Ey; [| discriminate].
  pose proof (float_of_int_sign b y Ey) as Hy.
  destruct (Z.ltb_spec b 0); [lia |].
  pose proof (float_of_int_not_nan b y Ey) as [Hyn Hyi].
  cbn [rbind]. unfold round. intros Hf.
  eapply float_round_sign; [| exact Hf].
  rewrite <- (xorb_false_r (sq_ft <? 0)).
  apply SFmul_sign; [exact Hper | exact Hy |].
  apply SFmul_not_nan; auto using div_round_not_nan.
Qed.

Lemma negative_below_zero L f :
  has_sign true f -> above L f -> compare (PFloat f) (PInt 0) = Some Lt.
Proof.
  unfold compare, compare_float_int, has_sign, above.
  destruct f as [s | s | | s m e]; try tauto; intros -> _; [reflexivity |].
  f_equal. destruct e as [| p | p].
  - reflexivity.
  - assert (Hp : 0 < 2 ^ Zpos p) by (apply pow2_pos; lia).
    apply Z.compare_lt_iff. nia.
  - reflexivity.
Qed.

(** Dividing by a positive crew size keeps the sign. *)
Lemma truediv_sign s f crew_size q :
  has_sign s f -> 0 < crew_size ->
  truediv (PFloat f) (PInt crew_size) = Ok q ->
  exists g, q = PFloat g /\ has_sign s g.
Proof.
  intros Hf Hcrew Hq.
  assert (Hnum : is_number (PFloat f) = true)
    by (destruct f; simpl in *; tauto || reflexivity).
  pose proof (truediv_int_number (PFloat f) crew_size q ltac:(lia) Hnum Hq)
    as Hqn.
  unfold truediv in Hq.
  destruct (float_of_int crew_size) as [y | e] eqn:Ey; [| discriminate].
  pose proof (float_of_int_sign _ _ Ey) as Hy.
  destruct (Z.ltb_spec crew_size 0); [lia |].
  cbn [rbind] in Hq. unfold float_truediv in Hq.
  destruct (is_zero y); [discriminate |]. injection Hq as <-.
  eexists. split; [reflexivity |].
  rewrite <- (xorb_false_r s).
  apply SFdiv_sign; [exact Hf | exact Hy |].
  simpl in Hqn. destruct (is_nan _); [discriminate | reflexivity].
Qed.

(** X10. Nothing rejects a negative square footage: for a pair of the
    table, a square footage of at most -1000 (above [-10^300]) and a crew
    size between [-10^4300] and [10^300], [calculate_costs] shows no error
    and returns negative total hours; the hours per painter are then under
    the week limit whatever the crew size, and the handler renders the bid
    summary. *)
Theorem negative_square_footage_renders_bid
  sq_ft scope prep_level crew_size b w :
  base_hours scope prep_level = Some b ->
  - int_bound < sq_ft <= -1000 ->
  - 10 ^ INT_MAX_STR_DIGITS < crew_size < int_bound ->
  exists c r w' t rest,
    calculate_costs sq_ft scope prep_level crew_size w = (Ok c, w) /\
    compare (total_hours_of c) (PInt 0) = Some Lt /\
    leb (hours_per_painter_of c) (PInt MAX_WEEK_HOURS) = true /\
    generate_bid sq_ft scope prep_level crew_size w = (r, w') /\
    summary_texts c = Ok t /\
    shows w w' (bid_summary crew_size t ++ rest).
Proof.
  intros Hb [Hmin Hmax] [Hlow Hcrew].
  pose proof (base_hours_small _ _ _ Hb) as Hbase.
  assert (Hb1 : 1 <= b).
  { apply base_hours_entries in Hb. unfold time_estimate_entries in Hb.
    repeat (apply elem_of_cons in Hb as [Hb | Hb];
            [injection Hb as _ _ ->; lia |]).
    inversion Hb. }
  assert (Habs : Z.abs sq_ft < int_bound) by lia.
  destruct (calculate_costs_cases sq_ft scope prep_level crew_size w)
    as [(b' & th & c & Hb' & Hh & Hfrom & Hc)
       | [(c & Hno & _) | (Hnot & _)]];
    [| congruence | destruct Hnot; split; assumption].
  assert (b' = b) as -> by congruence.
  destruct (hours_of_above b sq_ft th Hb1 ltac:(lia) Hh) as (f & -> & Hf).
  pose proof (hours_of_sign b sq_ft f ltac:(lia) Hh) as Hs.
  destruct (Z.ltb_spec sq_ft 0); [| lia].
  pose proof (costs_from_hours_components _ _ _ _ _ Hfrom)
    as (Hth & Hpp & _).
  assert (Hlt : compare (total_hours_of c) (PInt 0) = Some Lt)
    by (rewrite Hth; eapply negative_below_zero; eassumption).
  assert (Hle : leb (hours_per_painter_of c) (PInt MAX_WEEK_HOURS) = true).
  { destruct (Z.gtb_spec crew_size 0) as [Hpos | Hneg].
    - destruct (truediv_sign true f crew_size _ Hs Hpos Hpp)
        as (g & -> & Hg).
      apply negative_within_limit; [exact Hg | unfold MAX_WEEK_HOURS; lia].
    - rewrite Hpp.
      apply negative_within_limit; [exact Hs | unfold MAX_WEEK_HOURS; lia]. }
  assert (Hnz : eqb (total_hours_of c) (PInt 0) = false)
    by (unfold eqb; rewrite Hlt; reflexivity).
  destruct (generate_bid_cases _ _ _ _ _ _ _ Hc)
    as (r & w' & els & Hg & Hpage & Hcases).
  destruct Hcases as [(Hz & _) | [(_ & Hle' & _)
    | [(_ & _ & Hlow' & _) | (_ & _ & _ & t & d & Ht & _ & Hfiles)]]];
    [congruence | congruence | lia |].
  assert (Hsum : exists rest, els = bid_summary crew_size t ++ rest).
  { destruct Hfiles as [(_ & _ & -> & _) | [(_ & _ & _ & -> & _)
      | [(_ & _ & _ & _ & -> & _) | (_ & _ & _ & _ & -> & _)]]];
      eauto using app_nil_r. }
  destruct Hsum as [rest ->].
  exists c, r, w', t, rest. auto 10.
Qed.

(** A house of -2000 square feet and a crew of one: -20.0 hours. *)
Lemma negative_square_footage_renders_bid_witness :
  base_hours "Interior Only" "Low" = Some 10 /\
  - int_bound < -2000 <= -1000 /\
  - 10 ^ INT_MAX_STR_DIGITS < 1 < int_bound /\
  exists c r w' t rest,
    calculate_costs (-2000) "Interior Only" "Low" 1 empty_world =
      (Ok c, empty_world) /\
    compare (total_hours_of c) (PInt 0) = Some Lt /\
    leb (hours_per_painter_of c) (PInt MAX_WEEK_HOURS) = true /\
    generate_bid (-2000) "Interior Only" "Low" 1 empty_world = (r, w') /\
    summary_texts c = Ok t /\
    shows empty_world w' (bid_summary 1 t ++ rest).
Proof.
  assert (H0 : base_hours "Interior Only" "Low" = Some 10)
    by (vm_compute; reflexivity).
  assert (H1 : - int_bound < -2000 <= -1000)
    by (split; [reflexivity | lia]).
  assert (H2 : - 10 ^ INT_MAX_STR_DIGITS < 1 < int_bound)
    by (split; vm_compute; reflexivity).
  split; [exact H0 |]. split; [exact H1 |]. split; [exact H2 |].
  exact (negative_square_footage_renders_bid (-2000) "Interior Only" "Low" 1
           10 empty_world H0 H1 H2).
Defined.

(** ** Costs are not negative *)

Lemma SFmul_finite_sign sx sy x y :
  has_sign sx x -> has_sign sy y -> is_finite y = true ->
  has_sign (xorb sx sy) (SFmul prec emax x y).
Proof.
  destruct x as [s | s | | s mx ex], y as [s' | s' | | s' my ey];
    simpl; try tauto; try discriminate; intros -> -> _; try reflexivity.
  apply binary_round_aux_sign. lia.
Qed.

Lemma binary_round_sign s m e : has_sign s (binary_round prec emax s m e).
Proof.
  unfold binary_round. destruct (shl_align _ _ _) as [mz ez].
  apply binary_round_aux_sign. lia.
Qed.

Lemma SFadd_sign s x y :
  has_sign s x -> has_sign s y -> has_sign s (SFadd prec emax x y).
Proof.
  destruct x as [sx | sx | | sx mx ex], y as [sy | sy | | sy my ey];
    simpl; try tauto; intros -> ->; try reflexivity;
    try (destruct s; reflexivity).
  set (a := fst (shl_align mx ex (Z.min ex ey))).
  set (b := fst (shl_align my ey (Z.min ex ey))).
  clearbody a b.
  destruct s; simpl.
  - change (has_sign true (binary_round prec emax true (a + b) (Z.min ex ey))).
    apply binary_round_sign.
  - change (has_sign false
              (binary_round prec emax false (a + b) (Z.min ex ey))).
    apply binary_round_sign.
Qed.

Lemma float_of_int_nonneg z y :
  0 <= z -> float_of_int z = Ok y -> has_sign false y.
Proof.
  intros Hz Hy. apply float_of_int_sign in Hy.
  destruct (Z.ltb_spec z 0); [lia | exact Hy].
Qed.

Lemma div_round_nonneg a b : 0 <= a -> 0 < b -> has_sign false (div_round a b).
Proof.
  intros Ha Hb. pose proof (div_round_sign a b ltac:(lia)) as H.
  destruct (Z.ltb_spec a 0); [lia |]. destruct (Z.ltb_spec b 0); [lia |].
  exact H.
Qed.

Lemma truediv_nonneg v n r :
  nonneg v -> 0 < n -> truediv v (PInt n) = Ok r -> nonneg r.
Proof.
  intros Hv Hn. destruct v as [a | x]; simpl in Hv.
  - unfold truediv, int_truediv.
    destruct (n =? 0); [discriminate |].
    destruct (is_inf _); [discriminate |]. injection 1 as <-.
    apply div_round_nonneg; assumption.
  - intros Hr.
    destruct (truediv_sign false x n r Hv Hn Hr) as (g & -> & Hg). exact Hg.
Qed.

Lemma mul_nonneg_int v n r :
  nonneg v -> 0 < n -> mul v (PInt n) = Ok r -> nonneg r.
Proof.
  intros Hv Hn. destruct v as [a | x]; simpl in Hv; unfold mul.
  - injection 1 as <-. simpl. nia.
  - destruct (float_of_int n) as [y | e] eqn:Ey; [| discriminate].
    cbn [rbind]. injection 1 as <-.
    apply (SFmul_finite_sign false false); [exact Hv | |].
    + eapply float_of_int_nonneg; [| exact Ey]. lia.
    + eapply float_of_int_finite; [exact Ey | lia].
Qed.

Lemma mul_nonneg_float v y r :
  nonneg v -> has_sign false y -> is_finite y = true ->
  mul v (PFloat y) = Ok r -> nonneg r.
Proof.
  intros Hv Hy Hfin. destruct v as [a | x]; simpl in Hv; unfold mul.
  - destruct (float_of_int a) as [x | e] eqn:Ex; [| discriminate].
    cbn [rbind]. injection 1 as <-.
    apply (SFmul_finite_sign false false); [| exact Hy | exact Hfin].
    eapply float_of_int_nonneg; eassumption.
  - injection 1 as <-.
    apply (SFmul_finite_sign false false); assumption.
Qed.

Lemma add_nonneg v w r :
  nonneg v -> nonneg w -> add v w = Ok r -> nonneg r.
Proof.
  intros Hv Hw. destruct v as [a | x], w as [b | y]; simpl in Hv, Hw;
    unfold add.
  - injection 1 as <-. simpl. lia.
  - destruct (float_of_int a) as [x | e] eqn:Ex; [| discriminate].
    cbn [rbind]. injection 1 as <-.
    apply SFadd_sign; [| exact Hw].
    eapply float_of_int_nonneg; eassumption.
  - destruct (float_of_int b) as [y | e] eqn:Ey; [| discriminate].
    cbn [rbind]. injection 1 as <-.
    apply SFadd_sign; [exact Hv |].
    eapply float_of_int_nonneg; eassumption.
  - injection 1 as <-. apply SFadd_sign; assumption.
Qed.

(** [0 <= v] holds of a value that is not negative. *)
Lemma nonneg_leb v : nonneg v -> leb (PInt 0) v = true.
Proof.
  unfold leb, compare, compare_float_int, nonneg, has_sign.
  destruct v as [z | [s | s | | s m e]];
    [| intros ->; reflexivity | intros ->; reflexivity | tauto |].
  - intros Hz. destruct (Z.compare_spec 0 z); try reflexivity. lia.
  - intros ->. cbn [option_map].
    destruct e as [| p | p].
    + reflexivity.
    + assert (Hp : 0 < 2 ^ Zpos p) by (apply pow2_pos; lia).
      destruct (Z.compare_spec (Zpos m * 2 ^ Zpos p) 0); try reflexivity; nia.
    + reflexivity.
Qed.

Lemma costs_from_hours_nonneg sq_ft scope crew_size th c :
  0 <= sq_ft -> nonneg th ->
  costs_from_hours sq_ft scope crew_size th = Ok c ->
  nonneg (total_hours_of c) /\ nonneg (hours_per_painter_of c) /\
  nonneg (labor_cost_of c) /\ nonneg (material_cost_of c) /\
  nonneg (total_cost_of c).
Proof.
  intros Hsq Hth. unfold costs_from_hours.
  destruct (if crew_size >? 0 then truediv th (PInt crew_size) else Ok th)
    as [hpp |] eqn:Epp; [| discriminate].
  assert (Hpp : nonneg hpp).
  { destruct (Z.gtb_spec crew_size 0).
    - eapply truediv_nonneg; [exact Hth | | exact Epp]. lia.
    - injection Epp as <-. exact Hth. }
  cbn [rbind].
  destruct (mul th (PInt PAINTER_WAGE)) as [lab |] eqn:El; [| discriminate].
  pose proof (mul_nonneg_int th PAINTER_WAGE lab Hth ltac:(reflexivity) El)
    as Hlab.
  cbn [rbind]. cbv zeta.
  set (area := if String.eqb scope "Both Interior and Exterior"
               then sq_ft * 2 else sq_ft).
  assert (Harea : nonneg (PInt area))
    by (subst area; destruct (String.eqb _ _); simpl; lia).
  destruct (truediv (PInt area) (PInt 100)) as [per_100 |] eqn:E100;
    [| discriminate].
  pose proof (truediv_nonneg (PInt area) 100 per_100 Harea ltac:(lia) E100)
    as H100.
  cbn [rbind].
  destruct (mul per_100 (PFloat GALLONS_PER_100_SQFT)) as [gallons |] eqn:Eg;
    [| discriminate].
  pose proof (mul_nonneg_float per_100 GALLONS_PER_100_SQFT gallons H100
                ltac:(reflexivity) ltac:(reflexivity) Eg) as Hgal.
  cbn [rbind].
  destruct (mul gallons (PInt PAINT_COST_PER_GALLON)) as [paint |] eqn:Ep;
    [| discriminate].
  pose proof (mul_nonneg_int gallons PAINT_COST_PER_GALLON paint Hgal
                ltac:(reflexivity) Ep) as Hpaint.
  cbn [rbind].
  destruct (truediv (PInt sq_ft) (PInt 1000)) as [per_1000 |] eqn:E1000;
    [| discriminate].
  pose proof (truediv_nonneg (PInt sq_ft) 1000 per_1000 Hsq ltac:(lia) E1000)
    as H1000.
  cbn [rbind].
  destruct (mul per_1000 (PInt SUPPLIES_COST_PER_1000_SQFT))
    as [supplies |] eqn:Es; [| discriminate].
  pose proof (mul_nonneg_int per_1000 SUPPLIES_COST_PER_1000_SQFT supplies
                H1000 ltac:(reflexivity) Es) as Hsup.
  cbn [rbind].
  destruct (add paint supplies) as [mat |] eqn:Em; [| discriminate].
  pose proof (add_nonneg _ _ _ Hpaint Hsup Em) as Hmat.
  cbn [rbind].
  destruct (add lab mat) as [subtotal |] eqn:Esub; [| discriminate].
  pose proof (add_nonneg _ _ _ Hlab Hmat Esub) as Hsub.
  cbn [rbind].
  destruct (mul subtotal (PFloat MARKUP_PERCENT)) as [markup |] eqn:Emk;
    [| discriminate].
  pose proof (mul_nonneg_float subtotal MARKUP_PERCENT markup Hsub
                ltac:(reflexivity) ltac:(reflexivity) Emk) as Hmk.
  cbn [rbind].
  destruct (add subtotal markup) as [total |] eqn:Et; [| discriminate].
  pose proof (add_nonneg _ _ _ Hsub Hmk Et) as Htot.
  cbn [rbind]. injection 1 as <-. simpl. auto.
Qed.

(** X11. No cost is negative: for every square footage from 0 on, and
    whatever the scope, the prep level and the crew size, each of the five
    numbers [calculate_costs] returns is [>= 0]. *)
Theorem costs_not_negative sq_ft scope prep_level crew_size w :
  0 <= sq_ft ->
  exists c w',
    calculate_costs sq_ft scope prep_level crew_size w = (Ok c, w') /\
    leb (PInt 0) (total_hours_of c) = true /\
    leb (PInt 0) (hours_per_painter_of c) = true /\
    leb (PInt 0) (labor_cost_of c) = true /\
    leb (PInt 0) (material_cost_of c) = true /\
    leb (PInt 0) (total_cost_of c) = true.
Proof.
  intros Hsq.
  destruct (calculate_costs_cases sq_ft scope prep_level crew_size w)
    as [(b & th & c & Hb & Hh & Hfrom & Hc)
       | [(c & _ & Hfrom & Hc) | (_ & Hc)]].
  - exists c, w. split; [exact Hc |].
    assert (Hth : nonneg th).
    { pose proof (base_hours_small _ _ _ Hb) as Hbase.
      destruct th as [z | f].
      - unfold hours_of, truediv, int_truediv in Hh.
        change (1000 =? 0) with false in Hh. cbv iota in Hh.
        destruct (is_inf _); [discriminate |]. cbn [rbind] in Hh.
        unfold mul in Hh.
        destruct (float_of_int b); [| discriminate]. cbn [rbind] in Hh.
        unfold round, float_round in Hh.
        destruct (SFmul _ _ _ _); try discriminate Hh.
        simpl in Hh. destruct (round_pos _ _ _).
        destruct (is_inf _); discriminate.
      - pose proof (hours_of_sign b sq_ft f ltac:(lia) Hh) as Hs.
        destruct (Z.ltb_spec sq_ft 0); [lia | exact Hs]. }
    destruct (costs_from_hours_nonneg _ _ _ _ _ Hsq Hth Hfrom)
      as (H1 & H2 & H3 & H4 & H5).
    repeat split; apply nonneg_leb; assumption.
  - eexists c, _. split; [exact Hc |].
    destruct (costs_from_hours_nonneg sq_ft scope crew_size (PInt 0) c Hsq
                ltac:(simpl; lia) Hfrom) as (H1 & H2 & H3 & H4 & H5).
    repeat split; apply nonneg_leb; assumption.
  - eexists zero_costs, _. split; [exact Hc |]. repeat split; reflexivity.
Qed.

(** The defaults of the form, with a prep level of the table. *)
Lemma costs_not_negative_witness :
  0 <= 2000 /\
  exists c w',
    calculate_costs 2000 "Interior Only" "Low" 2 empty_world = (Ok c, w') /\
    leb (PInt 0) (total_hours_of c) = true /\
    leb (PInt 0) (hours_per_painter_of c) = true /\
    leb (PInt 0) (labor_cost_of c) = true /\
    leb (PInt 0) (material_cost_of c) = true /\
    leb (PInt 0) (total_cost_of c) = true.
Proof.
  assert (H : 0 <= 2000) by lia.
  split; [exact H |].
  exact (costs_not_negative 2000 "Interior Only" "Low" 2 empty_world H).
Defined.

